(** * modsync: hash-based folder synchronisation

    A shallow embedding of the server ([src/main.py]) and of the client
    ([src/client/main.py]) of the modsync repository, together with the
    properties of the synchronisation protocol and of the archive cache.

    Conventions of the embedding.
    - A Python [str] is the string of its UTF-8 bytes.  Paths are POSIX
      strings ([os.sep] is ["/"]); a file system is a finite map from
      normalised paths to objects, and a path is looked up as it is written:
      [.], [..], doubled separators and links are not resolved.  The
      properties of the paths a peer supplies (the keys of a manifest) are
      stated for normalised paths, see [normalised].
    - [hashlib], [zipfile], [json] and [os.walk] are library code: they are
      the methods of the class [Lib], and every theorem holds for each of its
      instances.  [Toy.lib] is one instance, used to run the code on concrete
      inputs.
    - Python exceptions are the [Raise] outcome of the monad [M]; the
      [try]/[except] blocks of the source are [try_except]. *)

From Stdlib Require Import QArith.
From stdpp Require Import gmap strings list fin_maps pretty.
From Stdlib Require Import Strings.Byte Strings.Ascii Strings.String.

Local Open Scope string_scope.
Local Open Scope list_scope.

(** ** Strings and [os.path] *)

Module Str.

Definition is_slash (c : ascii) : bool := bool_decide (c = "/"%char).

(** [s.startswith(p)] *)
Fixpoint startswith (p s : string) : bool :=
  match p, s with
  | EmptyString, _ => true
  | String a p', String b s' => bool_decide (a = b) && startswith p' s'
  | String _ _, EmptyString => false
  end.

(** [s] without its first [n] bytes. *)
Fixpoint drop (n : nat) (s : string) : string :=
  match n, s with
  | O, _ => s
  | S n', String _ s' => drop n' s'
  | S _, EmptyString => EmptyString
  end.

(** [s[n:]].  Python counts characters: in the UTF-8 bytes of [s] a
    character is a byte that is not a continuation byte (10xxxxxx) and the
    continuation bytes that follow it. *)
Definition is_continuation (c : ascii) : bool :=
  ((128 <=? nat_of_ascii c) && (nat_of_ascii c <? 192))%nat.

Fixpoint skip_continuation (s : string) : string :=
  match s with
  | String c s' => if is_continuation c then skip_continuation s' else s
  | EmptyString => EmptyString
  end.

Fixpoint slice_from (n : nat) (s : string) : string :=
  match n, s with
  | O, _ => s
  | S n', String _ s' => slice_from n' (skip_continuation s')
  | S _, EmptyString => EmptyString
  end.

(** [s.lstrip("/")] *)
Fixpoint lstrip_slash (s : string) : string :=
  match s with
  | String c s' => if is_slash c then lstrip_slash s' else s
  | EmptyString => EmptyString
  end.

(** [s.rstrip("/")] *)
Fixpoint rstrip_slash (s : string) : string :=
  match s with
  | String c s' =>
      let r := rstrip_slash s' in
      if is_slash c && bool_decide (r = EmptyString) then EmptyString
      else String c r
  | EmptyString => EmptyString
  end.

(** The double quote, as a string. *)
Definition dq : string := String (ascii_of_nat 34) EmptyString.

(** ["/" in s] *)
Fixpoint has_slash (s : string) : bool :=
  match s with
  | String c s' => is_slash c || has_slash s'
  | EmptyString => false
  end.

(** [s.endswith("/")] *)
Fixpoint endswith_slash (s : string) : bool :=
  match s with
  | String c EmptyString => is_slash c
  | String _ s' => endswith_slash s'
  | EmptyString => false
  end.

(** [s.split("/", 1)]: the part before the first separator and, when there
    is a separator, the part after it. *)
Fixpoint split1 (s : string) : string * option string :=
  match s with
  | String c s' =>
      if is_slash c then (EmptyString, Some s')
      else let '(h, t) := split1 s' in (String c h, t)
  | EmptyString => (EmptyString, None)
  end.

(** [s.split("/")] *)
Fixpoint split_slash (s : string) : list string :=
  match s with
  | EmptyString => [EmptyString]
  | String c s' =>
      if is_slash c then EmptyString :: split_slash s'
      else
        match split_slash s' with
        | seg :: l => String c seg :: l
        | [] => [String c EmptyString]
        end
  end.

(** The characters of [s] are all below U+0100, so that
    [s.encode("latin-1")] does not raise: in UTF-8 such a character is one
    byte below 128, or the byte 194 or 195 and one continuation byte. *)
Fixpoint latin1 (s : string) : bool :=
  match s with
  | EmptyString => true
  | String c s' =>
      if (nat_of_ascii c <? 128)%nat then latin1 s'
      else if ((nat_of_ascii c =? 194) || (nat_of_ascii c =? 195))%nat then
        match s' with
        | String c' s'' => is_continuation c' && latin1 s''
        | EmptyString => false
        end
      else false
  end.

(** [sub in s] *)
Fixpoint contains (sub s : string) : bool :=
  startswith sub s ||
  match s with
  | String _ s' => contains sub s'
  | EmptyString => false
  end.

End Str.

Module os_path.

(** [posixpath.join(a, b)] *)
Definition join (a b : string) : string :=
  if Str.startswith "/" b || bool_decide (a = "") then b
  else if Str.endswith_slash a then a +:+ b
  else a +:+ "/" +:+ b.

(** [posixpath.basename(p)]: what follows the last separator. *)
Fixpoint basename (p : string) : string :=
  match p with
  | String c p' => if Str.has_slash p then basename p' else p
  | EmptyString => EmptyString
  end.

(** [p[:p.rfind("/") + 1]] *)
Fixpoint head (p : string) : string :=
  match p with
  | String c p' => if Str.has_slash p then String c (head p') else EmptyString
  | EmptyString => EmptyString
  end.

(** [posixpath.dirname(p)] *)
Definition dirname (p : string) : string :=
  let h := head p in
  if bool_decide (Str.lstrip_slash h = "") then h else Str.rstrip_slash h.

(** [os.path.relpath(p, start)] for a path [p] at or below [start], the only
    way the source calls it (on what [os.walk(start)] yields). *)
Definition relpath (p start : string) : string :=
  if Str.startswith start p
  then Str.lstrip_slash (Str.drop (String.length start) p)
  else p.

(** The proper ancestors of a path, outermost first. *)
Fixpoint ancestors_from (pre p : string) : list string :=
  match p with
  | String c p' =>
      (if Str.is_slash c && negb (bool_decide (Str.lstrip_slash pre = ""))
       then [pre] else [])
      ++ ancestors_from (pre +:+ String c EmptyString) p'
  | EmptyString => []
  end.

Definition ancestors (p : string) : list string := ancestors_from "" p.

End os_path.

(** ** The file system, HTTP messages and JSON values *)

(** An object of the file system: a regular file, with its bytes and whether
    this process may open it, or a directory. *)
Inductive fobj :=
| FFile (access : bool) (data : list byte)
| FDir.

Global Instance byte_eq_dec : EqDecision byte := Byte.byte_eq_dec.

Global Instance fobj_eq_dec : EqDecision fobj.
Proof. solve_decision. Defined.

Abbreviation filesystem := (gmap string fobj).

(** A GET request as the handler sees it once [urlparse], [unquote] and
    [parse_qs] have run: the decoded path, the names of the query parameters
    and the offset of a [Range: bytes=N-] header. *)
Record request := Request {
  url_path : string;
  url_query : list string;
  range_from : option nat
}.

Record response := Response {
  status_code : nat;
  content_type : string;
  content : list byte
}.

Global Instance request_eq_dec : EqDecision request.
Proof. solve_decision. Defined.
Global Instance response_eq_dec : EqDecision response.
Proof. solve_decision. Defined.

(** JSON documents as [json.load] returns them: strings, lists, objects (a
    Python [dict], in insertion order, keys distinct) and the other values
    (a number, [true], [false] or [null], kept as its text). *)
Local Unset Elimination Schemes.
Inductive json :=
| JStr (s : string)
| JList (l : list json)
| JDict (d : list (string * json))
| JOther (text : string).
Local Set Elimination Schemes.

(** [d.get(k)] on the items of a [dict]. *)
Fixpoint dict_get {A} (d : list (string * A)) (k : string) : option A :=
  match d with
  | [] => None
  | (k', v) :: d' => if bool_decide (k' = k) then Some v else dict_get d' k
  end.

(** ** External libraries *)

Class Lib := {
  (** [hashlib.md5(data).hexdigest()]: 128 bits, hex-encoded. *)
  md5_hexdigest : list byte -> string;
  md5_hexdigest_length : forall data, String.length (md5_hexdigest data) = 32;
  (** [os.walk(top)]: the [(root, dirs, files)] triples, in the order of the
      walk. *)
  os_walk : filesystem -> string -> list (string * list string * list string);
  (** [os.listdir(path)] *)
  os_listdir : filesystem -> string -> list string;
  (** The bytes of a closed [zipfile.ZipFile] holding these members (archive
      name, data), and the members of such a file ([None]: [BadZipFile]). *)
  zip_image : list (string * list byte) -> list byte;
  zip_members : list byte -> option (list (string * list byte));
  (** [json.dumps(value, ensure_ascii=False, indent=2).encode("utf-8")] and
      [json.loads] ([None]: the text is not JSON). *)
  json_dumps : json -> list byte;
  json_loads : list byte -> option json;
  (** [json.dump(value, f, ensure_ascii=False, indent=2)] on a file opened
      as UTF-8 text: the bytes that reach the file and whether the dump went
      through.  It raises [UnicodeEncodeError] at a string that cannot be
      encoded (a file name that is not UTF-8), with what precedes the string
      written. *)
  json_dump : json -> list byte * bool;
  json_dump_complete : forall value data,
    json_dump value = (data, true) -> data = json_dumps value;
  (** [urllib.parse.quote] *)
  url_quote : string -> string;
  (** [str(value)] of a JSON value that is not a string *)
  py_repr : json -> string;
  (** The page [BaseHTTPRequestHandler.send_error(code, message)] sends. *)
  http_error_body : nat -> string -> list byte;
  (** [format(ratio, ".0%")] *)
  format_percent : Q -> string
}.

(** ** The state of a process and its monad *)

Record world := World {
  fs : filesystem;             (* the disk *)
  stdout : list string;        (* what [print] wrote, oldest first *)
  sent : list request;         (* the requests made with [requests.get] *)
  cache_files : gmap string string  (* the server's global [cache_files] *)
}.

Definition set_fs (f : filesystem) (w : world) : world :=
  World f (stdout w) (sent w) (cache_files w).

Inductive outcome (A : Type) :=
| Ok (a : A)
| Raise (e : string).
Arguments Ok {A} a.
Arguments Raise {A} e.

Definition M (A : Type) : Type := world -> outcome A * world.

Global Instance M_ret : MRet M := fun A a w => (Ok a, w).
Global Instance M_bind : MBind M := fun A B f m w =>
  match m w with
  | (Ok a, w') => f a w'
  | (Raise e, w') => (Raise e, w')
  end.

Global Instance M_fmap : FMap M := fun A B f m w =>
  match m w with
  | (Ok a, w') => (Ok (f a), w')
  | (Raise e, w') => (Raise e, w')
  end.

Definition raise {A} (e : string) : M A := fun w => (Raise e, w).

(** [try: body  except Exception as e: handler(e)] *)
Definition try_except {A} (body : M A) (handler : string -> M A) : M A :=
  fun w =>
    match body w with
    | (Ok a, w') => (Ok a, w')
    | (Raise e, w') => handler e w'
    end.

(** [try: body  finally: final] *)
Definition try_finally {A} (body : M A) (final : M unit) : M A :=
  fun w =>
    match body w with
    | (r, w') =>
        match final w' with
        | (Ok _, w'') => (r, w'')
        | (Raise e, w'') => (Raise e, w'')
        end
    end.

Definition get_fs : M filesystem := fun w => (Ok (fs w), w).
Definition put_fs (f : filesystem) : M unit := fun w => (Ok tt, set_fs f w).

Definition print (line : string) : M unit :=
  fun w => (Ok tt, World (fs w) (stdout w ++ [line]) (sent w) (cache_files w)).

(** [for x in l: body(x)] *)
Fixpoint for_each {A} (l : list A) (body : A -> M unit) : M unit :=
  match l with
  | [] => mret tt
  | x :: l' => body x;; for_each l' body
  end.

(** ** [os], [shutil] and [open] *)

Module os.

(** A path with trailing separators names a directory: the path without
    them (["/"] for the root). *)
Definition dirpath (p : string) : string :=
  if Str.endswith_slash p then
    (if bool_decide (Str.rstrip_slash p = "") then "/" else Str.rstrip_slash p)
  else p.

(** The object a path resolves to; the empty path resolves to nothing. *)
Definition lookup (f : filesystem) (p : string) : option fobj :=
  if bool_decide (p = "") then None
  else if Str.endswith_slash p then
    match f !! dirpath p with
    | Some FDir => Some FDir
    | _ => None
    end
  else f !! p.

Definition exists_ (f : filesystem) (p : string) : bool :=
  match lookup f p with Some _ => true | None => false end.

Definition isfile (f : filesystem) (p : string) : bool :=
  match lookup f p with Some (FFile _ _) => true | _ => false end.

Definition isdir (f : filesystem) (p : string) : bool :=
  match lookup f p with Some FDir => true | _ => false end.

(** [os.path.getsize]: the length of a file; a directory has the size of
    its entry (one block). *)
Definition getsize (p : string) : M nat :=
  f ← get_fs;
  match lookup f p with
  | Some (FFile _ data) => mret (List.length data)
  | Some FDir => mret 4096
  | None => raise "FileNotFoundError"
  end.

(** [os.remove] *)
Definition remove (p : string) : M unit :=
  f ← get_fs;
  match lookup f p with
  | Some (FFile _ _) => put_fs (delete p f)
  | Some FDir => raise "IsADirectoryError"
  | None => raise "FileNotFoundError"
  end.

(** [os.mkdir] of a path that may already be a directory. *)
Definition mkdir_exist_ok (p : string) : M unit :=
  f ← get_fs;
  match f !! dirpath p with
  | None => put_fs (<[dirpath p := FDir]> f)
  | Some FDir => mret tt
  | Some (FFile _ _) => raise "FileExistsError"
  end.

(** [os.makedirs(p, exist_ok=...)]: the missing ancestors are created,
    outermost first, then [p] itself. *)
Definition makedirs (p : string) (exist_ok : bool) : M unit :=
  if bool_decide (p = "") then raise "FileNotFoundError"
  else
    for_each (os_path.ancestors (dirpath p)) mkdir_exist_ok;;
    f ← get_fs;
    match f !! dirpath p with
    | None => put_fs (<[dirpath p := FDir]> f)
    | Some FDir => if exist_ok then mret tt else raise "FileExistsError"
    | Some (FFile _ _) => raise "FileExistsError"
    end.

(** [q] is the directory [p] or lies below it. *)
Definition under (p q : string) : bool :=
  bool_decide (q = dirpath p) || Str.startswith (os_path.join (dirpath p) "") q.

(** [shutil.rmtree] *)
Definition rmtree (p : string) : M unit :=
  f ← get_fs;
  match f !! dirpath p with
  | Some FDir => put_fs (filter (fun kv => under p kv.1 = false) f)
  | Some (FFile _ _) => raise "NotADirectoryError"
  | None => raise "FileNotFoundError"
  end.

(** [open(p, "rb").read()] *)
Definition read (p : string) : M (list byte) :=
  f ← get_fs;
  match lookup f p with
  | Some (FFile true data) => mret data
  | Some (FFile false _) => raise "PermissionError"
  | Some FDir => raise "IsADirectoryError"
  | None => raise "FileNotFoundError"
  end.

(** [open(p, "w")] / [open(p, "wb")]: the file is created or truncated at
    once.  The directory of [p] exists wherever the source opens a file for
    writing. *)
Definition open_w (p : string) : M unit :=
  f ← get_fs;
  if bool_decide (p = "") then raise "FileNotFoundError"
  else if Str.endswith_slash p then raise "IsADirectoryError"
  else
    match f !! p with
    | Some (FFile false _) => raise "PermissionError"
    | Some FDir => raise "IsADirectoryError"
    | _ => put_fs (<[p := FFile true []]> f)
    end.

(** [open(p, "ab")]: the file is created when missing and kept otherwise. *)
Definition open_a (p : string) : M unit :=
  f ← get_fs;
  if bool_decide (p = "") then raise "FileNotFoundError"
  else if Str.endswith_slash p then raise "IsADirectoryError"
  else
    match f !! p with
    | Some (FFile false _) => raise "PermissionError"
    | Some FDir => raise "IsADirectoryError"
    | Some (FFile true _) => mret tt
    | None => put_fs (<[p := FFile true []]> f)
    end.

(** [f.write(data)] on a file opened for writing: the bytes go to its
    end. *)
Definition write (p : string) (data : list byte) : M unit :=
  f ← get_fs;
  match lookup f p with
  | Some (FFile a old) => put_fs (<[p := FFile a (old ++ data)]> f)
  | _ => raise "ValueError"
  end.

End os.

(** * The server, [src/main.py] *)

Module Server.
Section Server.

Context {L : Lib}.

(** The working directory of the process and the global [folders], the
    [dict] read from [config.txt] (key, folder path). *)
Variable cwd : string.
Variable folders : list (string * string).

Definition CLIENT_UPDATE_DIR : string := os_path.join cwd "clientupdate".
Definition CLIENT_VERSION_FILE : string :=
  os_path.join CLIENT_UPDATE_DIR "version.txt".
Definition CACHE_DIR : string := os_path.join cwd "cache_zip".
Definition HASH_RECORD_FILE : string :=
  os_path.join CACHE_DIR "hash_record.json".

Definition IGNORE_PREFIXES : list string := ["serveronly_"].
Definition IGNORE_NAMES : list string := ["ignore_me.txt"].

Definition should_ignore (file_name : string) : bool :=
  existsb (fun p => Str.startswith p file_name) IGNORE_PREFIXES
  || bool_decide (file_name ∈ IGNORE_NAMES).

Definition get_md5 (file_path : string) : M string :=
  try_except
    (data ← os.read file_path; mret (md5_hexdigest data))
    (fun _ => mret "error").

(** The [(root, file)] pairs of
    [for root, dirs, files in os.walk(folder_path): for file in files]. *)
Definition walk_files (f : filesystem) (folder_path : string)
  : list (string * string) :=
  '(root, _, files) ← os_walk f folder_path;
  file ← files;
  [(root, file)].

Fixpoint scan_loop (folder_path : string) (l : list (string * string))
    (result : gmap string string) : M (gmap string string) :=
  match l with
  | [] => mret result
  | (root, file) :: l' =>
      if should_ignore file then scan_loop folder_path l' result
      else
        let abs_path := os_path.join root file in
        let rel_path := os_path.relpath abs_path folder_path in
        h ← get_md5 abs_path;
        scan_loop folder_path l' (<[rel_path := h]> result)
  end.

Definition scan_folder_dict (folder_path : string) : M (gmap string string) :=
  f ← get_fs;
  scan_loop folder_path (walk_files f folder_path) ∅.

Definition files_to_zip (f : filesystem) (folder_path : string)
  : list (string * string) :=
  '(root, file) ← walk_files f folder_path;
  if should_ignore file then []
  else [(os_path.join root file,
         os_path.relpath (os_path.join root file) folder_path)].

(** [zipf.write(abs_path, rel_path)] for each file, in turn: the members
    written so far and, when a file cannot be read, the exception. *)
Fixpoint zip_write_all (l : list (string * string))
    (members : list (string * list byte))
  : M (list (string * list byte) * option string) :=
  match l with
  | [] => mret (members, None)
  | (abs_path, rel_path) :: l' =>
      r ← try_except (data ← os.read abs_path; mret (inr data))
                     (fun e => mret (inl e));
      match r with
      | inr data => zip_write_all l' (members ++ [(rel_path, data)])
      | inl e => mret (members, Some e)
      end
  end.

(** The body of [with zipfile.ZipFile(zip_path, "w") as zipf] and the end
    of the block: the files are added in turn and the container is closed
    over the members written, also when adding a file raised. *)
Definition zip_fill (files_to_zip : list (string * string))
    (zip_path : string) : M unit :=
  '(members, err) ← zip_write_all files_to_zip [];
  os.write zip_path (zip_image members);;
  match err with
  | Some e => raise e
  | None => mret tt
  end.

(** [zipfile.ZipFile(zip_path, "w")] opens, and so truncates, [zip_path].
    (The progress display on [sys.stdout] is not modelled.) *)
Definition zip_folder (folder_path zip_path : string) : M unit :=
  f ← get_fs;
  let files_to_zip := files_to_zip f folder_path in
  os.open_w zip_path;;
  zip_fill files_to_zip zip_path.

(** The manifest and the hash record as JSON documents. *)
Definition manifest_json (m : gmap string string) : json :=
  JDict ((fun kv => (kv.1, JStr kv.2)) <$> map_to_list m).

Definition record_json (r : gmap string (gmap string string)) : json :=
  JDict ((fun kv => (kv.1, manifest_json kv.2)) <$> map_to_list r).

(** The manifest a JSON value stands for, when it is an object whose values
    are all strings. *)
Definition json_manifest (j : json) : option (gmap string string) :=
  match j with
  | JDict d =>
      list_to_map <$>
        mapM (fun kv => match kv.2 with
                        | JStr s => Some (kv.1, s)
                        | _ => None
                        end) d
  | _ => None
  end.

Definition load_json (p : string) : M json :=
  data ← os.read p;
  match json_loads data with
  | Some j => mret j
  | None => raise "JSONDecodeError"
  end.

Definition load_old_hash : M json :=
  f ← get_fs;
  if os.exists_ f HASH_RECORD_FILE then
    try_except (load_json HASH_RECORD_FILE) (fun _ => mret (JDict []))
  else mret (JDict []).

Definition save_hash_record (record : gmap string (gmap string string))
  : M unit :=
  os.open_w HASH_RECORD_FILE;;
  let '(data, complete) := json_dump (record_json record) in
  os.write HASH_RECORD_FILE data;;
  if complete then mret tt else raise "UnicodeEncodeError".

(** [key not in old_hash or new_hash[key] != old_hash[key]], for whatever
    JSON value the record file held: [in] looks for the key among the keys of
    an object, among the elements of a list and among the substrings of a
    string, and is not defined on the other values; only an object can be
    indexed by the key. *)
Definition changed (old_hash : json) (key : string)
    (manifest : gmap string string) : M bool :=
  match old_hash with
  | JDict d =>
      match dict_get d key with
      | None => mret true
      | Some j => mret (negb (bool_decide (json_manifest j = Some manifest)))
      end
  | JList l =>
      if existsb (fun j => match j with
                           | JStr s => bool_decide (s = key)
                           | _ => false
                           end) l
      then raise "TypeError" else mret true
  | JStr s => if Str.contains key s then raise "TypeError" else mret true
  | JOther _ => raise "TypeError"
  end.

Definition zip_path_of (key : string) : string :=
  os_path.join CACHE_DIR (key +:+ ".zip").

Fixpoint scan_all (old_hash : json) (l : list (string * string))
    (new_hash : gmap string (gmap string string)) (changed_keys : list string)
  : M (gmap string (gmap string string) * list string) :=
  match l with
  | [] => mret (new_hash, changed_keys)
  | (key, folder_path) :: l' =>
      m ← scan_folder_dict folder_path;
      changed old_hash key m ≫= fun c : bool =>
      scan_all old_hash l' (<[key := m]> new_hash)
        (if c then changed_keys ++ [key] else changed_keys)
  end.

(** One task of the thread pool and the collection of its result. *)
Definition rebuild (key : string) : M unit :=
  match dict_get folders key with
  | Some folder_path =>
      try_except
        (zip_folder folder_path (zip_path_of key);;
         print ("[快取更新完成] " +:+ key))
        (fun e => print ("[快取失敗] " +:+ key +:+ ": " +:+ e))
  | None => raise "KeyError"
  end.

Definition set_cache_file (key : string) : M unit :=
  fun w => (Ok tt, World (fs w) (stdout w) (sent w)
                     (<[key := zip_path_of key]> (cache_files w))).

(** The tasks of the pool write distinct files; they are run here one after
    the other, in the order of [changed_keys]. *)
Definition create_zip_cache : M unit :=
  print "🗜️ 正在檢查 ZIP 快取...";;
  old_hash ← load_old_hash;
  '(new_hash, changed_keys) ← scan_all old_hash folders ∅ [];
  (match changed_keys with
   | [] => print "✅ 所有資料夾與快照相同，使用現有快取。"
   | _ =>
       print ("♻️ 偵測到變動的資料夾: " +:+ String.concat ", " changed_keys);;
       for_each changed_keys rebuild
   end);;
  for_each (folders.*1) set_cache_file;;
  save_hash_record new_hash;;
  print "📦 快取初始化完成！".


(** *** The request handler *)

Definition get_cache_files : M (gmap string string) :=
  fun w => (Ok (cache_files w), w).

Definition _send_html (html : string) : M response :=
  let full_html :=
    "<html><head><meta charset='utf-8'><title>Server</title></head>"
    +:+ "<body style='background-color:#f3ecfc;color:#2b1d40;font-family:sans-serif;padding:20px;'>"
    +:+ html +:+ "</body></html>" in
  mret (Response 200 "text/html; charset=utf-8" (list_byte_of_string full_html)).

Definition _send_json (data : json) : M response :=
  mret (Response 200 "application/json; charset=utf-8" (json_dumps data)).

(** [send_error] encodes the status line, which carries the message, as
    latin-1 before anything is sent. *)
Definition send_error (code : nat) (message : string) : M response :=
  if Str.latin1 message then
    mret (Response code "text/html;charset=utf-8" (http_error_body code message))
  else raise "UnicodeEncodeError".

(** Only the status, the content type and the body of a response are
    modelled.  The status and the headers go out before the file is opened:
    when it cannot be opened the exception ends the handler, and what the
    client has is the status and the headers with no body. *)
Definition _send_file (file_path : string) (download : bool) : M response :=
  f ← get_fs;
  if negb (os.exists_ f file_path) then
    send_error 404 (file_path +:+ " not found")
  else
    try_except
      (data ← os.read file_path;
       mret (Response 200 "application/octet-stream" data))
      (fun _ => mret (Response 200 "application/octet-stream" [])).

Definition fstr (j : json) : string :=
  match j with
  | JStr s => s
  | _ => py_repr j
  end.

Definition dict_get_default (d : list (string * json)) (k : string)
    (default : string) : string :=
  match dict_get d k with
  | Some v => fstr v
  | None => default
  end.

Definition send_clientupdate_page : M response :=
  f ← get_fs;
  '(latest_version, note, file_to_download) ←
    (if os.exists_ f CLIENT_VERSION_FILE then
       try_except
         (version_info ← load_json CLIENT_VERSION_FILE;
          match version_info with
          | JDict d =>
              mret (dict_get_default d "version" "未知",
                    dict_get_default d "note" "",
                    dict_get_default d "file" "client.zip")
          | _ => raise "AttributeError"
          end)
         (fun e => print ("解析 version.txt 失敗: " +:+ e);;
                   mret ("未知", "", "client.zip"))
     else mret ("未知", "", "client.zip"));
  _send_html ("
        <h2>最新版本: " +:+ latest_version +:+ "</h2>
        <pre>" +:+ note +:+ "</pre>
        <div style=" +:+ Str.dq +:+ "margin-top:20px;" +:+ Str.dq +:+ ">
            <a href='/clientupdate/" +:+ file_to_download +:+ "?download=1'>
                <button style=" +:+ Str.dq +:+ "background:#7c4ed8;color:white;border:none;padding:10px 20px;border-radius:8px;cursor:pointer;" +:+ Str.dq +:+ ">下載更新</button>
            </a>
            <a href='http://modpack.barian.moe' target=" +:+ Str.dq +:+ "_blank" +:+ Str.dq +:+ " style=" +:+ Str.dq +:+ "margin-left:10px;" +:+ Str.dq +:+ ">
                <button style=" +:+ Str.dq +:+ "background:#4caf50;color:white;border:none;padding:10px 20px;border-radius:8px;cursor:pointer;" +:+ Str.dq +:+ ">前往 Modpack</button>
            </a>
        </div>
        ").

Definition send_folder_listing (key folder_path sub_path : string)
  : M response :=
  f ← get_fs;
  let html := "<h2 style='color:#4a2a8a;'>📁 Folder: /" +:+ key in
  let html := if bool_decide (sub_path = "") then html
              else html +:+ "/" +:+ sub_path in
  let html := html +:+ "</h2><ul>" in
  let html :=
    foldl (fun html entry =>
             if should_ignore entry then html
             else
               let entry_path := os_path.join folder_path entry in
               let entry_url :=
                 "/" +:+ key +:+ "/" +:+
                 url_quote (if bool_decide (sub_path = "") then entry
                            else sub_path +:+ "/" +:+ entry) in
               let icon := if os.isdir f entry_path then "📂" else "📄" in
               html +:+ "<li>" +:+ icon +:+ " <a href='" +:+ entry_url +:+
               (if os.isfile f entry_path then "?download=1" else "") +:+
               "'>" +:+ entry +:+ "</a></li>")
          html (os_listdir f folder_path) in
  let html := html +:+ "</ul><hr><a href='/'>返回首頁</a> | " in
  let html := html +:+ "<a href='/" +:+ key +:+ "?download=1'>下載整包 ZIP</a>" in
  _send_html html.

Definition send_homepage : M response :=
  let html := "<h2 style='color:#4a2a8a;'>📦 資料夾清單</h2><ul>" in
  let html :=
    foldl (fun html key =>
             html +:+ "<li>[DIR] <a href='/" +:+ key +:+ "'>" +:+ key +:+ "</a> "
             +:+ "<a href='/" +:+ key +:+
             "?download=1' style='margin-left:10px;'>📥 下載整包</a></li>")
          html (folders.*1) in
  let html := html +:+ "</ul>" in
  _send_html html.

(** The manifest the [json] branch sends: the entry of the hash record for
    the key when the record can be read and has one, a fresh scan
    otherwise. *)
Definition manifest_for (key real_path : string) : M json :=
  try_except
    (hash_record ← load_json HASH_RECORD_FILE;
     scanned ← scan_folder_dict real_path;
     match hash_record with
     | JDict d =>
         match dict_get d key with
         | Some files_md5 => mret files_md5
         | None => mret (manifest_json scanned)
         end
     | _ => raise "AttributeError"
     end)
    (fun _ => manifest_json <$> scan_folder_dict real_path).

Definition do_GET (req : request) : M response :=
  let path := url_path req in
  let download_mode := bool_decide ("download" ∈ url_query req) in
  let json_mode := bool_decide ("json" ∈ url_query req) in
  if Str.startswith "/clientupdate" path then
    let parts :=
      Str.lstrip_slash (Str.slice_from (String.length "/clientupdate/") path) in
    if bool_decide (parts = "") then send_clientupdate_page
    else
      let file_name := parts in
      let update_file_path := os_path.join CLIENT_UPDATE_DIR file_name in
      f ← get_fs;
      if os.exists_ f update_file_path then _send_file update_file_path true
      else send_error 404 (file_name +:+ " not found")
  else if bool_decide (Str.lstrip_slash path = "config_names") && json_mode
  then _send_json (JList (JStr <$> folders.*1))
  else
    let parts := Str.split1 (Str.lstrip_slash path) in
    match dict_get folders parts.1 with
    | Some folder_base =>
        let sub_path := default "" parts.2 in
        let real_path := os_path.join folder_base sub_path in
        if should_ignore (os_path.basename real_path) then
          send_error 404 "File is ignored"
        else
          f ← get_fs;
          if os.isfile f real_path then _send_file real_path true
          else if os.isdir f real_path then
            if download_mode then
              cache ← get_cache_files;
              match cache !! parts.1 with
              | Some zip_path =>
                  if negb (bool_decide (zip_path = ""))
                     && os.exists_ f zip_path
                  then _send_file zip_path true
                  else send_homepage
              | None => send_homepage
              end
            else if json_mode then
              files_md5 ← manifest_for parts.1 real_path;
              _send_json files_md5
            else send_folder_listing parts.1 real_path sub_path
          else send_homepage
    | None => send_homepage
    end.

(** One request: a handler that raises sends no response. *)
Definition handle (req : request) : M (option response) :=
  try_except (Some <$> do_GET req) (fun _ => mret None).

(** [HTTPServer.serve_forever]: the requests are handled one at a time. *)
Fixpoint serve_forever (reqs : list request) : M (list (option response)) :=
  match reqs with
  | [] => mret []
  | req :: reqs' =>
      r ← handle req;
      rs ← serve_forever reqs';
      mret (r :: rs)
  end.

(** The [__main__] block: the cache is brought up to date, then the server
    starts. *)
Definition main (reqs : list request) : M (list (option response)) :=
  print "
🚀 伺服器啟動中: http://localhost:8000";;
  create_zip_cache;;
  serve_forever reqs.

End Server.
End Server.

(** * The client, [src/client/main.py] *)

Module Client.
Section Client.

Context {L : Lib}.

(** The working directory of the process and the server at [server_url] as
    the client sees it: the response to a request, or [None] when the
    connection fails. *)
Variable cwd : string.
Variable http : request -> option response.

Definition server_url : string := "http://localhost:8000".

(** The URL of a request, as the client writes it (every query parameter it
    sends has the value [1]). *)
Definition url_text (req : request) : string :=
  server_url +:+ url_path req +:+ "?" +:+
  String.concat "&" ((fun name => name +:+ "=1") <$> url_query req).

(** [requests.get] *)
Definition requests_get (req : request) : M response :=
  fun w =>
    let w' := World (fs w) (stdout w) (sent w ++ [req]) (cache_files w) in
    match http req with
    | Some r => (Ok r, w')
    | None => (Raise "ConnectionError", w')
    end.

Definition get_md5 (file_path : string) : M (option string) :=
  try_except
    (data ← os.read file_path; mret (Some (md5_hexdigest data)))
    (fun _ => mret None).

(** The truth value of [local_md5]: [None] and the empty string are
    false. *)
Definition truthy (local_md5 : option string) : bool :=
  match local_md5 with
  | Some h => negb (bool_decide (h = ""))
  | None => false
  end.

(** [local_md5 != value] *)
Definition differs (local_md5 : option string) (value : json) : bool :=
  match local_md5, value with
  | Some h, JStr s => negb (bool_decide (h = s))
  | _, _ => true
  end.

Fixpoint count_value (v : json) : nat :=
  match v with
  | JDict d =>
      (fix count_items (d : list (string * json)) : nat :=
         match d with
         | [] => 0
         | (_, v') :: d' => count_value v' + count_items d'
         end) d
  | _ => 1
  end.

Fixpoint count_server_files (server_dict : list (string * json)) : nat :=
  match server_dict with
  | [] => 0
  | (_, v) :: d' => count_value v + count_server_files d'
  end.

(** [f"{rel_path}/{name}" if rel_path else name] *)
Definition local_rel_of (rel_path name : string) : string :=
  if bool_decide (rel_path = "") then name else rel_path +:+ "/" +:+ name.

(** The body of the loop of [collect_download_tasks] for an entry that is
    not a [dict]. *)
Definition collect_leaf (local_base local_rel : string) (value : json)
  : M (list string) :=
  let local_abs := os_path.join local_base local_rel in
  f ← get_fs;
  local_md5 ← (if os.exists_ f local_abs then get_md5 local_abs
               else mret None);
  if negb (truthy local_md5) || differs local_md5 value then
    (if truthy local_md5 then
       print ("[校驗碼不同] " +:+ local_rel);;
       os.remove local_abs
     else print ("[檔案缺失] " +:+ local_rel));;
    mret [local_rel]
  else
    print ("[正確] " +:+ local_rel);;
    mret [].

(** The body of the loop for one entry; the inner [fix] is the recursive
    call on a nested [dict]. *)
Fixpoint collect_entry (local_base local_rel : string) (value : json)
  : M (list string) :=
  match value with
  | JDict d =>
      os.makedirs (os_path.join local_base local_rel) true;;
      (fix collect_items (d : list (string * json)) (tasks : list string)
         : M (list string) :=
         match d with
         | [] => mret tasks
         | (name, v) :: d' =>
             t ← collect_entry local_base (local_rel_of local_rel name) v;
             collect_items d' (tasks ++ t)
         end) d []
  | _ => collect_leaf local_base local_rel value
  end.

Fixpoint collect_loop (local_base rel_path : string)
    (server_dict : list (string * json)) (tasks : list string)
  : M (list string) :=
  match server_dict with
  | [] => mret tasks
  | (name, v) :: d' =>
      t ← collect_entry local_base (local_rel_of rel_path name) v;
      collect_loop local_base rel_path d' (tasks ++ t)
  end.

Definition collect_download_tasks (server_dict : list (string * json))
    (local_base rel_path : string) : M (list string) :=
  collect_loop local_base rel_path server_dict [].

(** [zip_ref.extractall(extract_to)], for members named by relative paths,
    as [zip_folder] writes them. *)
Definition extract_member (extract_to : string)
    (member : string * list byte) : M unit :=
  let targetpath := os_path.join extract_to member.1 in
  let upperdirs := os_path.dirname targetpath in
  f ← get_fs;
  (if negb (bool_decide (upperdirs = "")) && negb (os.exists_ f upperdirs)
   then os.makedirs upperdirs false else mret tt);;
  os.open_w targetpath;;
  os.write targetpath member.2.

Definition download_and_extract_zip (zip_url : request) (extract_to : string)
  : M unit :=
  let zip_local := os_path.join cwd "temp.zip" in
  try_finally
    (try_except
       (print ("📦 下載 ZIP: " +:+ url_text zip_url);;
        r ← requests_get zip_url;
        os.open_w zip_local;;
        os.write zip_local (content r);;
        print "🧩 下載完成，開始解壓縮 ...";;
        data ← os.read zip_local;
        match zip_members data with
        | Some members => for_each members (extract_member extract_to)
        | None => raise "BadZipFile"
        end;;
        print "✅ 解壓完成。")
       (fun e => print ("❌ 下載或解壓失敗: " +:+ e)))
    (f ← get_fs;
     if os.exists_ f zip_local then os.remove zip_local else mret tt).

(** One pass of the retry loop: [true] when the file was written.  The
    client quotes [file_path] in the URL and the handler unquotes the path it
    receives, so the request carries [file_path] itself. *)
Definition download_attempt (folder_key file_path local_path : string)
  : M bool :=
  try_except
    (f ← get_fs;
     existing_size ← (if os.exists_ f local_path then os.getsize local_path
                      else mret 0);
     let headers := if os.exists_ f local_path then Some existing_size
                    else None in
     r ← requests_get
           (Request ("/" +:+ folder_key +:+ "/" +:+ file_path)
                    ["download"] headers);
     if bool_decide (status_code r = 200) || bool_decide (status_code r = 206)
     then
       (if bool_decide (0 < existing_size) then os.open_a local_path
        else os.open_w local_path);;
       os.write local_path (content r);;
       print ("[下載完成] " +:+ folder_key +:+ "/" +:+ file_path);;
       mret true
     else
       print ("[下載失敗] " +:+ folder_key +:+ "/" +:+ file_path +:+ ": HTTP "
              +:+ pretty (status_code r));;
       mret false)
    (fun e =>
       print ("[下載錯誤] " +:+ folder_key +:+ "/" +:+ file_path +:+ ": " +:+ e);;
       mret false).

(** [for attempt in range(max_retries)] ([time.sleep] has no effect on the
    state). *)
Fixpoint download_retry (max_retries : nat)
    (folder_key file_path local_path : string) : M bool :=
  match max_retries with
  | O => mret false
  | S n =>
      download_attempt folder_key file_path local_path ≫= fun written : bool =>
      if written then mret true
      else download_retry n folder_key file_path local_path
  end.

Definition download_file (folder_key file_path save_dir : string)
    (max_retries : nat) : M bool :=
  let local_path := os_path.join save_dir file_path in
  os.makedirs (os_path.dirname local_path) true;;
  download_retry max_retries folder_key file_path local_path.

(** *** The main loop *)

Record folder_info := FolderInfo {
  path : string;
  force : bool
}.

(** The global [folders]: key, destination path and [force] flag. *)
Variable folders : list (string * folder_info).

Definition max_workers : nat := 8.

(** [a > b] on the ratio.  [len(tasks) / total_files] is the double nearest
    to the quotient; compared with [0.5] it decides as the exact quotient
    does, for every count below 2^52. *)
Definition Qgtb (a b : Q) : bool :=
  match (a ?= b)%Q with
  | Gt => true
  | _ => false
  end.

Definition archive_url (key : string) : request :=
  Request ("/" +:+ key) ["download"] None.

Definition manifest_url (key : string) : request :=
  Request ("/" +:+ key +:+ "/") ["json"] None.

(** [try: resp = requests.get(...) ... server_files = resp.json()
    except ...: continue]; [None] stands for [continue]. *)
Definition fetch_manifest (key : string) : M (option json) :=
  try_except
    (resp ← requests_get (manifest_url key);
     if negb (bool_decide (status_code resp = 200)) then
       print ("無法取得服務器檔案列表: " +:+ key);;
       mret None
     else
       match json_loads (content resp) with
       | Some server_files => mret (Some server_files)
       | None => raise "JSONDecodeError"
       end)
    (fun e => print ("取得檔案列表失敗: " +:+ e);; mret None).

(** The pool of [max_workers] threads: every task is run, and what a task
    raises stays in its future.  The tasks write distinct files; they are
    run here one after the other. *)
Definition fetch_all (key folder_path : string) (tasks : list string)
  : M unit :=
  for_each tasks
    (fun t => try_except (download_file key t folder_path 3;; mret tt)
                         (fun _ => mret tt)).

(** The choice made by [if ratio > 0.5: ... elif tasks: ... else: ...]. *)
Inductive strategy :=
| FullArchive
| Itemized
| NothingToDo.

Definition select_strategy (ratio : Q) (tasks : list string) : strategy :=
  if Qgtb ratio (1 # 2) then FullArchive
  else if negb (bool_decide (tasks = [])) then Itemized
  else NothingToDo.

(** The three branches. *)
Definition run_strategy (s : strategy) (key folder_path : string)
    (tasks : list string) : M unit :=
  match s with
  | FullArchive =>
      print "[超過一半檔案需要更新] 下載整個資料夾 ZIP";;
      os.rmtree folder_path;;
      os.makedirs folder_path false;;
      download_and_extract_zip (archive_url key) folder_path
  | Itemized =>
      print ("開始下載 " +:+ pretty (List.length tasks) +:+ " 個檔案 ...");;
      fetch_all key folder_path tasks
  | NothingToDo => print "所有檔案均正確，無需下載。"
  end.

(** [ratio = len(tasks) / total_files] *)
Definition change_ratio (tasks : list string) (total_files : nat) : Q :=
  (Z.of_nat (List.length tasks) # Pos.of_nat total_files)%Q.

(** The [force] branch. *)
Definition force_replace (key folder_path : string) : M unit :=
  f ← get_fs;
  (if os.exists_ f folder_path then
     print ("[force] 刪除 " +:+ folder_path);;
     os.rmtree folder_path
   else mret tt);;
  os.makedirs folder_path false;;
  download_and_extract_zip (archive_url key) folder_path.

(** The body of [for key, info in folders.items()]. *)
Definition sync_folder (key : string) (info : folder_info) : M unit :=
  let folder_path := path info in
  print ("
🔍 檢查資料夾 " +:+ key +:+ " ...");;
  if force info then force_replace key folder_path
  else
    fetched ← fetch_manifest key;
    match fetched with
    | None => mret tt
    | Some (JDict server_files) =>
        tasks ← collect_download_tasks server_files folder_path "";
        let total_files := count_server_files server_files in
        if bool_decide (total_files = 0) then
          print (key +:+ ": 伺服器資料夾為空，略過。")
        else
          let ratio := change_ratio tasks total_files in
          print (key +:+ ": 缺失/不同檔案比例 " +:+ format_percent ratio);;
          run_strategy (select_strategy ratio tasks) key folder_path tasks
    | Some _ => raise "AttributeError"
    end.

Definition main : M unit :=
  for_each folders (fun kv => sync_folder kv.1 kv.2).

End Client.
End Client.

(** * An instance of the libraries

    Stand-ins for the library functions, simple enough to compute with: a
    checksum of 32 hex digits for the digest, length-prefixed containers for
    [zipfile] and [json], and a directory walk over the paths of the map. *)

Module Toy.

Definition byte_of (n : nat) : byte :=
  default x00 (Byte.of_nat (n mod 256)).

Definition bytes (s : string) : list byte := list_byte_of_string s.

Definition hex_digit (n : N) : ascii :=
  nth (N.to_nat (n mod 16)) (list_ascii_of_string "0123456789abcdef") "0"%char.

Definition checksum (data : list byte) : N :=
  foldl (fun acc b => (31 * acc + Byte.to_N b + 7) mod 65536)%N 5381%N data.

Definition md5 (data : list byte) : string :=
  let n := checksum data in
  "0000000000000000000000000000" +:+
  String (hex_digit (n / 4096)) (String (hex_digit (n / 256))
    (String (hex_digit (n / 16)) (String (hex_digit n) EmptyString))).

Lemma md5_length data : String.length (md5 data) = 32.
Proof. reflexivity. Qed.

(** The direct children of a directory: the paths whose [dirname] is the
    directory. *)
Definition children (f : filesystem) (d : string) : list (string * fobj) :=
  filter (fun kv => os_path.dirname kv.1 = Str.rstrip_slash d
                    /\ os_path.basename kv.1 <> "")
         (map_to_list f).

Definition is_dir (kv : string * fobj) : bool :=
  match kv.2 with FDir => true | _ => false end.

Definition listdir (f : filesystem) (d : string) : list string :=
  (fun kv => os_path.basename kv.1) <$> children f d.

Definition walk_dir (f : filesystem) (d : string)
  : string * list string * list string :=
  (d,
   (fun kv => os_path.basename kv.1) <$> filter (fun kv => is_dir kv = true) (children f d),
   (fun kv => os_path.basename kv.1) <$> filter (fun kv => is_dir kv = false) (children f d)).

Definition walk (f : filesystem) (top : string)
  : list (string * list string * list string) :=
  walk_dir f top ::
  (walk_dir f <$>
     ((map_to_list f).*1 ++ []) ≫= fun p =>
       if os.isdir f p && os.under top p && negb (bool_decide (p = top))
       then [p] else []).

(** Length-prefixed containers. *)
Definition frame (data : list byte) : list byte :=
  byte_of (List.length data) :: data.

Definition unframe (data : list byte) : option (list byte * list byte) :=
  match data with
  | n :: rest =>
      if bool_decide (Byte.to_nat n <= List.length rest)
      then Some (take (Byte.to_nat n) rest, drop (Byte.to_nat n) rest)
      else None
  | [] => None
  end.

Definition pk_image (members : list (string * list byte)) : list byte :=
  bytes "PK" ++ (members ≫= fun m => frame (bytes m.1) ++ frame m.2).

Fixpoint unzip (fuel : nat) (data : list byte)
  : option (list (string * list byte)) :=
  match fuel, data with
  | _, [] => Some []
  | S fuel', _ =>
      '(name, rest) ← unframe data;
      '(body, rest') ← unframe rest;
      members ← unzip fuel' rest';
      Some ((string_of_list_byte name, body) :: members)
  | O, _ => None
  end.

Definition pk_members (data : list byte) : option (list (string * list byte)) :=
  match data with
  | "P"%byte :: "K"%byte :: rest => unzip (List.length rest) rest
  | _ => None
  end.

Fixpoint js_image (j : json) : list byte :=
  match j with
  | JStr s => "S"%byte :: frame (bytes s)
  | JList l =>
      "L"%byte :: byte_of (List.length l) ::
      (fix items (l : list json) : list byte :=
         match l with
         | [] => []
         | x :: l' => js_image x ++ items l'
         end) l
  | JDict d =>
      "D"%byte :: byte_of (List.length d) ::
      (fix items (d : list (string * json)) : list byte :=
         match d with
         | [] => []
         | (k, v) :: d' => frame (bytes k) ++ js_image v ++ items d'
         end) d
  | JOther text => "O"%byte :: frame (bytes text)
  end.

Fixpoint parse (fuel : nat) (data : list byte) : option (json * list byte) :=
  match fuel with
  | O => None
  | S fuel' =>
      match data with
      | "S"%byte :: rest =>
          '(s, rest') ← unframe rest;
          Some (JStr (string_of_list_byte s), rest')
      | "O"%byte :: rest =>
          '(s, rest') ← unframe rest;
          Some (JOther (string_of_list_byte s), rest')
      | "L"%byte :: n :: rest =>
          (fix items (n : nat) (rest : list byte) : option (json * list byte) :=
             match n with
             | O => Some (JList [], rest)
             | S n' =>
                 '(x, rest') ← parse fuel' rest;
                 '(tl, rest'') ← items n' rest';
                 match tl with
                 | JList l => Some (JList (x :: l), rest'')
                 | _ => None
                 end
             end) (Byte.to_nat n) rest
      | "D"%byte :: n :: rest =>
          (fix items (n : nat) (rest : list byte) : option (json * list byte) :=
             match n with
             | O => Some (JDict [], rest)
             | S n' =>
                 '(k, rest0) ← unframe rest;
                 '(v, rest') ← parse fuel' rest0;
                 '(tl, rest'') ← items n' rest';
                 match tl with
                 | JDict d => Some (JDict ((string_of_list_byte k, v) :: d), rest'')
                 | _ => None
                 end
             end) (Byte.to_nat n) rest
      | _ => None
      end
  end.

Definition js_loads (data : list byte) : option json :=
  match parse (S (List.length data)) data with
  | Some (j, []) => Some j
  | _ => None
  end.

Definition percent (q : Q) : string :=
  pretty (Z.to_nat (100 * Qnum q / Z.pos (Qden q))) +:+ "%".

#[local] Instance lib : Lib := {|
  md5_hexdigest := md5;
  md5_hexdigest_length := md5_length;
  os_walk := walk;
  os_listdir := listdir;
  zip_image := pk_image;
  zip_members := pk_members;
  json_dumps := js_image;
  json_loads := js_loads;
  json_dump := fun j => (js_image j, true);
  json_dump_complete := fun j data H => eq_sym (f_equal fst H);
  url_quote := fun s => s;
  py_repr := fun _ => "?";
  http_error_body := fun code message => bytes message;
  format_percent := percent
|}.

End Toy.

(** * The code on concrete inputs *)

Module Scenario.

Import Toy.
#[local] Existing Instance Toy.lib.

(** A server with one folder, [mods], holding a.txt and a file b.txt that
    cannot be read, and the archive of an earlier state of the folder. *)
Definition folders : list (string * string) := [("mods", "/srv/mods")].

Definition old_archive : list byte :=
  pk_image [("a.txt", bytes "old!"); ("b.txt", bytes "old?")].

Definition server : world :=
  World (list_to_map
           [("/srv", FDir); ("/srv/mods", FDir);
            ("/srv/mods/a.txt", FFile true (bytes "abcd"));
            ("/srv/mods/b.txt", FFile false (bytes "zz"));
            ("/srv/cache_zip", FDir);
            ("/srv/cache_zip/mods.zip", FFile true old_archive)])
        [] [] ∅.

Definition archive_path : string := "/srv/cache_zip/mods.zip".
Definition record_path : string := "/srv/cache_zip/hash_record.json".

(** The state after one pass, and after a second one. *)
Definition pass1 : outcome unit * world :=
  Server.create_zip_cache "/srv" folders server.
Definition pass2 : outcome unit * world :=
  Server.create_zip_cache "/srv" folders pass1.2.

(** The record of the first pass. *)
Definition record1 : json :=
  JDict [("mods", JDict [("a.txt", JStr (md5 (bytes "abcd")));
                         ("b.txt", JStr "error")])].

(** A server whose folder can be read: a.txt and b/c.txt. *)
Definition server_ok : world :=
  World (list_to_map
           [("/srv", FDir); ("/srv/mods", FDir);
            ("/srv/mods/a.txt", FFile true (bytes "abcd"));
            ("/srv/mods/b", FDir);
            ("/srv/mods/b/c.txt", FFile true (bytes "xyz"));
            ("/srv/cache_zip", FDir)])
        [] [] ∅.

Definition serving : world := (Server.create_zip_cache "/srv" folders server_ok).2.

(** The server as a client sees it. *)
Definition http (req : request) : option response :=
  match Server.handle "/srv" folders req serving with
  | (Ok resp, _) => resp
  | (Raise _, _) => None
  end.

(** A client whose mirror holds a.txt, up to date, and a file of its
    own. *)
Definition client : world :=
  World (list_to_map
           [("/home", FDir); ("/home/u", FDir); ("/home/u/mods", FDir);
            ("/home/u/mods/a.txt", FFile true (bytes "abcd"));
            ("/home/u/mods/notes.txt", FFile true (bytes "mine"))])
        [] [] ∅.

(** A client whose mirror holds the first two bytes of a.txt. *)
Definition client_partial : world :=
  World (list_to_map
           [("/home", FDir); ("/home/u", FDir); ("/home/u/mods", FDir);
            ("/home/u/mods/a.txt", FFile true (bytes "ab"))])
        [] [] ∅.

Definition manifest : list (string * json) :=
  [("a.txt", JStr (md5 (bytes "abcd"))); ("b/c.txt", JStr (md5 (bytes "xyz")))].

(** The same manifest in its nested form, a tree of objects that mirrors the
    directories, and a server that answers the manifest request with it. *)
Definition nested_manifest : list (string * json) :=
  [("a.txt", JStr (md5 (bytes "abcd")));
   ("b", JDict [("c.txt", JStr (md5 (bytes "xyz")))])].

Definition http_nested (req : request) : option response :=
  if bool_decide (req = Client.manifest_url "mods") then
    Some (Response 200 "application/json; charset=utf-8"
            (js_image (JDict nested_manifest)))
  else None.

(** A client whose mirror holds a.txt, up to date, and a regular file named
    b. *)
Definition client_file_b : world :=
  World (list_to_map
           [("/home", FDir); ("/home/u", FDir); ("/home/u/mods", FDir);
            ("/home/u/mods/a.txt", FFile true (bytes "abcd"));
            ("/home/u/mods/b", FFile true (bytes "note"))])
        [] [] ∅.










(** A server disk with a file outside of the registered folder. *)
Definition server_etc : world :=
  World (list_to_map
           [("/srv", FDir); ("/srv/mods", FDir);
            ("/srv/mods/a.txt", FFile true (bytes "abcd"));
            ("/etc", FDir); ("/etc/passwd", FFile true (bytes "root:x:0:0"))])
        [] [] ∅.

(** A client whose mirror is an empty directory. *)
Definition client_empty : world :=
  World (list_to_map [("/home", FDir); ("/home/u", FDir); ("/home/u/mods", FDir)])
        [] [] ∅.

(** A server that honours the range of a request. *)
Definition ranged (source : list byte) (req : request) : option response :=
  match range_from req with
  | Some n => Some (Response 206 "application/octet-stream" (drop n source))
  | None => Some (Response 200 "application/octet-stream" source)
  end.

(** A server that answers every request with the same JSON document. *)
Definition answering (j : json) (req : request) : option response :=
  Some (Response 200 "application/json; charset=utf-8" (js_image j)).

End Scenario.

(** * Properties *)

(** ** Strings and paths *)

Module StrFacts.

Lemma length_app (s1 s2 : string) :
  String.length (s1 +:+ s2) = String.length s1 + String.length s2.
Proof. induction s1 as [|c s1 IH]; simpl; [reflexivity | now rewrite IH]. Qed.

Lemma app_inv_head (s s1 s2 : string) : s +:+ s1 = s +:+ s2 -> s1 = s2.
Proof.
  induction s as [|c s IH]; simpl; intros H; [exact H|].
  injection H as H. exact (IH H).
Qed.

End StrFacts.

Example join_rel : os_path.join "/srv/mods" "a/b.jar" = "/srv/mods/a/b.jar".
Proof. reflexivity. Qed.
Example join_abs : os_path.join "/srv/mods" "/etc/passwd" = "/etc/passwd".
Proof. reflexivity. Qed.
Example join_nothing : os_path.join "/srv/mods" "" = "/srv/mods/".
Proof. reflexivity. Qed.
Example basename_dir : os_path.basename "/srv/mods/" = "".
Proof. reflexivity. Qed.
Example basename_file : os_path.basename "/srv/cache_zip/mods.zip" = "mods.zip".
Proof. reflexivity. Qed.
Example dirname_file : os_path.dirname "/home/u/mods/b/c.txt" = "/home/u/mods/b".
Proof. reflexivity. Qed.
Example relpath_sub : os_path.relpath "/srv/mods/b/c.txt" "/srv/mods" = "b/c.txt".
Proof. reflexivity. Qed.
Example ancestors_ex :
  os_path.ancestors "/home/u/mods" = ["/home"; "/home/u"].
Proof. reflexivity. Qed.

(** ** Running the monad *)

Lemma bind_ok {A B} (m : M A) (f : A -> M B) (w w' : world) (a : A) :
  m w = (Ok a, w') -> (m ≫= f) w = f a w'.
Proof. intros H. unfold mbind, M_bind. now rewrite H. Qed.

Lemma bind_raise {A B} (m : M A) (f : A -> M B) (w w' : world) (e : string) :
  m w = (Raise e, w') -> (m ≫= f) w = (Raise e, w').
Proof. intros H. unfold mbind, M_bind. now rewrite H. Qed.

(** Every run of a bind goes through a run of its first part. *)
Lemma bind_inv {A B} (m : M A) (f : A -> M B) (w w' : world) (r : outcome B) :
  (m ≫= f) w = (r, w') ->
  (exists a w1, m w = (Ok a, w1) /\ f a w1 = (r, w')) \/
  (exists e, m w = (Raise e, w') /\ r = Raise e).
Proof.
  unfold mbind, M_bind. destruct (m w) as [[a|e] w1]; intros H.
  - left. eauto.
  - right. exists e. now inversion H.
Qed.

Lemma try_except_inv {A} (body : M A) (handler : string -> M A)
    (w w' : world) (r : outcome A) :
  try_except body handler w = (r, w') ->
  (exists a, body w = (Ok a, w') /\ r = Ok a) \/
  (exists e w1, body w = (Raise e, w1) /\ handler e w1 = (r, w')).
Proof.
  unfold try_except. destruct (body w) as [[a|e] w1]; intros H.
  - left. exists a. now inversion H.
  - right. eauto.
Qed.

Lemma print_run (line : string) (w : world) :
  print line w = (Ok tt, World (fs w) (stdout w ++ [line]) (sent w) (cache_files w)).
Proof. reflexivity. Qed.

Lemma pair_eq_fst {A B} (p : A * B) (a : A) : p.1 = a -> p = (a, p.2).
Proof. intros <-. apply surjective_pairing. Qed.

Ltac msimpl :=
  unfold mbind, M_bind, mret, M_ret, fmap, M_fmap, raise, get_fs, put_fs,
    set_fs, print in *; simpl in *.

(** ** The diff pass of the client *)

Section Diff.

Context {L : Lib}.

(** The digest the client computes for a local path: [None] when the path
    cannot be read as a file. *)
Definition local_md5 (f : filesystem) (p : string) : option string :=
  match os.lookup f p with
  | Some (FFile true data) => Some (md5_hexdigest data)
  | _ => None
  end.

Lemma md5_hexdigest_nonempty (data : list byte) : md5_hexdigest data <> "".
Proof.
  intros H. pose proof (md5_hexdigest_length data) as Hl.
  rewrite H in Hl. discriminate.
Qed.

Lemma md5_hexdigest_not_error (data : list byte) : md5_hexdigest data <> "error".
Proof.
  intros H. pose proof (md5_hexdigest_length data) as Hl.
  rewrite H in Hl. discriminate.
Qed.

Lemma client_get_md5_run (p : string) (w : world) :
  Client.get_md5 p w = (Ok (local_md5 (fs w) p), w).
Proof.
  unfold Client.get_md5, try_except, os.read, local_md5. msimpl.
  destruct (os.lookup (fs w) p) as [[[] data|]|]; reflexivity.
Qed.

Lemma local_md5_missing (f : filesystem) (p : string) :
  os.exists_ f p = false -> local_md5 f p = None.
Proof.
  unfold os.exists_, local_md5. destruct (os.lookup f p); [discriminate|done].
Qed.

(** A path that resolves to a file is a key of the map. *)
Lemma lookup_file (f : filesystem) (p : string) (a : bool) (data : list byte) :
  os.lookup f p = Some (FFile a data) -> f !! p = Some (FFile a data).
Proof.
  unfold os.lookup. case_bool_decide as Hp; [discriminate|].
  destruct (Str.endswith_slash p); [|done].
  destruct (f !! os.dirpath p) as [[]|]; discriminate.
Qed.

Lemma truthy_local_md5 (f : filesystem) (p : string) :
  Client.truthy (local_md5 f p) = true ->
  exists data, os.lookup f p = Some (FFile true data) /\ f !! p = Some (FFile true data).
Proof.
  unfold local_md5.
  destruct (os.lookup f p) as [[[] data|]|] eqn:E; try discriminate.
  intros _. exists data. split; [reflexivity | now apply lookup_file].
Qed.

Definition with_out (lines : list string) (w : world) : world :=
  World (fs w) (stdout w ++ lines) (sent w) (cache_files w).

(** What the loop body does for an entry that is not a [dict], from the
    state of the local path. *)
Lemma collect_leaf_run (local_base local_rel : string) (value : json) (w : world) :
  let local_abs := os_path.join local_base local_rel in
  let st := local_md5 (fs w) local_abs in
  Client.collect_leaf local_base local_rel value w =
    if negb (Client.truthy st) || Client.differs st value then
      if Client.truthy st then
        (Ok [local_rel],
         set_fs (delete local_abs (fs w)) (with_out ["[校驗碼不同] " +:+ local_rel] w))
      else (Ok [local_rel], with_out ["[檔案缺失] " +:+ local_rel] w)
    else (Ok [], with_out ["[正確] " +:+ local_rel] w).
Proof.
  intros local_abs st. unfold Client.collect_leaf.
  fold local_abs.
  assert (Hmd5 : (if os.exists_ (fs w) local_abs then Client.get_md5 local_abs
                  else mret None) w = (Ok st, w)).
  { destruct (os.exists_ (fs w) local_abs) eqn:E.
    - apply client_get_md5_run.
    - unfold st. now rewrite local_md5_missing. }
  unfold mbind at 1, M_bind at 1. unfold get_fs at 1. cbv beta iota.
  rewrite (bind_ok _ _ _ _ _ Hmd5).
  destruct (negb (Client.truthy st) || Client.differs st value) eqn:E1; [|reflexivity].
  destruct (Client.truthy st) eqn:E2; [|reflexivity].
  destruct (truthy_local_md5 _ _ E2) as (data & Hl & Hk).
  unfold os.remove. msimpl. unfold with_out. simpl. rewrite Hl. reflexivity.
Qed.

End Diff.

(** Induction on JSON values, through the lists they nest. *)
Section JsonInd.
Variable P : json -> Prop.
Hypothesis HStr : forall s, P (JStr s).
Hypothesis HList : forall l, Forall P l -> P (JList l).
Hypothesis HDict : forall d, Forall (fun kv => P kv.2) d -> P (JDict d).
Hypothesis HOther : forall text, P (JOther text).

Fixpoint json_ind (j : json) : P j :=
  match j with
  | JStr s => HStr s
  | JList l =>
      HList l
        ((fix go (l : list json) : Forall P l :=
            match l with
            | [] => List.Forall_nil P
            | x :: l' => List.Forall_cons P x l' (json_ind x) (go l')
            end) l)
  | JDict d =>
      HDict d
        ((fix go (d : list (string * json)) : Forall (fun kv => P kv.2) d :=
            match d with
            | [] => List.Forall_nil _
            | (k, v) :: d' =>
                List.Forall_cons (fun kv => P kv.2) (k, v) d' (json_ind v) (go d')
            end) d)
  | JOther text => HOther text
  end.
End JsonInd.

Section Frame.

Context {L : Lib}.

(** The local paths of the entries of a manifest that are not [dict]s. *)
Fixpoint entry_paths (local_rel : string) (value : json) : list string :=
  match value with
  | JDict d =>
      (fix items (d : list (string * json)) : list string :=
         match d with
         | [] => []
         | (name, v) :: d' =>
             entry_paths (Client.local_rel_of local_rel name) v ++ items d'
         end) d
  | _ => [local_rel]
  end.

Fixpoint manifest_paths (rel_path : string) (server_dict : list (string * json))
  : list string :=
  match server_dict with
  | [] => []
  | (name, v) :: d' =>
      entry_paths (Client.local_rel_of rel_path name) v ++ manifest_paths rel_path d'
  end.

Lemma entry_paths_dict (local_rel : string) (d : list (string * json)) :
  entry_paths local_rel (JDict d) = manifest_paths local_rel d.
Proof.
  simpl. induction d as [|[name v] d IH]; simpl; [reflexivity | now rewrite IH].
Qed.

Lemma collect_entry_dict (local_base local_rel : string)
    (d : list (string * json)) (w : world) :
  Client.collect_entry local_base local_rel (JDict d) w =
    (os.makedirs (os_path.join local_base local_rel) true;;
     Client.collect_loop local_base local_rel d []) w.
Proof.
  simpl. unfold mbind at 1 3, M_bind at 1 3.
  destruct (os.makedirs _ true w) as [[[]|e] w0]; [|reflexivity].
  generalize (@nil string) as tasks. revert w0.
  induction d as [|[name v] d IH]; intros w0 tasks; simpl; [reflexivity|].
  unfold mbind, M_bind.
  destruct (Client.collect_entry _ _ v w0) as [[t|e] w1]; [apply IH | reflexivity].
Qed.


(** The files of [f] at paths outside [S] are in [f'], unchanged. *)
Definition files_kept (S : list string) (f f' : filesystem) : Prop :=
  forall q a data,
    q ∉ S -> f !! q = Some (FFile a data) -> f' !! q = Some (FFile a data).

Lemma files_kept_refl (S : list string) (f : filesystem) : files_kept S f f.
Proof. intros q a data _ H. exact H. Qed.

Lemma files_kept_trans (S1 S2 S : list string) (f1 f2 f3 : filesystem) :
  S1 ⊆ S -> S2 ⊆ S ->
  files_kept S1 f1 f2 -> files_kept S2 f2 f3 -> files_kept S f1 f3.
Proof.
  intros H1 H2 K1 K2 q a data Hq Hf.
  apply K2; [set_solver|]. apply K1; [set_solver|]. exact Hf.
Qed.

(** [f'] is [f] with directories added at free paths. *)
Definition dirs_added (f f' : filesystem) : Prop :=
  forall q, f' !! q = f !! q \/ (f !! q = None /\ f' !! q = Some FDir).

Lemma dirs_added_refl (f : filesystem) : dirs_added f f.
Proof. intros q. now left. Qed.

Lemma dirs_added_trans (f1 f2 f3 : filesystem) :
  dirs_added f1 f2 -> dirs_added f2 f3 -> dirs_added f1 f3.
Proof.
  intros H1 H2 q. destruct (H1 q) as [E1|[E1 E1']], (H2 q) as [E2|[E2 E2']].
  - left. congruence.
  - right. split; congruence.
  - right. split; congruence.
  - congruence.
Qed.

Lemma dirs_added_insert (f : filesystem) (p : string) :
  f !! p = None -> dirs_added f (<[p := FDir]> f).
Proof.
  intros H q. destruct (decide (p = q)) as [->|Hne].
  - right. now rewrite lookup_insert_eq.
  - left. now rewrite lookup_insert_ne.
Qed.

Lemma dirs_added_kept (f f' : filesystem) : dirs_added f f' -> files_kept [] f f'.
Proof.
  intros H q a data _ Hf. destruct (H q) as [E|[E _]]; congruence.
Qed.

(** The parts of the state that [os] leaves alone. *)
Definition same_io (w w' : world) : Prop :=
  stdout w' = stdout w /\ sent w' = sent w /\ cache_files w' = cache_files w.

Lemma same_io_refl w : same_io w w.
Proof. done. Qed.

Lemma same_io_trans w1 w2 w3 : same_io w1 w2 -> same_io w2 w3 -> same_io w1 w3.
Proof. unfold same_io. intros (?&?&?) (?&?&?). repeat split; congruence. Qed.

Lemma mkdir_exist_ok_run (p : string) (w w' : world) (r : outcome unit) :
  os.mkdir_exist_ok p w = (r, w') -> dirs_added (fs w) (fs w') /\ same_io w w'.
Proof.
  unfold os.mkdir_exist_ok. msimpl.
  destruct (fs w !! os.dirpath p) as [[]|] eqn:E; intros H; inversion H; subst; simpl;
    (split; [first [apply dirs_added_refl | now apply dirs_added_insert]
            | now unfold same_io]).
Qed.

Lemma for_each_mkdir_run (l : list string) (w w' : world) (r : outcome unit) :
  for_each l os.mkdir_exist_ok w = (r, w') ->
  dirs_added (fs w) (fs w') /\ same_io w w'.
Proof.
  revert w. induction l as [|p l IH]; intros w H.
  - inversion H; subst. split; [apply dirs_added_refl | apply same_io_refl].
  - simpl in H. apply bind_inv in H as [([] & w1 & H1 & H2)|(e & H1 & ->)].
    + apply mkdir_exist_ok_run in H1 as [A1 B1]. apply IH in H2 as [A2 B2].
      split; [eapply dirs_added_trans | eapply same_io_trans]; eauto.
    + now apply mkdir_exist_ok_run in H1.
Qed.

Lemma makedirs_run (p : string) (exist_ok : bool) (w w' : world) (r : outcome unit) :
  os.makedirs p exist_ok w = (r, w') ->
  dirs_added (fs w) (fs w') /\ same_io w w'.
Proof.
  unfold os.makedirs. case_bool_decide as Hp.
  - intros H; inversion H; subst. split; [apply dirs_added_refl | apply same_io_refl].
  - intros H. apply bind_inv in H as [([] & w1 & H1 & H2)|(e & H1 & ->)].
    + apply for_each_mkdir_run in H1 as [A1 B1].
      revert H2. msimpl.
      destruct (fs w1 !! os.dirpath p) as [[]|] eqn:E; [| destruct exist_ok |];
        intros H2; inversion H2; subst; simpl;
        (split;
         [ first [ exact A1
                 | eapply dirs_added_trans; [exact A1 | now apply dirs_added_insert] ]
         | eapply same_io_trans; [exact B1 | now unfold same_io] ]).
    + now apply for_each_mkdir_run in H1.
Qed.


Lemma collect_leaf_kept (local_base local_rel : string) (value : json)
    (w w' : world) (r : outcome (list string)) :
  Client.collect_leaf local_base local_rel value w = (r, w') ->
  files_kept [os_path.join local_base local_rel] (fs w) (fs w').
Proof.
  rewrite collect_leaf_run.
  destruct (_ || _); [destruct (Client.truthy _)|];
    intros H; inversion H; subst; simpl; try apply files_kept_refl.
  intros q a data Hq Hf. rewrite lookup_delete_ne; [exact Hf|]. set_solver.
Qed.

Lemma collect_loop_kept (local_base rel_path : string)
    (d : list (string * json)) :
  Forall (fun kv => forall local_rel w w' r,
            Client.collect_entry local_base local_rel kv.2 w = (r, w') ->
            files_kept (os_path.join local_base <$> entry_paths local_rel kv.2)
                       (fs w) (fs w')) d ->
  forall tasks w w' r,
    Client.collect_loop local_base rel_path d tasks w = (r, w') ->
    files_kept (os_path.join local_base <$> manifest_paths rel_path d)
               (fs w) (fs w').
Proof.
  induction 1 as [|[name v] d Hv _ IH]; intros tasks w w' r H.
  - inversion H; subst. apply files_kept_refl.
  - simpl in H. apply bind_inv in H as [(t & w1 & H1 & H2)|(e & H1 & ->)].
    + apply Hv in H1. apply IH in H2. simpl in *.
      eapply files_kept_trans; [| |exact H1|exact H2];
        rewrite fmap_app; intros x Hx; apply elem_of_app; auto.
    + apply Hv in H1. simpl in *.
      eapply files_kept_trans; [| |exact H1|apply (files_kept_refl [])];
        rewrite ?fmap_app; intros x Hx;
        [apply elem_of_app; auto | inversion Hx].
Qed.

Lemma collect_entry_kept (value : json) :
  forall local_base local_rel w w' r,
    Client.collect_entry local_base local_rel value w = (r, w') ->
    files_kept (os_path.join local_base <$> entry_paths local_rel value)
               (fs w) (fs w').
Proof.
  induction value as [s|l _|d IH|text] using json_ind;
    intros local_base local_rel w w' r H.
  - now apply collect_leaf_kept in H.
  - now apply collect_leaf_kept in H.
  - rewrite collect_entry_dict in H. rewrite entry_paths_dict.
    apply bind_inv in H as [([] & w1 & H1 & H2)|(e & H1 & ->)].
    + apply makedirs_run in H1 as [H1 _]. apply dirs_added_kept in H1.
      eapply collect_loop_kept in H2.
      * eapply files_kept_trans; [| |exact H1|exact H2]; set_solver.
      * eapply Forall_impl; [exact IH|]. intros kv Hkv rel' w0 w0' r0. apply Hkv.
    + apply makedirs_run in H1 as [H1 _]. apply dirs_added_kept in H1.
      eapply files_kept_trans; [| |exact H1|apply (files_kept_refl [])]; set_solver.
  - now apply collect_leaf_kept in H.
Qed.

(** The diff pass keeps every file whose path is not the local path of an
    entry of the manifest, whether the pass ends or raises. *)
Lemma collect_download_tasks_kept (server_dict : list (string * json))
    (local_base rel_path : string) (w : world) :
  files_kept (os_path.join local_base <$> manifest_paths rel_path server_dict)
    (fs w) (fs (Client.collect_download_tasks server_dict local_base rel_path w).2).
Proof.
  unfold Client.collect_download_tasks.
  destruct (Client.collect_loop _ _ _ _ w) as [r w'] eqn:H. simpl.
  eapply collect_loop_kept; [|exact H].
  apply Forall_forall. intros kv _ rel' w0 w0' r0. apply collect_entry_kept.
Qed.

(** A relative path: one that [os.path.join] appends to its first
    argument. *)
Definition relative (p : string) : Prop := Str.startswith "/" p = false.

Lemma join_relative_inj (base p q : string) :
  relative p -> relative q ->
  os_path.join base p = os_path.join base q -> p = q.
Proof.
  unfold relative, os_path.join. intros -> ->. simpl.
  case_bool_decide as Hbase; [done|].
  destruct (Str.endswith_slash base); intros H.
  - eapply StrFacts.app_inv_head, H.
  - apply StrFacts.app_inv_head in H. eapply (StrFacts.app_inv_head "/"), H.
Qed.

(** A normalised relative path, the form in which a manifest names a file
    of its folder: the segments between separators are not empty and none is
    [.] or [..].  Two such paths name the same file below a directory only
    when they are the same string. *)
Definition normalised (p : string) : bool :=
  forallb (fun seg => negb (bool_decide (seg = ""))
                      && negb (bool_decide (seg = "."))
                      && negb (bool_decide (seg = "..")))
          (Str.split_slash p).

Lemma normalised_relative (p : string) : normalised p = true -> relative p.
Proof.
  unfold normalised, relative. destruct p as [|c p]; [reflexivity|].
  cbn [Str.split_slash Str.startswith]. unfold Str.is_slash.
  case_bool_decide as Hc.
  - subst c. discriminate.
  - intros _. rewrite bool_decide_eq_false_2 by congruence. reflexivity.
Qed.

End Frame.

Example normalised_nested : normalised "b/c.txt" = true.
Proof. reflexivity. Qed.
Example normalised_dot : normalised "./notes.txt" = false.
Proof. reflexivity. Qed.
Example normalised_parent : normalised "b/../notes.txt" = false.
Proof. reflexivity. Qed.
Example normalised_doubled : normalised "b//c.txt" = false.
Proof. reflexivity. Qed.
Example normalised_absolute : normalised "/etc/passwd" = false.
Proof. reflexivity. Qed.

(** C9. During the diff pass, a local file whose relative path is not an
    entry of the server manifest is left as it is, whether the pass ends or
    raises: the pass deletes nothing but the stale files of the manifest's
    own entries.  The paths are normalised relative paths, as the scan of the
    server writes them and as the data model has them: a manifest that names
    a file in another way, as ./notes.txt names notes.txt, has that file
    among its entries. *)
Theorem diff_keeps_files_outside_manifest `{L : Lib}
    (server_dict : list (string * json)) (local_base : string) (w : world)
    (p : string) (access : bool) (data : list byte) :
  Forall (fun e => normalised e = true) (manifest_paths "" server_dict) ->
  normalised p = true ->
  p ∉ manifest_paths "" server_dict ->
  fs w !! os_path.join local_base p = Some (FFile access data) ->
  fs (Client.collect_download_tasks server_dict local_base "" w).2
    !! os_path.join local_base p = Some (FFile access data).
Proof.
  intros Hnorm Hp Hnot Hfile.
  eapply collect_download_tasks_kept; [|exact Hfile].
  intros Hin. apply list_elem_of_fmap in Hin as (e & Heq & He).
  apply Hnot. rewrite Forall_forall in Hnorm.
  rewrite (join_relative_inj local_base p e (normalised_relative _ Hp)
             (normalised_relative _ (Hnorm e He)) Heq).
  exact He.
Qed.

(** ** The diff of a flat manifest *)

Section FlatDiff.

Context {L : Lib}.

(** How a manifest entry stands against the local tree: no readable file at
    its path, a file with another digest, or a file with the digest the
    manifest gives. *)
Inductive local_state :=
| Missing
| Mismatched
| Matching.

Global Instance local_state_eq_dec : EqDecision local_state.
Proof. solve_decision. Defined.

Definition classify (f : filesystem) (local_base : string)
    (entry : string * json) : local_state :=
  match os.lookup f (os_path.join local_base entry.1) with
  | Some (FFile true data) =>
      match entry.2 with
      | JStr h => if bool_decide (md5_hexdigest data = h) then Matching
                  else Mismatched
      | _ => Mismatched
      end
  | _ => Missing
  end.

Definition classified (f : filesystem) (local_base : string)
    (server_dict : list (string * json)) : list (string * local_state) :=
  (fun entry => (entry.1, classify f local_base entry)) <$> server_dict.

(** The tasks: the entries that do not match, in the order of the
    manifest. *)
Definition tasks_of (c : list (string * local_state)) : list string :=
  (filter (fun x => x.2 <> Matching) c).*1.

(** The local paths of the stale files. *)
Definition stale_of (local_base : string) (c : list (string * local_state))
  : list string :=
  (fun x => os_path.join local_base x.1) <$> filter (fun x => x.2 = Mismatched) c.

(** The line printed for an entry. *)
Definition report (x : string * local_state) : string :=
  match x.2 with
  | Missing => "[檔案缺失] "
  | Mismatched => "[校驗碼不同] "
  | Matching => "[正確] "
  end +:+ x.1.

Definition is_leaf (v : json) : bool :=
  match v with JDict _ => false | _ => true end.

(** A flat manifest: no entry is a [dict]. *)
Definition flat (server_dict : list (string * json)) : Prop :=
  Forall (fun entry => is_leaf entry.2 = true) server_dict.

Definition delete_all (paths : list string) (f : filesystem) : filesystem :=
  foldl (fun f p => delete p f) f paths.

Lemma classify_local_md5 (f : filesystem) (local_base : string)
    (entry : string * json) :
  classify f local_base entry =
    if negb (Client.truthy (local_md5 f (os_path.join local_base entry.1)))
    then Missing
    else if Client.differs (local_md5 f (os_path.join local_base entry.1)) entry.2
         then Mismatched else Matching.
Proof.
  unfold classify, local_md5. simpl.
  destruct (os.lookup f _) as [[[] data|]|]; try reflexivity.
  simpl. rewrite bool_decide_eq_false_2 by apply md5_hexdigest_nonempty. simpl.
  destruct entry.2; try reflexivity. simpl.
  now case_bool_decide.
Qed.

Lemma collect_entry_leaf (local_base name : string) (v : json) (w : world) :
  is_leaf v = true ->
  Client.collect_entry local_base name v w =
    (Ok (tasks_of [(name, classify (fs w) local_base (name, v))]),
     World (delete_all (stale_of local_base
                          [(name, classify (fs w) local_base (name, v))]) (fs w))
           (stdout w ++ [report (name, classify (fs w) local_base (name, v))])
           (sent w) (cache_files w)).
Proof.
  intros Hleaf.
  assert (Client.collect_entry local_base name v w
          = Client.collect_leaf local_base name v w) as ->
    by (destruct v; try reflexivity; discriminate).
  rewrite collect_leaf_run, (classify_local_md5 (fs w) local_base (name, v)).
  simpl.
  destruct (Client.truthy _); simpl; [|reflexivity].
  destruct (Client.differs _ v); reflexivity.
Qed.

Lemma lookup_delete_file (f : filesystem) (k p : string) (a : bool)
    (data : list byte) :
  f !! k = Some (FFile a data) -> p <> k ->
  os.lookup (delete k f) p = os.lookup f p.
Proof.
  intros Hk Hne. unfold os.lookup. case_bool_decide as Hp; [reflexivity|].
  destruct (Str.endswith_slash p).
  - destruct (decide (os.dirpath p = k)) as [->|Hd].
    + now rewrite lookup_delete_eq, Hk.
    + now rewrite lookup_delete_ne.
  - now rewrite lookup_delete_ne.
Qed.

(** Deleting the stale file of one entry does not change how an entry at
    another path stands. *)
Lemma classify_after (f : filesystem) (local_base : string)
    (e e' : string * json) :
  os_path.join local_base e'.1 <> os_path.join local_base e.1 ->
  classify (delete_all (stale_of local_base [(e.1, classify f local_base e)]) f)
           local_base e'
  = classify f local_base e'.
Proof.
  intros Hne. unfold stale_of. rewrite filter_cons, filter_nil. simpl.
  destruct (decide (classify f local_base e = Mismatched)) as [Hm|]; [|reflexivity].
  simpl. unfold classify in Hm. unfold classify.
  destruct (os.lookup f (os_path.join local_base e.1)) as [[[] data|]|] eqn:Hl;
    try discriminate.
  assert (f !! os_path.join local_base e.1 = Some (FFile true data)) as Hk
    by now apply lookup_file.
  now rewrite (lookup_delete_file _ _ _ _ _ Hk Hne).
Qed.

Lemma tasks_of_cons (x : string * local_state) (c : list (string * local_state)) :
  tasks_of (x :: c) = tasks_of [x] ++ tasks_of c.
Proof.
  unfold tasks_of. rewrite !filter_cons, filter_nil.
  destruct (decide (x.2 <> Matching)); reflexivity.
Qed.

Lemma stale_of_cons (local_base : string) (x : string * local_state)
    (c : list (string * local_state)) :
  stale_of local_base (x :: c) = stale_of local_base [x] ++ stale_of local_base c.
Proof.
  unfold stale_of. rewrite !filter_cons, filter_nil.
  destruct (decide (x.2 = Mismatched)); reflexivity.
Qed.

Lemma delete_all_app (l1 l2 : list string) (f : filesystem) :
  delete_all (l1 ++ l2) f = delete_all l2 (delete_all l1 f).
Proof. apply foldl_app. Qed.

Lemma collect_loop_flat (local_base : string) (d : list (string * json)) :
  flat d ->
  NoDup ((fun entry => os_path.join local_base entry.1) <$> d) ->
  forall tasks w,
    Client.collect_loop local_base "" d tasks w =
      (Ok (tasks ++ tasks_of (classified (fs w) local_base d)),
       World (delete_all (stale_of local_base (classified (fs w) local_base d))
                         (fs w))
             (stdout w ++ (report <$> classified (fs w) local_base d))
             (sent w) (cache_files w)).
Proof.
  induction d as [|[name v] d IH]; intros Hflat Hnd tasks w.
  - simpl. unfold tasks_of, stale_of. simpl.
    rewrite !app_nil_r. now destruct w.
  - apply Forall_cons in Hflat as [Hv Hflat].
    rewrite fmap_cons in Hnd. apply NoDup_cons in Hnd as [Hhead Hnd].
    simpl in Hhead, Hv.
    change (Client.collect_loop local_base "" ((name, v) :: d) tasks w)
      with ((Client.collect_entry local_base name v ≫= fun t =>
             Client.collect_loop local_base "" d (tasks ++ t)) w).
    rewrite (bind_ok _ _ _ _ _ (collect_entry_leaf local_base name v w Hv)).
    rewrite (IH Hflat Hnd). cbn [fs stdout sent cache_files].
    set (c0 := classify (fs w) local_base (name, v)).
    assert (classified
              (delete_all (stale_of local_base [(name, c0)]) (fs w)) local_base d
            = classified (fs w) local_base d) as ->.
    { unfold classified. apply Forall_fmap_ext, Forall_forall.
      intros e He. f_equal.
      apply (classify_after (fs w) local_base (name, v) e).
      simpl. intros Heq. apply Hhead. rewrite <- Heq.
      apply list_elem_of_fmap. now exists e. }
    change (classified (fs w) local_base ((name, v) :: d))
      with ((name, c0) :: classified (fs w) local_base d).
    rewrite (tasks_of_cons (name, c0) (classified (fs w) local_base d)).
    rewrite (stale_of_cons local_base (name, c0) (classified (fs w) local_base d)).
    rewrite delete_all_app, fmap_cons, <- !app_assoc. reflexivity.
Qed.

Lemma count_server_files_flat (d : list (string * json)) :
  flat d -> Client.count_server_files d = List.length d.
Proof.
  induction 1 as [|[name v] d Hv _ IH]; simpl; [reflexivity|].
  rewrite IH. destruct v; try reflexivity; discriminate.
Qed.


Lemma lookup_delete_all (paths : list string) (f : filesystem) (q : string) :
  delete_all paths f !! q = if decide (q ∈ paths) then None else f !! q.
Proof.
  revert f. induction paths as [|p paths IH]; intros f.
  - simpl. destruct (decide (q ∈ [])) as [H|]; [|reflexivity]. inversion H.
  - change (delete_all (p :: paths) f) with (delete_all paths (delete p f)).
    rewrite IH. destruct (decide (q ∈ paths)) as [Hin|Hnin].
    + rewrite decide_True; [reflexivity | now right].
    + destruct (decide (p = q)) as [->|Hne].
      * rewrite lookup_delete_eq, decide_True; [reflexivity | now left].
      * rewrite lookup_delete_ne by exact Hne.
        rewrite decide_False; [reflexivity|].
        intros Hq. apply elem_of_cons in Hq as [Hq|Hq]; congruence.
Qed.

Lemma elem_of_classified (f : filesystem) (local_base : string)
    (d : list (string * json)) (entry : string * json) :
  entry ∈ d -> (entry.1, classify f local_base entry) ∈ classified f local_base d.
Proof.
  intros H. unfold classified. apply list_elem_of_fmap. now exists entry.
Qed.

(** With distinct local paths, a name occurs in one entry only. *)
Lemma entry_unique (local_base : string) (d : list (string * json))
    (e e' : string * json) :
  NoDup ((fun entry => os_path.join local_base entry.1) <$> d) ->
  e ∈ d -> e' ∈ d -> e.1 = e'.1 -> e = e'.
Proof.
  induction d as [|x d IH]; intros Hnd He He'.
  - inversion He.
  - rewrite fmap_cons in Hnd. apply NoDup_cons in Hnd as [Hx Hnd].
    intros Heq.
    apply elem_of_cons in He as [->|He], He' as [->|He'].
    + reflexivity.
    + exfalso. apply Hx. rewrite Heq. apply list_elem_of_fmap. now exists e'.
    + exfalso. apply Hx. rewrite <- Heq. apply list_elem_of_fmap. now exists e.
    + now apply IH.
Qed.

Lemma elem_of_tasks_of (f : filesystem) (local_base : string)
    (d : list (string * json)) (entry : string * json) :
  NoDup ((fun e => os_path.join local_base e.1) <$> d) ->
  entry ∈ d ->
  entry.1 ∈ tasks_of (classified f local_base d)
  <-> classify f local_base entry <> Matching.
Proof.
  intros Hnd He. unfold tasks_of. split.
  - intros H. apply list_elem_of_fmap in H as ([n st] & Hn & H).
    apply list_elem_of_filter in H as [Hst H]. simpl in *.
    unfold classified in H. apply list_elem_of_fmap in H as (e' & Heq & He').
    inversion Heq; subst.
    now rewrite (entry_unique local_base d entry e' Hnd He He').
  - intros H. apply list_elem_of_fmap.
    exists (entry.1, classify f local_base entry). split; [reflexivity|].
    apply list_elem_of_filter. split; [exact H | now apply elem_of_classified].
Qed.

Lemma elem_of_stale_of (f : filesystem) (local_base : string)
    (d : list (string * json)) (entry : string * json) :
  NoDup ((fun e => os_path.join local_base e.1) <$> d) ->
  entry ∈ d ->
  os_path.join local_base entry.1 ∈ stale_of local_base (classified f local_base d)
  <-> classify f local_base entry = Mismatched.
Proof.
  intros Hnd He. unfold stale_of. split.
  - intros H. apply list_elem_of_fmap in H as ([n st] & Hn & H).
    apply list_elem_of_filter in H as [Hst H]. simpl in *.
    unfold classified in H. apply list_elem_of_fmap in H as (e' & Heq & He').
    injection Heq as Hname Hcls. rewrite Hname in Hn.
    assert (entry = e') as ->; [|now rewrite <- Hcls].
    destruct (list_elem_of_split _ _ He') as (l1 & l2 & ->).
    rewrite fmap_app, fmap_cons in Hnd.
    apply NoDup_app in Hnd as (_ & Hl1 & Hnd).
    apply NoDup_cons in Hnd as [Hl2 _].
    apply elem_of_app in He as [He|He].
    + exfalso. apply (Hl1 (os_path.join local_base entry.1)).
      * apply list_elem_of_fmap. now exists entry.
      * rewrite Hn. now left.
    + apply elem_of_cons in He as [->|He]; [reflexivity|].
      exfalso. apply Hl2. rewrite <- Hn. apply list_elem_of_fmap. now exists entry.
  - intros H. apply list_elem_of_fmap.
    exists (entry.1, classify f local_base entry). split; [reflexivity|].
    apply list_elem_of_filter. split; [exact H | now apply elem_of_classified].
Qed.

End FlatDiff.

(** ** The manifest builder of the server *)

Section Scan.

Context {L : Lib}.

(** The hash the server records for a path: the sentinel when the file
    cannot be read. *)
Definition server_md5 (f : filesystem) (p : string) : string :=
  match os.lookup f p with
  | Some (FFile true data) => md5_hexdigest data
  | _ => "error"
  end.

Lemma server_get_md5_run (p : string) (w : world) :
  Server.get_md5 p w = (Ok (server_md5 (fs w) p), w).
Proof.
  unfold Server.get_md5, try_except, os.read, server_md5. msimpl.
  destruct (os.lookup (fs w) p) as [[[] data|]|]; reflexivity.
Qed.

(** The entries the scan writes, in the order of the walk. *)
Definition scanned (f : filesystem) (folder_path : string)
  : list (string * string) :=
  '(root, file) ← Server.walk_files f folder_path;
  if Server.should_ignore file then []
  else [(os_path.relpath (os_path.join root file) folder_path,
         server_md5 f (os_path.join root file))].

Definition record_all (entries : list (string * string))
    (result : gmap string string) : gmap string string :=
  foldl (fun m kv => <[kv.1 := kv.2]> m) result entries.

Lemma scan_loop_run (folder_path : string) (l : list (string * string))
    (result : gmap string string) (w : world) :
  Server.scan_loop folder_path l result w =
    (Ok (record_all
           ('(root, file) ← l;
            if Server.should_ignore file then []
            else [(os_path.relpath (os_path.join root file) folder_path,
                   server_md5 (fs w) (os_path.join root file))])
           result), w).
Proof.
  revert result. induction l as [|[root file] l IH]; intros result; [reflexivity|].
  cbn [Server.scan_loop]. rewrite bind_cons.
  destruct (Server.should_ignore file).
  - apply IH.
  - rewrite (bind_ok _ _ _ _ _ (server_get_md5_run _ w)). rewrite IH. reflexivity.
Qed.

(** The scan never raises and leaves the state as it is. *)
Lemma scan_folder_dict_run (folder_path : string) (w : world) :
  Server.scan_folder_dict folder_path w =
    (Ok (record_all (scanned (fs w) folder_path) ∅), w).
Proof. unfold Server.scan_folder_dict. msimpl. apply scan_loop_run. Qed.

Lemma record_all_notin (entries : list (string * string))
    (result : gmap string string) (k : string) :
  k ∉ entries.*1 -> record_all entries result !! k = result !! k.
Proof.
  revert result. induction entries as [|[k0 v0] entries IH]; intros result Hk;
    [reflexivity|].
  rewrite fmap_cons in Hk. apply not_elem_of_cons in Hk as [Hne Hk].
  change (record_all ((k0, v0) :: entries) result)
    with (record_all entries (<[k0 := v0]> result)).
  rewrite IH by exact Hk. now rewrite lookup_insert_ne.
Qed.

Lemma record_all_lookup (entries : list (string * string))
    (result : gmap string string) (k v : string) :
  NoDup entries.*1 -> (k, v) ∈ entries ->
  record_all entries result !! k = Some v.
Proof.
  revert result. induction entries as [|[k0 v0] entries IH]; intros result Hnd Hin.
  - inversion Hin.
  - rewrite fmap_cons in Hnd. apply NoDup_cons in Hnd as [Hk0 Hnd].
    change (record_all ((k0, v0) :: entries) result)
      with (record_all entries (<[k0 := v0]> result)).
    apply elem_of_cons in Hin as [Heq|Hin].
    + injection Heq as -> ->. rewrite record_all_notin by exact Hk0.
      apply lookup_insert_eq.
    + now apply IH.
Qed.

Lemma record_all_recorded (entries : list (string * string))
    (result : gmap string string) (k : string) :
  k ∈ entries.*1 -> is_Some (record_all entries result !! k).
Proof.
  revert result. induction entries as [|[k0 v0] entries IH]; intros result Hin.
  - inversion Hin.
  - change (record_all ((k0, v0) :: entries) result)
      with (record_all entries (<[k0 := v0]> result)).
    destruct (decide (k ∈ entries.*1)) as [Hk|Hk]; [now apply IH|].
    rewrite record_all_notin by exact Hk.
    rewrite fmap_cons in Hin. apply elem_of_cons in Hin as [->|Hin]; [|done].
    rewrite lookup_insert_eq. eauto.
Qed.

Lemma elem_of_scanned (f : filesystem) (folder_path root file : string) :
  (root, file) ∈ Server.walk_files f folder_path ->
  Server.should_ignore file = false ->
  (os_path.relpath (os_path.join root file) folder_path,
   server_md5 f (os_path.join root file)) ∈ scanned f folder_path.
Proof.
  intros Hin Hig. unfold scanned. apply list_elem_of_bind.
  exists (root, file). split; [|exact Hin]. rewrite Hig. now left.
Qed.

End Scan.

Section Sentinel.

Context {L : Lib}.

Lemma server_md5_unreadable (f : filesystem) (p : string) :
  (forall data, os.lookup f p <> Some (FFile true data)) ->
  server_md5 f p = "error".
Proof.
  intros H. unfold server_md5.
  destruct (os.lookup f p) as [[[] data|]|] eqn:E; try reflexivity.
  now destruct (H data).
Qed.

(** An entry that carries the sentinel never matches. *)
Lemma classify_sentinel (f : filesystem) (local_base name : string) :
  classify f local_base (name, JStr "error") <> Matching.
Proof.
  unfold classify. simpl.
  destruct (os.lookup f _) as [[[] data|]|]; try discriminate.
  rewrite bool_decide_eq_false_2 by apply md5_hexdigest_not_error. discriminate.
Qed.

Lemma collect_loop_sentinel (local_base : string) (d : list (string * json)) :
  flat d ->
  forall tasks w,
  exists tasks' w',
    Client.collect_loop local_base "" d tasks w = (Ok tasks', w') /\
    (forall p, p ∈ tasks -> p ∈ tasks') /\
    (forall p, (p, JStr "error") ∈ d -> p ∈ tasks').
Proof.
  induction 1 as [|[name v] d Hv _ IH]; intros tasks w.
  - exists tasks, w. split; [reflexivity|]. split; [auto|].
    intros p Hp. inversion Hp.
  - simpl in Hv.
    change (Client.collect_loop local_base "" ((name, v) :: d) tasks w)
      with ((Client.collect_entry local_base name v ≫= fun t =>
             Client.collect_loop local_base "" d (tasks ++ t)) w).
    rewrite (bind_ok _ _ _ _ _ (collect_entry_leaf local_base name v w Hv)).
    edestruct IH as (tasks' & w' & Hrun & Hsub & Herr).
    exists tasks', w'. split; [exact Hrun|]. split.
    + intros p Hp. apply Hsub, elem_of_app. now left.
    + intros p Hp. apply elem_of_cons in Hp as [Heq|Hp]; [|now apply Herr].
      injection Heq as Hname Hvalue. subst p v. apply Hsub, elem_of_app. right.
      unfold tasks_of. rewrite filter_cons, filter_nil. simpl.
      rewrite decide_True by apply classify_sentinel. now left.
Qed.

Lemma manifest_json_flat (m : gmap string string) :
  flat ((fun kv => (kv.1, JStr kv.2)) <$> map_to_list m).
Proof. apply Forall_fmap, Forall_forall. now intros kv _. Qed.

End Sentinel.

(** C7. A file the scan of the server cannot read is recorded in the manifest
    with the hash "error" and the scan goes on: it never raises and every
    file of the walk that is not ignored has its entry.  "error" is the digest
    of no content, and the diff of the client, whatever the local tree holds,
    emits a task for the entry that carries it. *)
Theorem unreadable_file_always_refetched `{L : Lib} (sw : world)
    (folder_path root file : string) (cw : world) (local_base : string) :
  (root, file) ∈ Server.walk_files (fs sw) folder_path ->
  Server.should_ignore file = false ->
  (forall data, os.lookup (fs sw) (os_path.join root file) <> Some (FFile true data)) ->
  NoDup (scanned (fs sw) folder_path).*1 ->
  exists manifest server_dict,
    Server.scan_folder_dict folder_path sw = (Ok manifest, sw) /\
    manifest !! os_path.relpath (os_path.join root file) folder_path = Some "error" /\
    (forall root' file',
       (root', file') ∈ Server.walk_files (fs sw) folder_path ->
       Server.should_ignore file' = false ->
       is_Some (manifest !! os_path.relpath (os_path.join root' file') folder_path)) /\
    (forall data, md5_hexdigest data <> "error") /\
    Server.manifest_json manifest = JDict server_dict /\
    exists tasks cw',
      Client.collect_download_tasks server_dict local_base "" cw = (Ok tasks, cw') /\
      os_path.relpath (os_path.join root file) folder_path ∈ tasks.
Proof.
  intros Hwalk Hig Hread Hnd.
  pose proof (elem_of_scanned _ _ _ _ Hwalk Hig) as Hin.
  rewrite (server_md5_unreadable _ _ Hread) in Hin.
  pose proof (record_all_lookup _ ∅ _ _ Hnd Hin) as Hlook.
  eexists _, _. split; [apply scan_folder_dict_run|].
  split; [exact Hlook|]. split; [|split; [apply md5_hexdigest_not_error|]].
  - intros root' file' Hwalk' Hig'. apply record_all_recorded.
    apply list_elem_of_fmap. eexists. split; [|exact (elem_of_scanned _ _ _ _ Hwalk' Hig')].
    reflexivity.
  - split; [reflexivity|].
    destruct (collect_loop_sentinel local_base _
                (manifest_json_flat (record_all (scanned (fs sw) folder_path) ∅)) [] cw)
      as (tasks & cw' & Hrun & _ & Herr).
    exists tasks, cw'. split; [exact Hrun|]. apply Herr.
    apply list_elem_of_fmap.
    exists (os_path.relpath (os_path.join root file) folder_path, "error").
    split; [reflexivity|]. now apply elem_of_map_to_list.
Qed.

(** ** The request handler *)

Section Handler.

Context {L : Lib}.
Variable cwd : string.
Variable folders : list (string * string).

Lemma lstrip_no_slash (s : string) : Str.has_slash s = false -> Str.lstrip_slash s = s.
Proof.
  destruct s as [|c s]; [reflexivity|]. simpl.
  destruct (Str.is_slash c); [discriminate | reflexivity].
Qed.

Lemma split1_no_slash (s : string) : Str.has_slash s = false -> Str.split1 s = (s, None).
Proof.
  induction s as [|c s IH]; [reflexivity|]. simpl.
  destruct (Str.is_slash c); [discriminate|]. simpl.
  intros H. now rewrite (IH H).
Qed.

Lemma endswith_has_slash (p : string) :
  Str.endswith_slash p = true -> Str.has_slash p = true.
Proof.
  induction p as [|c p IH]; [discriminate|]. simpl.
  destruct p as [|c' p].
  - intros ->. reflexivity.
  - intros H. rewrite (IH H). apply orb_true_r.
Qed.

Lemma basename_endswith_slash (p : string) :
  Str.endswith_slash p = true -> os_path.basename p = "".
Proof.
  induction p as [|c p IH]; [reflexivity|]. intros H.
  cbn [os_path.basename]. rewrite (endswith_has_slash _ H).
  destruct p as [|c' p]; [reflexivity|]. apply IH. exact H.
Qed.

Lemma endswith_slash_app (s : string) : Str.endswith_slash (s +:+ "/") = true.
Proof.
  induction s as [|c s IH]; [reflexivity|].
  simpl. destruct (s +:+ "/") eqn:E; [|exact IH].
  destruct s; discriminate.
Qed.

Lemma app_empty_r (s : string) : s +:+ "" = s.
Proof.
  induction s as [|c s IH]; [reflexivity|].
  change (String c (s +:+ "") = String c s). now rewrite IH.
Qed.

(** [os.path.join(base, "")] is empty or ends with a separator. *)
Lemma join_empty (base : string) :
  os_path.join base "" = "" \/ Str.endswith_slash (os_path.join base "") = true.
Proof.
  unfold os_path.join. simpl. case_bool_decide as Hb; [now left|]. right.
  destruct (Str.endswith_slash base) eqn:E.
  - now rewrite app_empty_r.
  - apply endswith_slash_app.
Qed.

Lemma basename_join_empty (base : string) :
  os_path.basename (os_path.join base "") = "".
Proof.
  destruct (join_empty base) as [->|H]; [reflexivity|].
  now apply basename_endswith_slash.
Qed.

Lemma isfile_join_empty (f : filesystem) (base : string) :
  os.isfile f (os_path.join base "") = false.
Proof.
  unfold os.isfile, os.lookup.
  destruct (join_empty base) as [->|H]; [reflexivity|].
  case_bool_decide; [reflexivity|]. rewrite H.
  now destruct (f !! _) as [[]|].
Qed.

Lemma send_homepage_run (w : world) :
  exists page,
    Server.send_homepage folders w
    = (Ok (Response 200 "text/html; charset=utf-8" page), w).
Proof. eexists. reflexivity. Qed.

End Handler.

(** C10, as amended.  For a registered key that holds no separator and does
    not begin with "clientupdate", whose cached archive is missing, the
    request for the archive is answered with the homepage, status 200, not
    with an error. *)
Theorem missing_archive_serves_homepage `{L : Lib} (cwd : string)
    (folders : list (string * string)) (key folder_base : string) (w : world) :
  dict_get folders key = Some folder_base ->
  Str.has_slash key = false ->
  Str.startswith "clientupdate" key = false ->
  (forall zip_path,
     cache_files w !! key = Some zip_path -> os.exists_ (fs w) zip_path = false) ->
  Server.do_GET cwd folders (Request ("/" +:+ key) ["download"] None) w
  = Server.send_homepage folders w /\
  exists page,
    Server.send_homepage folders w
    = (Ok (Response 200 "text/html; charset=utf-8" page), w).
Proof.
  intros Hkey Hslash Hupd Hzip. split; [|apply send_homepage_run].
  unfold Server.do_GET. cbn [url_path url_query].
  change (Str.startswith "/clientupdate" ("/" +:+ key))
    with (Str.startswith "clientupdate" key).
  rewrite Hupd.
  change (Str.lstrip_slash ("/" +:+ key)) with (Str.lstrip_slash key).
  rewrite (lstrip_no_slash _ Hslash), (split1_no_slash _ Hslash).
  rewrite (bool_decide_eq_false_2 ("json" ∈ ["download"])), andb_false_r
    by (intros H; apply list_elem_of_singleton in H; discriminate).
  cbn [fst snd default]. rewrite Hkey.
  rewrite basename_join_empty.
  change (Server.should_ignore "") with false. cbv iota.
  unfold mbind at 1, M_bind at 1, get_fs at 1. cbv beta iota.
  rewrite isfile_join_empty.
  destruct (os.isdir (fs w) _); [|reflexivity].
  rewrite bool_decide_eq_true_2 by now left.
  unfold mbind, M_bind, Server.get_cache_files. cbv beta iota.
  destruct (cache_files w !! key) as [zip_path|] eqn:Hc; [|reflexivity].
  rewrite (Hzip _ eq_refl), andb_false_r. reflexivity.
Qed.

(** ** The archive cache of the server *)

Section Archive.

Context {L : Lib}.

(** A path this process can open for writing. *)
Definition writable (f : filesystem) (p : string) : bool :=
  negb (bool_decide (p = "")) && negb (Str.endswith_slash p) &&
  match f !! p with
  | Some (FFile false _) | Some FDir => false
  | _ => true
  end.

(** The members [zipf.write] adds from a list of files, and the exception
    of the first file that cannot be read. *)
Fixpoint read_members (f : filesystem) (l : list (string * string))
    (members : list (string * list byte))
  : list (string * list byte) * option string :=
  match l with
  | [] => (members, None)
  | (abs_path, rel_path) :: l' =>
      match os.lookup f abs_path with
      | Some (FFile true data) => read_members f l' (members ++ [(rel_path, data)])
      | Some (FFile false _) => (members, Some "PermissionError")
      | Some FDir => (members, Some "IsADirectoryError")
      | None => (members, Some "FileNotFoundError")
      end
  end.

Lemma zip_write_all_run (l : list (string * string))
    (members : list (string * list byte)) (w : world) :
  Server.zip_write_all l members w = (Ok (read_members (fs w) l members), w).
Proof.
  revert members. induction l as [|[abs_path rel_path] l IH]; intros members;
    [reflexivity|].
  cbn [Server.zip_write_all read_members].
  unfold try_except, os.read. msimpl.
  destruct (os.lookup (fs w) abs_path) as [[[] data|]|]; try reflexivity.
  apply IH.
Qed.

Lemma open_w_ok (p : string) (w : world) :
  writable (fs w) p = true ->
  os.open_w p w = (Ok tt, set_fs (<[p := FFile true []]> (fs w)) w).
Proof.
  unfold writable, os.open_w. msimpl.
  case_bool_decide as Hp; [discriminate|].
  destruct (Str.endswith_slash p); [discriminate|]. simpl.
  destruct (fs w !! p) as [[[] ?|]|]; try discriminate; reflexivity.
Qed.

Lemma open_w_fail (p : string) (w : world) :
  writable (fs w) p = false -> exists e, os.open_w p w = (Raise e, w).
Proof.
  unfold writable, os.open_w. msimpl.
  case_bool_decide as Hp; [eauto|].
  destruct (Str.endswith_slash p); [eauto|]. simpl.
  destruct (fs w !! p) as [[[] ?|]|]; try discriminate; eauto.
Qed.

Lemma lookup_insert_file (f : filesystem) (p : string) (x : fobj) :
  p <> "" -> Str.endswith_slash p = false ->
  os.lookup (<[p := x]> f) p = Some x.
Proof.
  intros Hp Hs. unfold os.lookup.
  rewrite bool_decide_eq_false_2 by exact Hp. rewrite Hs.
  apply lookup_insert_eq.
Qed.

Lemma writable_path (f : filesystem) (p : string) :
  writable f p = true -> p <> "" /\ Str.endswith_slash p = false.
Proof.
  unfold writable. case_bool_decide; [discriminate|].
  destruct (Str.endswith_slash p); [discriminate|]. done.
Qed.

(** Writing to a file that was just opened for writing. *)
Lemma write_after_open (p : string) (data : list byte) (w : world) :
  p <> "" -> Str.endswith_slash p = false ->
  os.write p data (set_fs (<[p := FFile true []]> (fs w)) w)
  = (Ok tt, set_fs (<[p := FFile true data]> (fs w)) w).
Proof.
  intros Hp Hs. unfold os.write. msimpl.
  rewrite (lookup_insert_file _ _ _ Hp Hs). simpl.
  now rewrite insert_insert_eq.
Qed.

(** The members of a build and whether it fails: the files are read after
    the archive path was truncated. *)
Definition build (f : filesystem) (folder_path zip_path : string)
  : list (string * list byte) * option string :=
  read_members (<[zip_path := FFile true []]> f)
    (Server.files_to_zip f folder_path) [].

Lemma zip_fill_run (l : list (string * string)) (zip_path : string) (w : world) :
  zip_path <> "" -> Str.endswith_slash zip_path = false ->
  Server.zip_fill l zip_path (set_fs (<[zip_path := FFile true []]> (fs w)) w)
  = (match (read_members (<[zip_path := FFile true []]> (fs w)) l []).2 with
     | Some e => Raise e
     | None => Ok tt
     end,
     set_fs (<[zip_path :=
               FFile true (zip_image
                 (read_members (<[zip_path := FFile true []]> (fs w)) l []).1)]>
             (fs w)) w).
Proof.
  intros Hp Hs. unfold Server.zip_fill.
  rewrite (bind_ok _ _ _ _ _ (zip_write_all_run _ _ _)).
  cbn [fs set_fs].
  destruct (read_members _ l []) as [members err]. cbn [fst snd].
  rewrite (bind_ok _ _ _ _ _ (write_after_open _ _ _ Hp Hs)).
  destruct err; reflexivity.
Qed.

Lemma zip_folder_run (folder_path zip_path : string) (w : world) :
  writable (fs w) zip_path = true ->
  Server.zip_folder folder_path zip_path w
  = (match (build (fs w) folder_path zip_path).2 with
     | Some e => Raise e
     | None => Ok tt
     end,
     set_fs (<[zip_path :=
               FFile true (zip_image (build (fs w) folder_path zip_path).1)]>
             (fs w)) w).
Proof.
  intros Hw. destruct (writable_path _ _ Hw) as [Hp Hs].
  unfold Server.zip_folder. unfold mbind at 1, M_bind at 1, get_fs at 1.
  cbv beta iota.
  rewrite (bind_ok _ _ _ _ _ (open_w_ok _ _ Hw)).
  now rewrite zip_fill_run.
Qed.

Lemma zip_folder_unwritable (folder_path zip_path : string) (w : world) :
  writable (fs w) zip_path = false ->
  exists e, Server.zip_folder folder_path zip_path w = (Raise e, w).
Proof.
  intros Hw. destruct (open_w_fail _ _ Hw) as [e He]. exists e.
  unfold Server.zip_folder. unfold mbind at 1, M_bind at 1, get_fs at 1.
  cbv beta iota. now rewrite (bind_raise _ _ _ _ _ He).
Qed.

(** A build writes its archive path and nothing else. *)
Lemma zip_folder_frame (folder_path zip_path : string) (w w' : world)
    (r : outcome unit) :
  Server.zip_folder folder_path zip_path w = (r, w') ->
  (forall q, q <> zip_path -> fs w' !! q = fs w !! q) /\ same_io w w'.
Proof.
  destruct (writable (fs w) zip_path) eqn:Hw.
  - rewrite (zip_folder_run _ _ _ Hw). intros H; inversion H; subst.
    split; [|done]. intros q Hq. simpl. now rewrite lookup_insert_ne.
  - destruct (zip_folder_unwritable folder_path _ _ Hw) as [e ->].
    intros H; inversion H; subst. done.
Qed.


Variable cwd : string.
Variable folders : list (string * string).

Definition done_line (key : string) : string := "[快取更新完成] " +:+ key.
Definition failed_line (key e : string) : string :=
  "[快取失敗] " +:+ key +:+ ": " +:+ e.

(** A task of the pool never raises: what the build raises is printed. *)
Lemma rebuild_run (key folder_path : string) (w : world) :
  dict_get folders key = Some folder_path ->
  exists w' line,
    Server.rebuild cwd folders key w = (Ok tt, w') /\
    stdout w' = stdout w ++ [line] /\
    (line = done_line key \/ exists e, line = failed_line key e) /\
    (forall q, q <> Server.zip_path_of cwd key -> fs w' !! q = fs w !! q).
Proof.
  intros Hkey. unfold Server.rebuild. rewrite Hkey. unfold try_except.
  destruct (Server.zip_folder folder_path (Server.zip_path_of cwd key) w)
    as [[[]|e] w1] eqn:Hzip;
    destruct (zip_folder_frame _ _ _ _ _ Hzip) as [Hframe (Hout & _ & _)].
  - rewrite (bind_ok _ _ _ _ _ Hzip), print_run.
    eexists _, _. split; [reflexivity|]. cbn [stdout fs]. rewrite Hout.
    split; [reflexivity|]. split; [now left | exact Hframe].
  - rewrite (bind_raise _ _ _ _ _ Hzip), print_run.
    eexists _, _. split; [reflexivity|]. cbn [stdout fs]. rewrite Hout.
    split; [reflexivity|]. split; [right; now exists e | exact Hframe].
Qed.

(** Every key is attempted and reports, whatever becomes of the others. *)
Lemma rebuild_all_run (keys : list string) (w : world) :
  (forall k, k ∈ keys -> is_Some (dict_get folders k)) ->
  exists w',
    for_each keys (Server.rebuild cwd folders) w = (Ok tt, w') /\
    (forall line, line ∈ stdout w -> line ∈ stdout w') /\
    (forall k, k ∈ keys ->
       (done_line k ∈ stdout w') \/ exists e, failed_line k e ∈ stdout w') /\
    (forall q, (forall k, k ∈ keys -> q <> Server.zip_path_of cwd k) ->
       fs w' !! q = fs w !! q) /\
    sent w' = sent w /\ cache_files w' = cache_files w.
Proof.
  revert w. induction keys as [|key keys IH]; intros w Hkeys.
  - exists w. split; [reflexivity|]. split; [auto|]. split.
    + intros k Hk. inversion Hk.
    + auto.
  - destruct (Hkeys key) as [folder_path Hkey]; [now left|].
    destruct (rebuild_run key folder_path w Hkey)
      as (w1 & line & Hrun & Hout & Hline & Hframe).
    destruct (IH w1) as (w' & Hrun' & Hmono & Hall & Hframe' & Hsent & Hcache).
    { intros k Hk. apply Hkeys. now right. }
    exists w'. cbn [for_each]. rewrite (bind_ok _ _ _ _ _ Hrun).
    split; [exact Hrun'|]. split; [|split; [|split]].
    + intros l Hl. apply Hmono. rewrite Hout. apply elem_of_app. now left.
    + intros k Hk. apply elem_of_cons in Hk as [->|Hk]; [|now apply Hall].
      assert (line ∈ stdout w') as Hin.
      { apply Hmono. rewrite Hout. apply elem_of_app. right. now left. }
      destruct Hline as [->|[e ->]]; [now left | right; now exists e].
    + intros q Hq. rewrite Hframe'; [apply Hframe|].
      * apply Hq. now left.
      * intros k Hk. apply Hq. now right.
    + unfold Server.rebuild in Hrun. rewrite Hkey in Hrun.
      unfold try_except in Hrun.
      destruct (Server.zip_folder folder_path (Server.zip_path_of cwd key) w)
        as [[[]|e] w0] eqn:Hzip;
        destruct (zip_folder_frame _ _ _ _ _ Hzip) as [_ (_ & Hs & Hc)].
      * rewrite (bind_ok _ _ _ _ _ Hzip), print_run in Hrun.
        inversion Hrun; subst. simpl in *. split; congruence.
      * rewrite (bind_raise _ _ _ _ _ Hzip), print_run in Hrun.
        inversion Hrun; subst. simpl in *. split; congruence.
Qed.


Lemma rebuild_failed (key folder_path e : string) (w0 w1 : world) :
  dict_get folders key = Some folder_path ->
  Server.zip_folder folder_path (Server.zip_path_of cwd key) w0 = (Raise e, w1) ->
  Server.rebuild cwd folders key w0 = (Ok tt, with_out [failed_line key e] w1) /\
  ((writable (fs w0) (Server.zip_path_of cwd key) = false /\ fs w1 = fs w0) \/
   (writable (fs w0) (Server.zip_path_of cwd key) = true /\
    fs w1 = <[Server.zip_path_of cwd key :=
              FFile true (zip_image
                (build (fs w0) folder_path (Server.zip_path_of cwd key)).1)]>
            (fs w0))).
Proof.
  intros Hkey Hzip. split.
  - unfold Server.rebuild. rewrite Hkey. unfold try_except.
    now rewrite (bind_raise _ _ _ _ _ Hzip).
  - destruct (writable (fs w0) (Server.zip_path_of cwd key)) eqn:Hw.
    + right. split; [reflexivity|].
      rewrite (zip_folder_run _ _ _ Hw) in Hzip. now inversion Hzip.
    + left. split; [reflexivity|].
      destruct (zip_folder_unwritable folder_path _ _ Hw) as [e' He'].
      rewrite He' in Hzip. now inversion Hzip.
Qed.

(** *** The pass *)

(** The last character of a string. *)
Fixpoint last_char (s : string) : option ascii :=
  match s with
  | EmptyString => None
  | String c EmptyString => Some c
  | String _ s' => last_char s'
  end.

Lemma last_char_app (s1 s2 : string) :
  s2 <> "" -> last_char (s1 +:+ s2) = last_char s2.
Proof.
  intros H. induction s1 as [|c s1 IH]; [reflexivity|].
  change (last_char (String c (s1 +:+ s2)) = last_char s2).
  cbn [last_char]. destruct (s1 +:+ s2) eqn:E; [|exact IH].
  destruct s1; [now destruct H | discriminate].
Qed.

Lemma last_char_join (a b : string) :
  b <> "" -> last_char (os_path.join a b) = last_char b.
Proof.
  intros H. unfold os_path.join.
  destruct (_ || _); [reflexivity|].
  destruct (Str.endswith_slash a).
  - now apply last_char_app.
  - rewrite last_char_app by (destruct b; done).
    now apply (last_char_app "/").
Qed.

(** No archive is the hash record. *)
Lemma zip_path_not_record (key : string) :
  Server.zip_path_of cwd key <> Server.HASH_RECORD_FILE cwd.
Proof.
  intros H. apply (f_equal last_char) in H.
  unfold Server.zip_path_of, Server.HASH_RECORD_FILE in H.
  rewrite !last_char_join in H by (try discriminate; destruct key; discriminate).
  rewrite last_char_app in H by discriminate. discriminate.
Qed.

(** The record the pass reads. *)
Definition old_hash_of (f : filesystem) : json :=
  match os.lookup f (Server.HASH_RECORD_FILE cwd) with
  | Some (FFile true data) => default (JDict []) (json_loads data)
  | _ => JDict []
  end.

Lemma load_old_hash_run (w : world) :
  Server.load_old_hash cwd w = (Ok (old_hash_of (fs w)), w).
Proof.
  unfold Server.load_old_hash, old_hash_of, os.exists_.
  unfold mbind at 1, M_bind at 1, get_fs at 1. cbv beta iota.
  destruct (os.lookup (fs w) _) as [x|] eqn:E; [|reflexivity].
  unfold try_except, Server.load_json, os.read. msimpl. rewrite E.
  destruct x as [[] data|]; try reflexivity.
  now destruct (json_loads data).
Qed.

(** The manifests of the registered folders, as the pass scans them. *)
Definition fresh_manifests (f : filesystem) (l : list (string * string))
    (new_hash : gmap string (gmap string string))
  : gmap string (gmap string string) :=
  foldl (fun acc kv => <[kv.1 := record_all (scanned f kv.2) ∅]> acc) new_hash l.

(** The record is a JSON object, as [save_hash_record] writes it. *)
Definition is_object (j : json) : bool :=
  match j with
  | JDict _ => true
  | _ => false
  end.

(** The key is new to the record, or its manifest is not the recorded
    one. *)
Definition differs_from_record (old_hash : json) (key : string)
    (manifest : gmap string string) : bool :=
  match old_hash with
  | JDict d =>
      match dict_get d key with
      | None => true
      | Some j => negb (bool_decide (Server.json_manifest j = Some manifest))
      end
  | _ => true
  end.

Lemma changed_run (old_hash : json) (key : string)
    (manifest : gmap string string) (w : world) :
  is_object old_hash = true ->
  Server.changed old_hash key manifest w
  = (Ok (differs_from_record old_hash key manifest), w).
Proof.
  destruct old_hash as [s|l|d|text]; try discriminate. intros _.
  unfold Server.changed, differs_from_record.
  now destruct (dict_get d key).
Qed.

(** The keys whose manifest differs from the record. *)
Definition changed_keys_of (f : filesystem) (old_hash : json)
    (l : list (string * string)) : list string :=
  (filter (fun kv => differs_from_record old_hash kv.1
                       (record_all (scanned f kv.2) ∅) = true) l).*1.

Lemma scan_all_run (old_hash : json) (l : list (string * string))
    (new_hash : gmap string (gmap string string)) (changed_keys : list string)
    (w : world) :
  is_object old_hash = true ->
  Server.scan_all old_hash l new_hash changed_keys w
  = (Ok (fresh_manifests (fs w) l new_hash,
         changed_keys ++ changed_keys_of (fs w) old_hash l), w).
Proof.
  intros Hobj. revert new_hash changed_keys.
  induction l as [|[key folder_path] l IH]; intros new_hash changed_keys.
  - unfold changed_keys_of. simpl. now rewrite app_nil_r.
  - cbn [Server.scan_all].
    rewrite (bind_ok _ _ _ _ _ (scan_folder_dict_run folder_path w)).
    rewrite (bind_ok _ _ _ _ _ (changed_run old_hash key _ w Hobj)).
    rewrite IH. unfold changed_keys_of.
    destruct (differs_from_record old_hash key _) eqn:E.
    + rewrite filter_cons_True by exact E. now rewrite <- app_assoc.
    + rewrite filter_cons_False by (simpl; congruence). reflexivity.
Qed.

Lemma set_cache_files_run (keys : list string) (w : world) :
  exists cache,
    for_each keys (Server.set_cache_file cwd) w
    = (Ok tt, World (fs w) (stdout w) (sent w) cache).
Proof.
  revert w. induction keys as [|key keys IH]; intros w.
  - exists (cache_files w). now destruct w.
  - cbn [for_each]. unfold Server.set_cache_file at 1.
    unfold mbind, M_bind. apply (IH (World _ _ _ _)).
Qed.

(** The two steps of a save: the record file is truncated, then the text of
    the dump is written to it. *)
Lemma save_hash_record_steps (record : gmap string (gmap string string))
    (w : world) :
  writable (fs w) (Server.HASH_RECORD_FILE cwd) = true ->
  os.open_w (Server.HASH_RECORD_FILE cwd) w
  = (Ok tt, set_fs (<[Server.HASH_RECORD_FILE cwd := FFile true []]> (fs w)) w) /\
  Server.save_hash_record cwd record w
  = (os.write (Server.HASH_RECORD_FILE cwd)
       (json_dump (Server.record_json record)).1;;
     if (json_dump (Server.record_json record)).2 then mret tt
     else raise "UnicodeEncodeError")
      (set_fs (<[Server.HASH_RECORD_FILE cwd := FFile true []]> (fs w)) w).
Proof.
  intros Hw. split; [now apply open_w_ok|].
  unfold Server.save_hash_record.
  rewrite (bind_ok _ _ _ _ _ (open_w_ok _ _ Hw)).
  now destruct (json_dump (Server.record_json record)).
Qed.

Lemma save_hash_record_run (record : gmap string (gmap string string))
    (w : world) :
  writable (fs w) (Server.HASH_RECORD_FILE cwd) = true ->
  Server.save_hash_record cwd record w
  = (if (json_dump (Server.record_json record)).2 then Ok tt
     else Raise "UnicodeEncodeError",
     set_fs (<[Server.HASH_RECORD_FILE cwd :=
               FFile true (json_dump (Server.record_json record)).1]> (fs w)) w).
Proof.
  intros Hw. destruct (writable_path _ _ Hw) as [Hp Hs].
  rewrite (proj2 (save_hash_record_steps record w Hw)).
  rewrite (bind_ok _ _ _ _ _ (write_after_open _ _ _ Hp Hs)).
  now destruct (json_dump (Server.record_json record)).2.
Qed.

(** A save that goes through: the file holds the whole record. *)
Lemma save_hash_record_complete (record : gmap string (gmap string string))
    (w : world) :
  writable (fs w) (Server.HASH_RECORD_FILE cwd) = true ->
  (json_dump (Server.record_json record)).2 = true ->
  Server.save_hash_record cwd record w
  = (Ok tt,
     set_fs (<[Server.HASH_RECORD_FILE cwd :=
               FFile true (json_dumps (Server.record_json record))]> (fs w)) w).
Proof.
  intros Hw Hc. rewrite (save_hash_record_run record w Hw), Hc.
  destruct (json_dump (Server.record_json record)) as [data complete] eqn:Hdump.
  cbn [fst snd] in *. subst complete.
  now rewrite (json_dump_complete _ _ Hdump).
Qed.

(** A record file that cannot be opened is left as it is. *)
Lemma save_hash_record_unwritable (record : gmap string (gmap string string))
    (w : world) :
  writable (fs w) (Server.HASH_RECORD_FILE cwd) = false ->
  exists e, Server.save_hash_record cwd record w = (Raise e, w).
Proof.
  intros Hw. destruct (open_w_fail _ _ Hw) as [e He]. exists e.
  unfold Server.save_hash_record. now rewrite (bind_raise _ _ _ _ _ He).
Qed.

Lemma changed_keys_registered (f : filesystem) (old_hash : json) (k : string) :
  k ∈ changed_keys_of f old_hash folders -> is_Some (dict_get folders k).
Proof.
  unfold changed_keys_of. intros H.
  apply list_elem_of_fmap in H as ([k' p] & -> & H).
  apply list_elem_of_filter in H as [_ H]. simpl.
  induction folders as [|[k0 p0] l IH]; [inversion H|].
  simpl. case_bool_decide; [eauto|].
  apply elem_of_cons in H as [Heq|H]; [congruence | now apply IH].
Qed.

End Archive.

Lemma writable_ext (f f' : filesystem) (p : string) :
  f' !! p = f !! p -> writable f' p = writable f p.
Proof. unfold writable. now intros ->. Qed.

(** The state in which the pass saves the record: the builds are over, each
    changed key has reported, and the record file is still the one the pass
    found. *)
Lemma builds_before_record `{L : Lib} (cwd : string)
    (folders : list (string * string)) (w : world) :
  is_object (old_hash_of cwd (fs w)) = true ->
  exists w1,
    (forall k,
       k ∈ changed_keys_of (fs w) (old_hash_of cwd (fs w)) folders ->
       (done_line k ∈ stdout w1) \/ exists e, failed_line k e ∈ stdout w1) /\
    (forall q, (forall k, q <> Server.zip_path_of cwd k) -> fs w1 !! q = fs w !! q) /\
    Server.create_zip_cache cwd folders w
    = (Server.save_hash_record cwd (fresh_manifests (fs w) folders ∅);;
       print "📦 快取初始化完成！") w1.
Proof.
  intros Hobj. unfold Server.create_zip_cache.
  rewrite (bind_ok _ _ _ _ _ (print_run _ w)).
  set (wa := World (fs w) _ (sent w) (cache_files w)).
  rewrite (bind_ok _ _ _ _ _ (load_old_hash_run cwd wa)).
  rewrite (bind_ok _ _ _ _ _ (scan_all_run _ _ _ _ wa Hobj)).
  cbn [app]. change (fs wa) with (fs w).
  set (ck := changed_keys_of (fs w) (old_hash_of cwd (fs w)) folders).
  set (fresh := fresh_manifests (fs w) folders ∅).
  assert (exists wb,
    (match ck with
     | [] => print "✅ 所有資料夾與快照相同，使用現有快取。"
     | _ :: _ =>
         print ("♻️ 偵測到變動的資料夾: " +:+ String.concat ", " ck);;
         for_each ck (Server.rebuild cwd folders)
     end) wa = (Ok tt, wb) /\
    (forall k, k ∈ ck ->
       (done_line k ∈ stdout wb) \/ exists e, failed_line k e ∈ stdout wb) /\
    (forall q, (forall k, q <> Server.zip_path_of cwd k) -> fs wb !! q = fs w !! q))
    as (wb & Hb & Hlines & Hframe).
  { destruct ck as [|k0 ck0] eqn:Eck.
    - eexists. split; [apply print_run|]. split; [|reflexivity].
      intros k Hk. inversion Hk.
    - rewrite <- Eck.
      rewrite (bind_ok _ _ _ _ _ (print_run _ wa)).
      edestruct (rebuild_all_run cwd folders ck) as (wb & Hrun & _ & Hall & Hfr & _).
      { intros k Hk. eapply changed_keys_registered. exact Hk. }
      exists wb. split; [exact Hrun|]. split; [exact Hall|].
      intros q Hq. rewrite Hfr; [reflexivity|]. intros k _. apply Hq. }
  rewrite (bind_ok _ _ _ _ _ Hb).
  destruct (set_cache_files_run cwd (folders.*1) wb) as [cache Hc].
  rewrite (bind_ok _ _ _ _ _ Hc).
  eexists. split; [|split; [|reflexivity]]; cbn [fs stdout]; assumption.
Qed.

(** C2, as amended.  When the record the pass reads is a JSON object (or
    there is none, or it cannot be read), every changed key has reported the
    end of its build, done or failed, by the time the pass saves the record,
    whatever becomes of the save: the lines are in the output also when the
    save raises and ends the pass.  Apart from the archives only the record
    file is written.  If the record file cannot be opened the pass raises and
    the old record stays.  If it can, the file holds what the dump of the
    manifests of all registered folders, as scanned by this pass, wrote: the
    whole record when every name can be encoded, and then the pass ends; the
    text before the first name that cannot, and then the pass raises.  A save
    replaces the whole file in two steps: the file is truncated, then
    written. *)
Theorem hash_record_written_after_builds `{L : Lib} (cwd : string)
    (folders : list (string * string)) (w : world) :
  is_object (old_hash_of cwd (fs w)) = true ->
  exists r w',
    Server.create_zip_cache cwd folders w = (r, w') /\
    (forall k,
       k ∈ changed_keys_of (fs w) (old_hash_of cwd (fs w)) folders ->
       (done_line k ∈ stdout w') \/ exists e, failed_line k e ∈ stdout w') /\
    (forall q,
       q <> Server.HASH_RECORD_FILE cwd ->
       (forall k, q <> Server.zip_path_of cwd k) -> fs w' !! q = fs w !! q) /\
    (writable (fs w) (Server.HASH_RECORD_FILE cwd) = false ->
       (exists e, r = Raise e) /\
       fs w' !! Server.HASH_RECORD_FILE cwd = fs w !! Server.HASH_RECORD_FILE cwd) /\
    (writable (fs w) (Server.HASH_RECORD_FILE cwd) = true ->
       fs w' !! Server.HASH_RECORD_FILE cwd
       = Some (FFile true
                 (json_dump (Server.record_json (fresh_manifests (fs w) folders ∅))).1) /\
       if (json_dump (Server.record_json (fresh_manifests (fs w) folders ∅))).2
       then
         r = Ok tt /\
         fs w' !! Server.HASH_RECORD_FILE cwd
         = Some (FFile true
                   (json_dumps (Server.record_json (fresh_manifests (fs w) folders ∅)))) /\
         last (stdout w') = Some "📦 快取初始化完成！"
       else r = Raise "UnicodeEncodeError") /\
    (forall record w1,
       writable (fs w1) (Server.HASH_RECORD_FILE cwd) = true ->
       os.open_w (Server.HASH_RECORD_FILE cwd) w1
       = (Ok tt,
          set_fs (<[Server.HASH_RECORD_FILE cwd := FFile true []]> (fs w1)) w1) /\
       Server.save_hash_record cwd record w1
       = (os.write (Server.HASH_RECORD_FILE cwd)
            (json_dump (Server.record_json record)).1;;
          if (json_dump (Server.record_json record)).2 then mret tt
          else raise "UnicodeEncodeError")
           (set_fs (<[Server.HASH_RECORD_FILE cwd := FFile true []]> (fs w1)) w1)).
Proof.
  intros Hobj.
  destruct (builds_before_record cwd folders w Hobj) as (w1 & Hlines & Hframe & Hrun).
  assert (fs w1 !! Server.HASH_RECORD_FILE cwd = fs w !! Server.HASH_RECORD_FILE cwd)
    as Hrec.
  { apply Hframe. intros k Heq. now apply (zip_path_not_record cwd k). }
  set (fresh := fresh_manifests (fs w) folders ∅) in *.
  destruct (writable (fs w) (Server.HASH_RECORD_FILE cwd)) eqn:Hw.
  - assert (writable (fs w1) (Server.HASH_RECORD_FILE cwd) = true) as Hw1
      by now rewrite (writable_ext _ _ _ Hrec).
    pose proof (save_hash_record_run cwd fresh w1 Hw1) as Hsave.
    destruct (json_dump (Server.record_json fresh)) as [data complete] eqn:Hdump.
    cbn [fst snd] in Hsave |- *.
    destruct complete.
    + rewrite (bind_ok _ _ _ _ _ Hsave), print_run in Hrun.
      eexists _, _. split; [exact Hrun|]. cbn [fs stdout set_fs].
      split; [|split; [|split; [discriminate|split]]].
      * intros k Hk. destruct (Hlines k Hk) as [H|[e H]];
          [left | right; exists e]; apply elem_of_app; now left.
      * intros q Hq Hzip. rewrite lookup_insert_ne by congruence. now apply Hframe.
      * intros _. split; [apply lookup_insert_eq|].
        split; [reflexivity|]. split; [|apply last_snoc].
        rewrite lookup_insert_eq.
        now rewrite (json_dump_complete _ _ Hdump).
      * intros record w0. apply save_hash_record_steps.
    + rewrite (bind_raise _ _ _ _ _ Hsave) in Hrun.
      eexists _, _. split; [exact Hrun|]. cbn [fs stdout set_fs].
      split; [exact Hlines|]. split; [|split; [discriminate|split]].
      * intros q Hq Hzip. rewrite lookup_insert_ne by congruence. now apply Hframe.
      * intros _. split; [apply lookup_insert_eq | reflexivity].
      * intros record w0. apply save_hash_record_steps.
  - assert (writable (fs w1) (Server.HASH_RECORD_FILE cwd) = false) as Hw1
      by now rewrite (writable_ext _ _ _ Hrec).
    destruct (save_hash_record_unwritable cwd fresh w1 Hw1) as [e Hsave].
    rewrite (bind_raise _ _ _ _ _ Hsave) in Hrun.
    eexists _, _. split; [exact Hrun|].
    split; [exact Hlines|]. split; [|split; [|split; [discriminate|]]].
    + intros q Hq Hzip. now apply Hframe.
    + intros _. split; [now exists e | exact Hrec].
    + intros record w0. apply save_hash_record_steps.
Qed.

(** C3, as amended.  In a rebuild pass every changed key is attempted and
    reports, whatever becomes of the others: the builds end with no exception
    and the output has, for each key, the line of its completion or the line
    of its failure.  A build that fails is reported with its exception; it
    writes in place, so the archive path of the key then holds the container
    closed over the files added before the failure, not the previous archive;
    only a path that could not be opened is left as it was. *)
Theorem build_failure_is_isolated `{L : Lib} (cwd : string)
    (folders : list (string * string)) (keys : list string) (w : world) :
  (forall k, k ∈ keys -> is_Some (dict_get folders k)) ->
  (exists w',
     for_each keys (Server.rebuild cwd folders) w = (Ok tt, w') /\
     forall k, k ∈ keys ->
       (done_line k ∈ stdout w') \/ exists e, failed_line k e ∈ stdout w') /\
  (forall k folder_path e w0 w1,
     dict_get folders k = Some folder_path ->
     Server.zip_folder folder_path (Server.zip_path_of cwd k) w0 = (Raise e, w1) ->
     Server.rebuild cwd folders k w0 = (Ok tt, with_out [failed_line k e] w1) /\
     ((writable (fs w0) (Server.zip_path_of cwd k) = false /\ fs w1 = fs w0) \/
      (writable (fs w0) (Server.zip_path_of cwd k) = true /\
       fs w1 = <[Server.zip_path_of cwd k :=
                 FFile true (zip_image
                   (build (fs w0) folder_path (Server.zip_path_of cwd k)).1)]>
               (fs w0)))).
Proof.
  intros Hkeys. split.
  - destruct (rebuild_all_run cwd folders keys w Hkeys) as (w' & Hrun & _ & Hall & _).
    exists w'. split; assumption.
  - intros k folder_path e w0 w1. apply rebuild_failed.
Qed.

(** ** Serving *)

(** A computation that leaves the disk and the globals as they are. *)
Definition reads_only {A} (m : M A) : Prop :=
  forall w r w',
    m w = (r, w') ->
    fs w' = fs w /\ cache_files w' = cache_files w /\ sent w' = sent w.

Section ReadsOnly.

Context {L : Lib}.

Lemma reads_only_ret {A} (a : A) : reads_only (mret a).
Proof. intros w r w' H. now inversion H. Qed.

Lemma reads_only_raise {A} (e : string) : reads_only (@raise A e).
Proof. intros w r w' H. now inversion H. Qed.

Lemma reads_only_print (line : string) : reads_only (print line).
Proof. intros w r w' H. now inversion H. Qed.

Lemma reads_only_get_fs : reads_only get_fs.
Proof. intros w r w' H. now inversion H. Qed.

Lemma reads_only_get_cache_files : reads_only Server.get_cache_files.
Proof. intros w r w' H. now inversion H. Qed.

Lemma reads_only_bind {A B} (m : M A) (f : A -> M B) :
  reads_only m -> (forall a, reads_only (f a)) -> reads_only (m ≫= f).
Proof.
  intros Hm Hf w r w' H.
  apply bind_inv in H as [(a & w1 & H1 & H2)|(e & H1 & ->)].
  - apply Hm in H1 as (?&?&?). apply Hf in H2 as (?&?&?).
    repeat split; congruence.
  - now apply Hm in H1.
Qed.

Lemma reads_only_fmap {A B} (g : A -> B) (m : M A) :
  reads_only m -> reads_only (g <$> m).
Proof.
  intros Hm w r w'. unfold fmap, M_fmap.
  destruct (m w) as [[a|e] w1] eqn:E; intros H; inversion H; subst;
    now apply Hm in E.
Qed.

Lemma reads_only_try_except {A} (body : M A) (handler : string -> M A) :
  reads_only body -> (forall e, reads_only (handler e)) ->
  reads_only (try_except body handler).
Proof.
  intros Hb Hh w r w' H.
  apply try_except_inv in H as [(a & H1 & ->)|(e & w1 & H1 & H2)].
  - now apply Hb in H1.
  - apply Hb in H1 as (?&?&?). apply Hh in H2 as (?&?&?).
    repeat split; congruence.
Qed.

Lemma reads_only_read (p : string) : reads_only (os.read p).
Proof.
  unfold os.read. apply reads_only_bind; [apply reads_only_get_fs|].
  intros f. destruct (os.lookup f p) as [[[] ?|]|];
    first [apply reads_only_ret | apply reads_only_raise].
Qed.

Lemma reads_only_scan (folder_path : string) :
  reads_only (Server.scan_folder_dict folder_path).
Proof.
  intros w r w'. rewrite scan_folder_dict_run. intros H. now inversion H.
Qed.

Variable cwd : string.
Variable folders : list (string * string).

Ltac ro :=
  repeat first
    [ apply reads_only_ret | apply reads_only_raise | apply reads_only_print
    | apply reads_only_get_fs | apply reads_only_get_cache_files
    | apply reads_only_read | apply reads_only_scan
    | apply reads_only_fmap
    | apply reads_only_bind; [|intros ?]
    | apply reads_only_try_except; [|intros ?]
    | match goal with
      | |- reads_only (match ?x with _ => _ end) => destruct x
      | |- reads_only (let '(_, _) := ?x in _) => destruct x
      end ].

Lemma reads_only_do_GET (req : request) :
  reads_only (Server.do_GET cwd folders req).
Proof.
  unfold Server.do_GET, Server.send_clientupdate_page, Server._send_file,
    Server.send_error, Server._send_json, Server._send_html,
    Server.send_homepage, Server.send_folder_listing, Server.manifest_for,
    Server.load_json.
  ro.
Qed.

Lemma reads_only_handle (req : request) :
  reads_only (Server.handle cwd folders req).
Proof.
  unfold Server.handle. apply reads_only_try_except.
  - apply reads_only_fmap, reads_only_do_GET.
  - intros e. apply reads_only_ret.
Qed.

Lemma handle_total (req : request) (w : world) :
  exists resp w', Server.handle cwd folders req w = (Ok resp, w').
Proof.
  unfold Server.handle, try_except, fmap, M_fmap.
  destruct (Server.do_GET cwd folders req w) as [[r|e] w']; eauto.
Qed.

(** Every request is answered from the disk as it was when the server
    started to serve. *)
Lemma serve_forever_run (reqs : list request) (w : world) :
  exists resps w',
    Server.serve_forever cwd folders reqs w = (Ok resps, w') /\
    fs w' = fs w /\ cache_files w' = cache_files w /\
    Forall2 (fun req resp =>
               exists wi wi',
                 fs wi = fs w /\ cache_files wi = cache_files w /\
                 Server.handle cwd folders req wi = (Ok resp, wi'))
            reqs resps.
Proof.
  revert w. induction reqs as [|req reqs IH]; intros w.
  - exists [], w. repeat split; constructor.
  - destruct (handle_total req w) as (resp & w1 & H1).
    destruct (reads_only_handle req _ _ _ H1) as (Hfs & Hcache & _).
    destruct (IH w1) as (resps & w' & Hrun & Hfs' & Hcache' & Hall).
    exists (resp :: resps), w'. cbn [Server.serve_forever].
    rewrite (bind_ok _ _ _ _ _ H1), (bind_ok _ _ _ _ _ Hrun).
    split; [reflexivity|]. split; [congruence|]. split; [congruence|].
    constructor.
    + exists w, w1. done.
    + eapply Forall2_impl; [exact Hall|].
      intros rq rs (wi & wi' & ? & ? & ?). exists wi, wi'.
      repeat split; congruence.
Qed.

End ReadsOnly.

(** C4, as amended.  A build writes its archive in place.  For an archive path
    that can be opened, the first effect of the build is to truncate that
    path; the rest of the build starts from there, and when the build ends the
    path holds the container closed over the members written, all of them when
    the build succeeds; no other path is written.  Builds run in the pass that
    [main] completes before it serves: every request is then answered from the
    disk as the pass left it, and serving does not change the disk. *)
Theorem archive_written_in_place `{L : Lib} (cwd : string)
    (folders : list (string * string)) :
  (forall folder_path zip_path w,
     writable (fs w) zip_path = true ->
     os.open_w zip_path w
     = (Ok tt, set_fs (<[zip_path := FFile true []]> (fs w)) w) /\
     Server.zip_folder folder_path zip_path w
     = Server.zip_fill (Server.files_to_zip (fs w) folder_path) zip_path
         (set_fs (<[zip_path := FFile true []]> (fs w)) w) /\
     Server.zip_folder folder_path zip_path w
     = (match (build (fs w) folder_path zip_path).2 with
        | Some e => Raise e
        | None => Ok tt
        end,
        set_fs (<[zip_path :=
                  FFile true (zip_image (build (fs w) folder_path zip_path).1)]>
                (fs w)) w)) /\
  (forall folder_path zip_path w q,
     q <> zip_path ->
     fs (Server.zip_folder folder_path zip_path w).2 !! q = fs w !! q) /\
  (forall reqs w,
     exists r1 w1,
       (print "
🚀 伺服器啟動中: http://localhost:8000";; Server.create_zip_cache cwd folders) w
       = (r1, w1) /\
       match r1 with
       | Raise e => Server.main cwd folders reqs w = (Raise e, w1)
       | Ok _ =>
           exists resps w2,
             Server.main cwd folders reqs w = (Ok resps, w2) /\
             fs w2 = fs w1 /\
             Forall2 (fun req resp =>
                        exists wi wi',
                          fs wi = fs w1 /\ cache_files wi = cache_files w1 /\
                          Server.handle cwd folders req wi = (Ok resp, wi'))
                     reqs resps
       end).
Proof.
  split; [|split].
  - intros folder_path zip_path w Hw. split; [now apply open_w_ok|].
    split; [|now apply zip_folder_run].
    unfold Server.zip_folder. unfold mbind at 1, M_bind at 1, get_fs at 1.
    cbv beta iota. now rewrite (bind_ok _ _ _ _ _ (open_w_ok _ _ Hw)).
  - intros folder_path zip_path w q Hq.
    destruct (Server.zip_folder folder_path zip_path w) as [r w'] eqn:H.
    now apply (zip_folder_frame _ _ _ _ _ H).
  - intros reqs w.
    assert (forall k : unit -> M (list (option response)),
              (print "
🚀 伺服器啟動中: http://localhost:8000";; Server.create_zip_cache cwd folders;; k tt) w
              = match (print "
🚀 伺服器啟動中: http://localhost:8000";; Server.create_zip_cache cwd folders) w with
                | (Ok _, w1) => k tt w1
                | (Raise e, w1) => (Raise e, w1)
                end) as Hsplit.
    { intros k. unfold mbind, M_bind. rewrite print_run.
      now destruct (Server.create_zip_cache cwd folders _) as [[[]|e] w1]. }
    unfold Server.main. rewrite (Hsplit (fun _ => Server.serve_forever cwd folders reqs)).
    destruct ((print _;; Server.create_zip_cache cwd folders) w) as [[[]|e] w1].
    + exists (Ok tt), w1. split; [reflexivity|].
      destruct (serve_forever_run cwd folders reqs w1)
        as (resps & w2 & Hrun & Hfs & _ & Hall).
      exists resps, w2. done.
    + exists (Raise e), w1. done.
Qed.

(** ** The choice of a strategy *)

Lemma Qgtb_spec (a b : Q) : Client.Qgtb a b = true <-> (b < a)%Q.
Proof.
  unfold Client.Qgtb. rewrite (Qgt_alt a b).
  destruct (a ?= b)%Q; split; intros H; congruence.
Qed.

Lemma select_full_archive (ratio : Q) (tasks : list string) :
  Client.select_strategy ratio tasks = Client.FullArchive <-> (1 # 2 < ratio)%Q.
Proof.
  unfold Client.select_strategy. rewrite <- Qgtb_spec.
  destruct (Client.Qgtb ratio (1 # 2)); [done|].
  destruct (negb _); split; intros H; discriminate.
Qed.

(** ** Resuming a download *)

Section Resume.

Context {L : Lib}.
Variable http : request -> option response.

Lemma requests_get_run (req : request) (w : world) :
  Client.requests_get http req w
  = (match http req with
     | Some r => Ok r
     | None => Raise "ConnectionError"
     end,
     World (fs w) (stdout w) (sent w ++ [req]) (cache_files w)).
Proof. unfold Client.requests_get. now destruct (http req). Qed.

(** One attempt on a partial file: the offset is sent, and the body of a
    200 or of a 206 alike goes to the end of the file. *)
Lemma download_attempt_resume (folder_key file_path local_path : string)
    (w : world) (partial : list byte) (r : response) :
  os.lookup (fs w) local_path = Some (FFile true partial) ->
  0 < List.length partial ->
  http (Request ("/" +:+ folder_key +:+ "/" +:+ file_path) ["download"]
                (Some (List.length partial))) = Some r ->
  status_code r = 200 \/ status_code r = 206 ->
  Client.download_attempt http folder_key file_path local_path w
  = (Ok true,
     World (<[local_path := FFile true (partial ++ content r)]> (fs w))
           (stdout w ++ ["[下載完成] " +:+ folder_key +:+ "/" +:+ file_path])
           (sent w ++ [Request ("/" +:+ folder_key +:+ "/" +:+ file_path)
                               ["download"] (Some (List.length partial))])
           (cache_files w)).
Proof.
  intros Hfile Hlen Hhttp Hstatus.
  pose proof (lookup_file _ _ _ _ Hfile) as Hkey.
  assert (local_path <> "" /\ Str.endswith_slash local_path = false) as [Hp Hs].
  { revert Hfile. unfold os.lookup.
    destruct (bool_decide (local_path = "")) eqn:E; [intros; discriminate|].
    apply bool_decide_eq_false in E.
    destruct (Str.endswith_slash local_path); [|done].
    destruct (fs w !! os.dirpath local_path) as [[]|]; intros; discriminate. }
  unfold Client.download_attempt, try_except.
  unfold mbind at 1, M_bind at 1, get_fs at 1. cbv beta iota.
  unfold os.exists_. rewrite Hfile.
  assert (os.getsize local_path w = (Ok (List.length partial), w)) as Hsize.
  { unfold os.getsize. msimpl. now rewrite Hfile. }
  rewrite (bind_ok _ _ _ _ _ Hsize).
  rewrite (bind_ok _ _ _ _ _ (eq_trans (requests_get_run _ w)
             ltac:(rewrite Hhttp; reflexivity))).
  assert (bool_decide (status_code r = 200) || bool_decide (status_code r = 206)
          = true) as ->.
  { destruct Hstatus as [->| ->]; reflexivity. }
  rewrite bool_decide_eq_true_2 by exact Hlen.
  unfold os.open_a, os.write. msimpl.
  rewrite bool_decide_eq_false_2 by exact Hp. rewrite Hs, Hkey. simpl.
  unfold os.lookup. rewrite bool_decide_eq_false_2 by exact Hp.
  rewrite Hs, Hkey. reflexivity.
Qed.

End Resume.

(** ** The forced replacement *)

(** A computation that sends no request. *)
Definition quiet {A} (m : M A) : Prop :=
  forall w r w', m w = (r, w') -> sent w' = sent w.

Section Quiet.

Context {L : Lib}.

Lemma quiet_ret {A} (a : A) : quiet (mret a).
Proof. intros w r w' H. now inversion H. Qed.





Lemma quiet_bind {A B} (m : M A) (f : A -> M B) :
  quiet m -> (forall a, quiet (f a)) -> quiet (m ≫= f).
Proof.
  intros Hm Hf w r w' H.
  apply bind_inv in H as [(a & w1 & H1 & H2)|(e & H1 & ->)].
  - apply Hm in H1. apply Hf in H2. congruence.
  - now apply Hm in H1.
Qed.




Lemma quiet_makedirs p b : quiet (os.makedirs p b).
Proof. intros w r w' H. now apply makedirs_run in H as [_ (_ & H & _)]. Qed.

Variable cwd : string.
Variable http : request -> option response.




End Quiet.

Section Wipe.

Context {L : Lib}.

Lemma startswith_length (p s : string) :
  Str.startswith p s = true -> String.length p <= String.length s.
Proof.
  revert s. induction p as [|a p IH]; intros s; [simpl; lia|].
  destruct s as [|b s]; [discriminate|]. simpl.
  intros H. apply andb_true_iff in H as [_ H]. apply IH in H. lia.
Qed.

Lemma rstrip_length (s : string) :
  String.length (Str.rstrip_slash s) <= String.length s.
Proof.
  induction s as [|c s IH]; [reflexivity|]. simpl.
  destruct (Str.is_slash c && bool_decide (Str.rstrip_slash s = "")); simpl; lia.
Qed.

Lemma dirpath_length (p : string) :
  String.length (os.dirpath p) <= String.length p.
Proof.
  unfold os.dirpath. destruct (Str.endswith_slash p) eqn:E; [|reflexivity].
  case_bool_decide as Hr; [|apply rstrip_length].
  destruct p; [discriminate | simpl; lia].
Qed.

Lemma ancestors_from_length (pre s a : string) :
  a ∈ os_path.ancestors_from pre s ->
  String.length a < String.length pre + String.length s.
Proof.
  revert pre. induction s as [|c s IH]; intros pre H; [inversion H|].
  cbn [os_path.ancestors_from] in H. apply elem_of_app in H as [H|H].
  - destruct (_ && _); [|inversion H].
    apply list_elem_of_singleton in H as ->. simpl. lia.
  - apply IH in H. rewrite StrFacts.length_app in H. simpl in *. lia.
Qed.

Lemma join_empty_length (d : string) :
  String.length d <= String.length (os_path.join d "").
Proof.
  unfold os_path.join. simpl. case_bool_decide as Hd; [subst; reflexivity|].
  destruct (Str.endswith_slash d); rewrite StrFacts.length_app; lia.
Qed.

Lemma under_length (p q : string) :
  os.under p q = true -> String.length (os.dirpath p) <= String.length q.
Proof.
  unfold os.under. intros H. apply orb_true_iff in H as [H|H].
  - apply bool_decide_eq_true in H. now subst.
  - apply startswith_length in H. pose proof (join_empty_length (os.dirpath p)). lia.
Qed.

(** The parents of a directory do not lie below it. *)
Lemma ancestor_not_under (p a : string) :
  a ∈ os_path.ancestors (os.dirpath p) -> os.under p (os.dirpath a) = false.
Proof.
  intros Ha. apply ancestors_from_length in Ha. simpl in Ha.
  destruct (os.under p (os.dirpath a)) eqn:E; [|reflexivity].
  apply under_length in E. pose proof (dirpath_length a). lia.
Qed.

Lemma under_self (p : string) : os.under p (os.dirpath p) = true.
Proof. unfold os.under. now rewrite bool_decide_eq_true_2. Qed.

Lemma for_each_mkdir_existing (l : list string) (w : world) :
  (forall a, a ∈ l -> fs w !! os.dirpath a = Some FDir) ->
  for_each l os.mkdir_exist_ok w = (Ok tt, w).
Proof.
  induction l as [|a l IH]; intros H; [reflexivity|].
  cbn [for_each].
  assert (os.mkdir_exist_ok a w = (Ok tt, w)) as Ha.
  { unfold os.mkdir_exist_ok. msimpl. rewrite (H a) by now left. reflexivity. }
  rewrite (bind_ok _ _ _ _ _ Ha). apply IH. intros b Hb. apply H. now right.
Qed.

(** The disk once the tree of [p] is deleted and [p] is made again. *)
Definition wiped (p : string) (f : filesystem) : filesystem :=
  <[os.dirpath p := FDir]> (filter (fun kv => os.under p kv.1 = false) f).

Lemma wiped_below (p q : string) (f : filesystem) :
  os.under p q = true -> q <> os.dirpath p -> wiped p f !! q = None.
Proof.
  intros Hu Hne. unfold wiped. rewrite lookup_insert_ne by congruence.
  apply map_lookup_filter_None. right. intros x _. simpl. congruence.
Qed.

Lemma wiped_outside (p q : string) (f : filesystem) :
  os.under p q = false -> wiped p f !! q = f !! q.
Proof.
  intros Hu. unfold wiped.
  rewrite lookup_insert_ne by (intros <-; now rewrite under_self in Hu).
  destruct (f !! q) as [x|] eqn:E.
  - apply map_lookup_filter_Some. done.
  - apply map_lookup_filter_None. now left.
Qed.

Lemma rmtree_run (p : string) (w : world) :
  fs w !! os.dirpath p = Some FDir ->
  os.rmtree p w
  = (Ok tt, set_fs (filter (fun kv => os.under p kv.1 = false) (fs w)) w).
Proof. intros Hdir. unfold os.rmtree. msimpl. now rewrite Hdir. Qed.

Lemma makedirs_after_rmtree (p : string) (w : world) :
  p <> "" ->
  (forall a, a ∈ os_path.ancestors (os.dirpath p) ->
             fs w !! os.dirpath a = Some FDir) ->
  os.makedirs p false
    (set_fs (filter (fun kv => os.under p kv.1 = false) (fs w)) w)
  = (Ok tt, set_fs (wiped p (fs w)) w).
Proof.
  intros Hp Hanc.
  unfold os.makedirs. rewrite bool_decide_eq_false_2 by exact Hp.
  assert (for_each (os_path.ancestors (os.dirpath p)) os.mkdir_exist_ok
            (set_fs (filter (fun kv => os.under p kv.1 = false) (fs w)) w)
          = (Ok tt, set_fs (filter (fun kv => os.under p kv.1 = false) (fs w)) w))
    as Hmk.
  { apply for_each_mkdir_existing. intros a Ha. cbn [fs set_fs].
    apply map_lookup_filter_Some. split; [now apply Hanc|].
    simpl. now apply ancestor_not_under. }
  rewrite (bind_ok _ _ _ _ _ Hmk). msimpl.
  assert (filter (fun kv => os.under p kv.1 = false) (fs w) !! os.dirpath p = None)
    as ->; [|reflexivity].
  apply map_lookup_filter_None. right. intros x _. simpl.
  now rewrite under_self.
Qed.



End Wipe.


(** ** Fetching file by file *)

(** [f'] is [f] but at the paths of [S], and for directories made at free
    paths. *)
Definition changed_within (S : list string) (f f' : filesystem) : Prop :=
  forall q, q ∉ S -> f' !! q = f !! q \/ (f !! q = None /\ f' !! q = Some FDir).

(** A computation that changes no path outside [S], but for the directories
    it makes, and sends only requests of [P]. *)
Definition effect (S : list string) (P : request -> Prop) {A} (m : M A) : Prop :=
  forall w r w', m w = (r, w') ->
    changed_within S (fs w) (fs w') /\
    exists reqs, sent w' = sent w ++ reqs /\ Forall P reqs.


(** The directories [os.makedirs(d)] goes through, and a [d] it can make:
    no file stands at any of them. *)
Definition dir_chain (d : string) : list string :=
  (os.dirpath <$> os_path.ancestors (os.dirpath d)) ++ [os.dirpath d].

Definition can_make (f : filesystem) (d : string) : Prop :=
  d <> "" /\
  Forall (fun a => f !! a = None \/ f !! a = Some FDir) (dir_chain d).

Global Instance can_make_dec (f : filesystem) (d : string) :
  Decision (can_make f d).
Proof. unfold can_make. apply _. Defined.

Section Fetch.

Context {L : Lib}.
Variable http : request -> option response.



Lemma changed_within_mono (S S' : list string) (f f' : filesystem) :
  S ⊆ S' -> changed_within S f f' -> changed_within S' f f'.
Proof. intros Hsub H q Hq. apply H. intros Hin. apply Hq, Hsub, Hin. Qed.





(** *** The effects of the parts *)








Lemma effect_mono {A} (S S' : list string) (P P' : request -> Prop) (m : M A) :
  S ⊆ S' -> (forall q, P q -> P' q) -> effect S P m -> effect S' P' m.
Proof.
  intros Hsub Himp Hm w r w' H.
  destruct (Hm _ _ _ H) as [C (reqs & Hs & Hp)]. split.
  - eapply changed_within_mono; eassumption.
  - exists reqs. split; [exact Hs|]. eapply Forall_impl; eassumption.
Qed.











(** *** A directory that can be made *)

Lemma for_each_mkdir_ok (l : list string) (w : world) :
  Forall (fun a => fs w !! os.dirpath a = None \/ fs w !! os.dirpath a = Some FDir) l ->
  exists w', for_each l os.mkdir_exist_ok w = (Ok tt, w').
Proof.
  revert w. induction l as [|a l IH]; intros w Hall; [now exists w|].
  apply Forall_cons in Hall as [Ha Hall].
  assert (exists w1,
            os.mkdir_exist_ok a w = (Ok tt, w1) /\ dirs_added (fs w) (fs w1))
    as (w1 & H1 & Hd).
  { unfold os.mkdir_exist_ok. msimpl. destruct Ha as [E|E]; rewrite E.
    - eexists. split; [reflexivity|]. now apply dirs_added_insert.
    - eexists. split; [reflexivity|]. apply dirs_added_refl. }
  destruct (IH w1) as [w' H'].
  { eapply Forall_impl; [exact Hall|]. intros b Hb.
    destruct (Hd (os.dirpath b)) as [E|[_ E]]; [now rewrite E | now right]. }
  exists w'. cbn [for_each]. now rewrite (bind_ok _ _ _ _ _ H1).
Qed.

Lemma makedirs_can_make (d : string) (w : world) :
  can_make (fs w) d ->
  exists w',
    os.makedirs d true w = (Ok tt, w') /\
    dirs_added (fs w) (fs w') /\ same_io w w'.
Proof.
  intros [Hd Hall]. unfold dir_chain in Hall.
  apply Forall_app in Hall as [Hanc Hself].
  apply Forall_fmap in Hanc. apply Forall_cons in Hself as [Hself _].
  destruct (for_each_mkdir_ok _ w Hanc) as [w1 H1].
  pose proof (for_each_mkdir_run _ _ _ _ H1) as [Hadd Hio].
  assert (exists w', os.makedirs d true w = (Ok tt, w')) as [w' Hrun].
  { unfold os.makedirs. rewrite bool_decide_eq_false_2 by exact Hd.
    rewrite (bind_ok _ _ _ _ _ H1). msimpl.
    destruct (Hadd (os.dirpath d)) as [E|[_ E]]; rewrite E.
    - destruct Hself as [E'|E']; rewrite E'; eauto.
    - eauto. }
  exists w'. split; [exact Hrun|]. exact (makedirs_run _ _ _ _ _ Hrun).
Qed.

(** *** What a download sends *)








End Fetch.




(** * Further properties of the code *)

(** ** The folder branch of the request handler *)

Section FolderRequest.

Context {L : Lib}.

Lemma has_slash_app (s t : string) :
  Str.has_slash (s +:+ t) = Str.has_slash s || Str.has_slash t.
Proof.
  induction s as [|c s IH]; [reflexivity|].
  change (Str.has_slash (String c (s +:+ t))
          = Str.has_slash (String c s) || Str.has_slash t).
  cbn [Str.has_slash]. rewrite IH. now rewrite orb_assoc.
Qed.

(** A prefix that holds no separator is matched within the first segment of
    a path. *)
Lemma startswith_segment (p key rest : string) :
  Str.has_slash p = false ->
  Str.startswith p (key +:+ "/" +:+ rest) = Str.startswith p key.
Proof.
  revert key. induction p as [|a p IH]; intros key Hp; [now destruct key|].
  cbn [Str.has_slash] in Hp. apply orb_false_iff in Hp as [Ha Hp].
  destruct key as [|b key].
  - change (bool_decide (a = "/"%char) && Str.startswith p rest = false).
    unfold Str.is_slash in Ha. now rewrite Ha.
  - change (bool_decide (a = b) && Str.startswith p (key +:+ "/" +:+ rest)
            = bool_decide (a = b) && Str.startswith p key).
    now rewrite IH.
Qed.

Lemma lstrip_segment (key rest : string) :
  key <> "" -> Str.has_slash key = false ->
  Str.lstrip_slash ("/" +:+ key +:+ rest) = key +:+ rest.
Proof.
  intros Hne Hs. destruct key as [|c key]; [done|].
  cbn [Str.has_slash] in Hs. apply orb_false_iff in Hs as [Hc _].
  change (Str.lstrip_slash (String "/" (String c (key +:+ rest)))
          = String c (key +:+ rest)).
  cbn [Str.lstrip_slash]. change (Str.is_slash "/") with true. cbv iota.
  now rewrite Hc.
Qed.

Lemma split1_segment (key rest : string) :
  Str.has_slash key = false ->
  Str.split1 (key +:+ "/" +:+ rest) = (key, Some rest).
Proof.
  induction key as [|c key IH]; intros Hs; [reflexivity|].
  cbn [Str.has_slash] in Hs. apply orb_false_iff in Hs as [Hc Hs].
  change (Str.split1 (String c (key +:+ "/" +:+ rest)) = (String c key, Some rest)).
  cbn [Str.split1]. rewrite Hc, (IH Hs). reflexivity.
Qed.

Lemma has_slash_true_app (s t : string) :
  Str.has_slash t = true -> Str.has_slash (s +:+ t) = true.
Proof. intros H. rewrite has_slash_app, H. apply orb_true_r. Qed.

(** [os.path.basename] looks at what follows the last separator. *)
Lemma basename_app_slash (s b : string) :
  Str.endswith_slash s = true -> os_path.basename (s +:+ b) = os_path.basename b.
Proof.
  induction s as [|c s IH]; [discriminate|]. intros H.
  change (os_path.basename (String c (s +:+ b)) = os_path.basename b).
  destruct s as [|c' s].
  - cbn [Str.endswith_slash] in H. cbn [os_path.basename Str.has_slash].
    rewrite H. reflexivity.
  - cbn [os_path.basename].
    assert (Str.has_slash (String c (String c' s +:+ b)) = true) as ->.
    { change (String c (String c' s +:+ b)) with (String c (String c' s) +:+ b).
      now rewrite has_slash_app, (endswith_has_slash _ H). }
    apply IH. exact H.
Qed.

Lemma basename_join (a b : string) :
  os_path.basename (os_path.join a b) = os_path.basename b.
Proof.
  unfold os_path.join. destruct (_ || _); [reflexivity|].
  destruct (Str.endswith_slash a) eqn:E.
  - now apply basename_app_slash.
  - rewrite <- (basename_app_slash (a +:+ "/") b) by apply endswith_slash_app.
    f_equal. clear. induction a as [|c a IH]; [reflexivity|].
    change (String c (a +:+ "/" +:+ b) = String c ((a +:+ "/") +:+ b)).
    now rewrite IH.
Qed.

Variable cwd : string.
Variable folders : list (string * string).

(** A request for [/key/sub_path], for a registered key, reaches the folder
    branch with the path [os.path.join(folders[key], sub_path)]. *)
Lemma do_GET_folder (key folder_base sub_path : string)
    (query : list string) (range : option nat) (w : world) :
  dict_get folders key = Some folder_base ->
  key <> "" -> Str.has_slash key = false ->
  Str.startswith "clientupdate" key = false ->
  Server.do_GET cwd folders
    (Request ("/" +:+ key +:+ "/" +:+ sub_path) query range) w
  = (let real_path := os_path.join folder_base sub_path in
     if Server.should_ignore (os_path.basename sub_path) then
       Server.send_error 404 "File is ignored"
     else
       f ← get_fs;
       if os.isfile f real_path then Server._send_file real_path true
       else if os.isdir f real_path then
         if bool_decide ("download" ∈ query) then
           cache ← Server.get_cache_files;
           match cache !! key with
           | Some zip_path =>
               if negb (bool_decide (zip_path = "")) && os.exists_ f zip_path
               then Server._send_file zip_path true
               else Server.send_homepage folders
           | None => Server.send_homepage folders
           end
         else if bool_decide ("json" ∈ query) then
           files_md5 ← Server.manifest_for cwd key real_path;
           Server._send_json files_md5
         else Server.send_folder_listing key real_path sub_path
       else Server.send_homepage folders) w.
Proof.
  intros Hkey Hne Hslash Hupd.
  unfold Server.do_GET. cbn [url_path url_query].
  change (Str.startswith "/clientupdate" ("/" +:+ key +:+ "/" +:+ sub_path))
    with (Str.startswith "clientupdate" (key +:+ "/" +:+ sub_path)).
  rewrite startswith_segment by reflexivity. rewrite Hupd.
  rewrite (lstrip_segment key ("/" +:+ sub_path) Hne Hslash).
  rewrite (bool_decide_eq_false_2 (key +:+ "/" +:+ sub_path = "config_names")).
  2:{ intros H. apply (f_equal Str.has_slash) in H.
      rewrite has_slash_true_app in H by reflexivity. discriminate. }
  cbn [andb]. rewrite (split1_segment _ _ Hslash). cbn [fst snd default].
  rewrite Hkey, basename_join. reflexivity.
Qed.

End FolderRequest.

(** X1. A request below a registered folder for a name the server ignores
    (a name that begins with serveronly_, or ignore_me.txt) is refused with
    404, whether the file exists or not, and nothing is read or written. *)
Theorem ignored_name_is_refused `{L : Lib} (cwd : string)
    (folders : list (string * string)) (key folder_base sub_path : string)
    (query : list string) (range : option nat) (w : world) :
  dict_get folders key = Some folder_base ->
  key <> "" -> Str.has_slash key = false ->
  Str.startswith "clientupdate" key = false ->
  Server.should_ignore (os_path.basename sub_path) = true ->
  Server.do_GET cwd folders
    (Request ("/" +:+ key +:+ "/" +:+ sub_path) query range) w
  = (Ok (Response 404 "text/html;charset=utf-8"
           (http_error_body 404 "File is ignored")), w).
Proof.
  intros Hkey Hne Hslash Hupd Hig.
  rewrite (do_GET_folder cwd folders key folder_base sub_path query range w
             Hkey Hne Hslash Hupd).
  cbv zeta. now rewrite Hig.
Qed.

(** A file is sent with status 200; a file that cannot be opened is sent
    as the status and the headers, with no body. *)
Lemma send_file_run `{L : Lib} (p : string) (access : bool) (data : list byte)
    (download : bool) (w : world) :
  os.lookup (fs w) p = Some (FFile access data) ->
  Server._send_file p download w
  = (Ok (Response 200 "application/octet-stream" (if access then data else [])),
     w).
Proof.
  intros H. unfold Server._send_file, os.exists_, try_except, os.read. msimpl.
  rewrite H. simpl. rewrite H. now destruct access.
Qed.

(** X2. A request below a registered folder for a file whose name is not
    ignored is answered with status 200 and the bytes of the file at
    [os.path.join(folder, sub_path)], whatever the query and the range asked;
    when the server cannot open the file the answer is the status 200 with
    no body.  The state is left as it is. *)
Theorem folder_file_is_served `{L : Lib} (cwd : string)
    (folders : list (string * string)) (key folder_base sub_path : string)
    (query : list string) (range : option nat) (access : bool)
    (data : list byte) (w : world) :
  dict_get folders key = Some folder_base ->
  key <> "" -> Str.has_slash key = false ->
  Str.startswith "clientupdate" key = false ->
  Server.should_ignore (os_path.basename sub_path) = false ->
  os.lookup (fs w) (os_path.join folder_base sub_path)
  = Some (FFile access data) ->
  Server.handle cwd folders
    (Request ("/" +:+ key +:+ "/" +:+ sub_path) query range) w
  = (Ok (Some (Response 200 "application/octet-stream"
                 (if access then data else []))), w).
Proof.
  intros Hkey Hne Hslash Hupd Hig Hfile.
  unfold Server.handle, try_except, fmap, M_fmap.
  rewrite (do_GET_folder cwd folders key folder_base sub_path query range w
             Hkey Hne Hslash Hupd).
  cbv zeta. rewrite Hig.
  unfold mbind at 1, M_bind at 1, get_fs at 1. cbv beta iota.
  unfold os.isfile. rewrite Hfile.
  now rewrite (send_file_run _ _ _ true w Hfile).
Qed.

(** X3. The folder branch does not confine the path to the folder: for a
    sub-path that begins with a separator, [os.path.join] drops the folder,
    so a request [/key//abs/path] is answered with the bytes of the file at
    [/abs/path], wherever the folder of the key is. *)
Theorem absolute_sub_path_leaves_folder `{L : Lib} (cwd : string)
    (folders : list (string * string)) (key folder_base sub_path : string)
    (query : list string) (range : option nat) (data : list byte) (w : world) :
  dict_get folders key = Some folder_base ->
  key <> "" -> Str.has_slash key = false ->
  Str.startswith "clientupdate" key = false ->
  Str.startswith "/" sub_path = true ->
  Server.should_ignore (os_path.basename sub_path) = false ->
  os.lookup (fs w) sub_path = Some (FFile true data) ->
  Server.do_GET cwd folders
    (Request ("/" +:+ key +:+ "/" +:+ sub_path) query range) w
  = (Ok (Response 200 "application/octet-stream" data), w).
Proof.
  intros Hkey Hne Hslash Hupd Habs Hig Hfile.
  rewrite (do_GET_folder cwd folders key folder_base sub_path query range w
             Hkey Hne Hslash Hupd).
  cbv zeta. rewrite Hig.
  assert (os_path.join folder_base sub_path = sub_path) as ->
    by (unfold os_path.join; now rewrite Habs).
  unfold mbind at 1, M_bind at 1, get_fs at 1. cbv beta iota.
  unfold os.isfile. rewrite Hfile.
  now rewrite (send_file_run _ _ _ true w Hfile).
Qed.

(** The manifest the server sends for a key: the entry of the hash record
    when the record has one, the manifest of the folder as it is now
    otherwise. *)
Definition served_manifest `{L : Lib} (cwd : string) (f : filesystem)
    (key real_path : string) : json :=
  match old_hash_of cwd f with
  | JDict d =>
      match dict_get d key with
      | Some files_md5 => files_md5
      | None => Server.manifest_json (record_all (scanned f real_path) ∅)
      end
  | _ => Server.manifest_json (record_all (scanned f real_path) ∅)
  end.

Lemma load_json_run `{L : Lib} (p : string) (w : world) :
  Server.load_json p w
  = (match os.lookup (fs w) p with
     | Some (FFile true data) =>
         match json_loads data with
         | Some j => Ok j
         | None => Raise "JSONDecodeError"
         end
     | Some (FFile false _) => Raise "PermissionError"
     | Some FDir => Raise "IsADirectoryError"
     | None => Raise "FileNotFoundError"
     end, w).
Proof.
  unfold Server.load_json, os.read. msimpl.
  destruct (os.lookup (fs w) p) as [[[] data|]|]; try reflexivity.
  now destruct (json_loads data).
Qed.

Lemma manifest_for_run `{L : Lib} (cwd key real_path : string) (w : world) :
  Server.manifest_for cwd key real_path w
  = (Ok (served_manifest cwd (fs w) key real_path), w).
Proof.
  assert (forall e : string,
            (Server.manifest_json <$> Server.scan_folder_dict real_path) w
            = (Ok (Server.manifest_json (record_all (scanned (fs w) real_path) ∅)),
               w)) as Hscan.
  { intros _. unfold fmap, M_fmap. now rewrite scan_folder_dict_run. }
  unfold Server.manifest_for, served_manifest, old_hash_of, try_except.
  pose proof (load_json_run (Server.HASH_RECORD_FILE cwd) w) as Hload.
  destruct (os.lookup (fs w) (Server.HASH_RECORD_FILE cwd)) as [[[] data|]|];
    try (rewrite (bind_raise _ _ _ _ _ Hload); now apply Hscan).
  destruct (json_loads data) as [j|]; cbn [default];
    [|rewrite (bind_raise _ _ _ _ _ Hload); now apply Hscan].
  rewrite (bind_ok _ _ _ _ _ Hload).
  rewrite (bind_ok _ _ _ _ _ (scan_folder_dict_run real_path w)).
  destruct j as [s|l|d|text]; try (now apply Hscan).
  unfold id. now destruct (dict_get d key).
Qed.

(** X4. The manifest request the client sends, [/key/?json=1], for a
    registered key whose folder is a directory, when every name of the
    manifest can be encoded as UTF-8: the answer is the entry of the hash
    record for the key, as the last pass wrote it, whatever the folder holds
    now; only when the record is missing, unreadable, not a JSON object or
    has no entry for the key is the answer the scan of the folder.  The state
    is left as it is. *)
Theorem manifest_is_served_from_record `{L : Lib} (cwd : string)
    (folders : list (string * string)) (key folder_base : string) (w : world) :
  dict_get folders key = Some folder_base ->
  key <> "" -> Str.has_slash key = false ->
  Str.startswith "clientupdate" key = false ->
  os.isdir (fs w) (os_path.join folder_base "") = true ->
  (json_dump (served_manifest cwd (fs w) key (os_path.join folder_base ""))).2
  = true ->
  Server.do_GET cwd folders (Client.manifest_url key) w
  = (Ok (Response 200 "application/json; charset=utf-8"
           (json_dumps
              (served_manifest cwd (fs w) key (os_path.join folder_base "")))),
     w) /\
  (forall data d files_md5,
     os.lookup (fs w) (Server.HASH_RECORD_FILE cwd) = Some (FFile true data) ->
     json_loads data = Some (JDict d) ->
     dict_get d key = Some files_md5 ->
     served_manifest cwd (fs w) key (os_path.join folder_base "") = files_md5) /\
  (os.lookup (fs w) (Server.HASH_RECORD_FILE cwd) = None ->
   Server.scan_folder_dict (os_path.join folder_base "") w
   = (Ok (record_all (scanned (fs w) (os_path.join folder_base "")) ∅), w) /\
   served_manifest cwd (fs w) key (os_path.join folder_base "")
   = Server.manifest_json
       (record_all (scanned (fs w) (os_path.join folder_base "")) ∅)).
Proof.
  intros Hkey Hne Hslash Hupd Hdir _. split; [|split].
  - unfold Client.manifest_url.
    change ("/" +:+ key +:+ "/") with ("/" +:+ key +:+ "/" +:+ "").
    rewrite (do_GET_folder cwd folders key folder_base "" ["json"] None w
               Hkey Hne Hslash Hupd).
    cbv zeta. change (Server.should_ignore (os_path.basename "")) with false.
    cbv iota. unfold mbind at 1, M_bind at 1, get_fs at 1. cbv beta iota.
    rewrite isfile_join_empty, Hdir.
    rewrite (bool_decide_eq_false_2 ("download" ∈ ["json"]))
      by (intros H; apply list_elem_of_singleton in H; discriminate).
    rewrite (bool_decide_eq_true_2 ("json" ∈ ["json"])) by now left.
    now rewrite (bind_ok _ _ _ _ _ (manifest_for_run cwd key _ w)).
  - intros data d files_md5 Hrec Hloads Hget.
    unfold served_manifest, old_hash_of. rewrite Hrec, Hloads.
    cbv beta iota delta [default from_option id]. now rewrite Hget.
  - intros Hnone. split; [apply scan_folder_dict_run|].
    unfold served_manifest, old_hash_of. now rewrite Hnone.
Qed.

(** X5. The archive request, [/key?download=1], for a registered key whose
    folder is a directory and whose cached archive is a readable file, is
    answered with status 200 and the bytes of the archive as they are on the
    disk; the state is left as it is. *)
Theorem cached_archive_is_served `{L : Lib} (cwd : string)
    (folders : list (string * string)) (key folder_base zip_path : string)
    (data : list byte) (w : world) :
  dict_get folders key = Some folder_base ->
  Str.has_slash key = false ->
  Str.startswith "clientupdate" key = false ->
  os.isdir (fs w) (os_path.join folder_base "") = true ->
  cache_files w !! key = Some zip_path ->
  os.lookup (fs w) zip_path = Some (FFile true data) ->
  Server.do_GET cwd folders (Client.archive_url key) w
  = (Ok (Response 200 "application/octet-stream" data), w).
Proof.
  intros Hkey Hslash Hupd Hdir Hcache Hzip.
  unfold Server.do_GET, Client.archive_url. cbn [url_path url_query].
  change (Str.startswith "/clientupdate" ("/" +:+ key))
    with (Str.startswith "clientupdate" key).
  rewrite Hupd.
  change (Str.lstrip_slash ("/" +:+ key)) with (Str.lstrip_slash key).
  rewrite (lstrip_no_slash _ Hslash), (split1_no_slash _ Hslash).
  rewrite (bool_decide_eq_false_2 ("json" ∈ ["download"])), andb_false_r
    by (intros H; apply list_elem_of_singleton in H; discriminate).
  cbn [fst snd default]. rewrite Hkey.
  rewrite basename_join_empty.
  change (Server.should_ignore "") with false. cbv iota.
  unfold mbind at 1, M_bind at 1, get_fs at 1. cbv beta iota.
  rewrite isfile_join_empty, Hdir.
  rewrite bool_decide_eq_true_2 by now left.
  unfold mbind at 1, M_bind at 1, Server.get_cache_files at 1. cbv beta iota.
  rewrite Hcache.
  assert (zip_path <> "") as Hne.
  { intros ->. unfold os.lookup in Hzip. discriminate. }
  rewrite (bool_decide_eq_false_2 (zip_path = "")) by exact Hne.
  unfold os.exists_. rewrite Hzip. cbn [negb andb].
  now rewrite (send_file_run _ _ _ true w Hzip).
Qed.

(** ** The hash record and the detection of changes *)

Section Record.

Context {L : Lib}.

Lemma dict_get_elem {A} (l : list (string * A)) (k : string) (v : A) :
  NoDup l.*1 -> (k, v) ∈ l -> dict_get l k = Some v.
Proof.
  induction l as [|[k0 v0] l IH]; intros Hnd Hin; [inversion Hin|].
  rewrite fmap_cons in Hnd. apply NoDup_cons in Hnd as [Hk0 Hnd].
  cbn [dict_get]. apply elem_of_cons in Hin as [Heq|Hin].
  - injection Heq as -> ->. now rewrite bool_decide_eq_true_2.
  - rewrite bool_decide_eq_false_2; [now apply IH|].
    intros ->. apply Hk0. apply list_elem_of_fmap. now exists (k, v).
Qed.

Lemma dict_get_notin {A} (l : list (string * A)) (k : string) :
  k ∉ l.*1 -> dict_get l k = None.
Proof.
  induction l as [|[k0 v0] l IH]; intros Hk; [reflexivity|].
  rewrite fmap_cons in Hk. apply not_elem_of_cons in Hk as [Hne Hk].
  cbn [dict_get]. rewrite bool_decide_eq_false_2 by (intros ->; now apply Hne).
  now apply IH.
Qed.

(** The items of a map, as a [dict]: [d.get(k)] is the lookup. *)
Lemma dict_get_map_to_list {A B} (g : A -> B) (m : gmap string A) (k : string) :
  dict_get ((fun kv => (kv.1, g kv.2)) <$> map_to_list m) k = g <$> m !! k.
Proof.
  assert (((fun kv : string * A => (kv.1, g kv.2)) <$> map_to_list m).*1
          = (map_to_list m).*1) as Hkeys.
  { rewrite <- list_fmap_compose. now apply list_fmap_ext. }
  destruct (m !! k) as [a|] eqn:E; cbn [fmap option_fmap option_map].
  - apply dict_get_elem.
    + rewrite Hkeys. apply NoDup_fst_map_to_list.
    + apply list_elem_of_fmap. exists (k, a). split; [reflexivity|].
      now apply elem_of_map_to_list.
  - apply dict_get_notin. rewrite Hkeys. intros Hin.
    apply list_elem_of_fmap in Hin as ([k' a] & -> & Hin).
    apply elem_of_map_to_list in Hin. simpl in E. congruence.
Qed.

(** Reading back the JSON of a manifest gives the manifest. *)
Lemma json_manifest_manifest_json (m : gmap string string) :
  Server.json_manifest (Server.manifest_json m) = Some m.
Proof.
  unfold Server.json_manifest, Server.manifest_json.
  assert (forall l : list (string * string),
            mapM (fun kv : string * json =>
                    match kv.2 with
                    | JStr s => Some (kv.1, s)
                    | _ => None
                    end) ((fun kv => (kv.1, JStr kv.2)) <$> l) = Some l) as H.
  { induction l as [|[k v] l IH]; [reflexivity|].
    rewrite fmap_cons. cbn [mapM]. rewrite IH. reflexivity. }
  rewrite H. cbn [fmap option_fmap option_map]. f_equal.
  apply list_to_map_to_list.
Qed.

(** X6. Against a record as the server saves it, a key counts as changed
    exactly when the record has no entry for it or its entry is not the fresh
    manifest; the test never raises. *)
Theorem change_detection_is_exact
    (record : gmap string (gmap string string)) (key : string)
    (manifest : gmap string string) (w : world) :
  Server.changed (Server.record_json record) key manifest w
  = (Ok (negb (bool_decide (record !! key = Some manifest))), w).
Proof.
  unfold Server.changed, Server.record_json.
  rewrite (dict_get_map_to_list Server.manifest_json record key).
  destruct (record !! key) as [m|] eqn:E; cbn [fmap option_fmap option_map].
  - rewrite json_manifest_manifest_json. reflexivity.
  - reflexivity.
Qed.


(** *** The pass, step by step *)

Variable cwd : string.
Variable folders : list (string * string).

(** The global [cache_files] once every key is registered. *)
Definition registered (keys : list string) (cache : gmap string string)
  : gmap string string :=
  foldl (fun c key => <[key := Server.zip_path_of cwd key]> c) cache keys.

Lemma set_cache_files_exact (keys : list string) (w : world) :
  for_each keys (Server.set_cache_file cwd) w
  = (Ok tt, World (fs w) (stdout w) (sent w) (registered keys (cache_files w))).
Proof.
  revert w. induction keys as [|key keys IH]; intros w; [now destruct w|].
  cbn [for_each].
  rewrite (bind_ok _ _ w
             (World (fs w) (stdout w) (sent w)
                (<[key := Server.zip_path_of cwd key]> (cache_files w))) tt)
    by reflexivity.
  now rewrite IH.
Qed.


(** What the pass has done when it comes to register the archives: the
    changed keys were rebuilt, in their order. *)
Lemma pass_builds (w : world) :
  is_object (old_hash_of cwd (fs w)) = true ->
  exists wb,
    Server.create_zip_cache cwd folders w
    = (for_each (folders.*1) (Server.set_cache_file cwd);;
       Server.save_hash_record cwd (fresh_manifests (fs w) folders ∅);;
       print "📦 快取初始化完成！") wb /\
    (forall q,
       (forall k, k ∈ changed_keys_of (fs w) (old_hash_of cwd (fs w)) folders ->
                  q <> Server.zip_path_of cwd k) ->
       fs wb !! q = fs w !! q) /\
    (changed_keys_of (fs w) (old_hash_of cwd (fs w)) folders = [] ->
     wb = with_out ["🗜️ 正在檢查 ZIP 快取...";
                    "✅ 所有資料夾與快照相同，使用現有快取。"] w).
Proof.
  intros Hobj. unfold Server.create_zip_cache.
  rewrite (bind_ok _ _ _ _ _ (print_run _ w)).
  set (wa := World (fs w) _ (sent w) (cache_files w)).
  rewrite (bind_ok _ _ _ _ _ (load_old_hash_run cwd wa)).
  rewrite (bind_ok _ _ _ _ _ (scan_all_run _ _ _ _ wa Hobj)).
  cbn [app]. change (fs wa) with (fs w).
  destruct (changed_keys_of (fs w) (old_hash_of cwd (fs w)) folders)
    as [|k0 ck0] eqn:Eck; cbv beta iota.
  - eexists. split; [now rewrite (bind_ok _ _ _ _ _ (print_run _ wa))|].
    split; [reflexivity|].
    intros _. unfold with_out. subst wa. cbn [fs stdout sent cache_files].
    now rewrite <- app_assoc.
  - edestruct (rebuild_all_run cwd folders (k0 :: ck0))
      as (wb & Hrun & _ & _ & Hfr & _).
    { intros k Hk. rewrite <- Eck in Hk.
      eapply changed_keys_registered. exact Hk. }
    exists wb. split; [|split; [|discriminate]].
    + assert ((print ("♻️ 偵測到變動的資料夾: " +:+ String.concat ", " (k0 :: ck0));;
               for_each (k0 :: ck0) (Server.rebuild cwd folders)) wa
              = (Ok tt, wb)) as Hrun'.
      { rewrite (bind_ok _ _ _ _ _ (print_run _ wa)). exact Hrun. }
      now rewrite (bind_ok _ _ _ _ _ Hrun').
    + intros q Hq. now rewrite Hfr.
Qed.


(** A pass in which no key differs from the record. *)
Lemma pass_without_changes (w : world) :
  is_object (old_hash_of cwd (fs w)) = true ->
  changed_keys_of (fs w) (old_hash_of cwd (fs w)) folders = [] ->
  writable (fs w) (Server.HASH_RECORD_FILE cwd) = true ->
  (json_dump (Server.record_json (fresh_manifests (fs w) folders ∅))).2 = true ->
  Server.create_zip_cache cwd folders w
  = (Ok tt,
     World (<[Server.HASH_RECORD_FILE cwd :=
              FFile true (json_dumps
                (Server.record_json (fresh_manifests (fs w) folders ∅)))]> (fs w))
           (stdout w ++ ["🗜️ 正在檢查 ZIP 快取...";
                         "✅ 所有資料夾與快照相同，使用現有快取。";
                         "📦 快取初始化完成！"])
           (sent w) (registered (folders.*1) (cache_files w))).
Proof.
  intros Hobj Hck Hw Hc.
  destruct (pass_builds w Hobj) as (wb & -> & _ & Hwb).
  rewrite (Hwb Hck).
  rewrite (bind_ok _ _ _ _ _ (set_cache_files_exact (folders.*1) _)).
  match goal with
  | |- context [(_ ;; print _) ?w0] =>
      rewrite (bind_ok _ _ _ _ _
                 (save_hash_record_complete cwd (fresh_manifests (fs w) folders ∅)
                    w0 Hw Hc))
  end.
  rewrite print_run. cbn [fs stdout sent cache_files set_fs with_out].
  now rewrite <- app_assoc.
Qed.

(** The keys that differ, when every folder has its manifest in the
    record. *)
Lemma no_changed_keys (f : filesystem) (d : list (string * json)) :
  (forall key folder_path,
     (key, folder_path) ∈ folders ->
     exists files_md5,
       dict_get d key = Some files_md5 /\
       Server.json_manifest files_md5
       = Some (record_all (scanned f folder_path) ∅)) ->
  changed_keys_of f (JDict d) folders = [].
Proof.
  intros Hsame. unfold changed_keys_of.
  assert (forall l : list (string * string),
            (forall kv, kv ∈ l -> kv ∈ folders) ->
            filter (fun kv : string * string =>
                      differs_from_record (JDict d) kv.1
                        (record_all (scanned f kv.2) ∅) = true) l = [])
    as Hfil; [|rewrite Hfil; auto].
  induction l as [|[key folder_path] l IH]; intros Hl; [reflexivity|].
  rewrite filter_cons_False.
  - apply IH. intros kv Hkv. apply Hl. now right.
  - destruct (Hsame key folder_path) as (j & Hget & Hman); [apply Hl; now left|].
    cbn [fst snd differs_from_record]. rewrite Hget, Hman.
    rewrite bool_decide_eq_true_2 by reflexivity. discriminate.
Qed.

Lemma fresh_manifests_lookup (f : filesystem) (l : list (string * string))
    (acc : gmap string (gmap string string)) (key folder_path : string) :
  NoDup l.*1 -> (key, folder_path) ∈ l ->
  fresh_manifests f l acc !! key = Some (record_all (scanned f folder_path) ∅).
Proof.
  revert acc. induction l as [|[k p] l IH]; intros acc Hnd Hin; [inversion Hin|].
  rewrite fmap_cons in Hnd. apply NoDup_cons in Hnd as [Hk Hnd].
  change (fresh_manifests f ((k, p) :: l) acc)
    with (fresh_manifests f l (<[k := record_all (scanned f p) ∅]> acc)).
  apply elem_of_cons in Hin as [Heq|Hin]; [|now apply IH].
  injection Heq as -> ->. clear IH Hnd.
  revert acc. induction l as [|[k' p'] l IH]; intros acc.
  - apply lookup_insert_eq.
  - rewrite fmap_cons in Hk. apply not_elem_of_cons in Hk as [Hne Hk].
    change (fresh_manifests f ((k', p') :: l) (<[k := record_all (scanned f p) ∅]> acc))
      with (fresh_manifests f l
              (<[k' := record_all (scanned f p') ∅]>
                 (<[k := record_all (scanned f p) ∅]> acc))).
    rewrite insert_insert_ne by (intros ->; now apply Hne). now apply IH.
Qed.

Lemma fresh_manifests_ext (f f' : filesystem) (l : list (string * string))
    (acc : gmap string (gmap string string)) :
  (forall key folder_path,
     (key, folder_path) ∈ l -> scanned f' folder_path = scanned f folder_path) ->
  fresh_manifests f' l acc = fresh_manifests f l acc.
Proof.
  revert acc. induction l as [|[k p] l IH]; intros acc H; [reflexivity|].
  change (fresh_manifests f' ((k, p) :: l) acc)
    with (fresh_manifests f' l (<[k := record_all (scanned f' p) ∅]> acc)).
  rewrite (H k p) by now left. apply IH.
  intros key folder_path Hin. apply (H key folder_path). now right.
Qed.

End Record.


(** X8. A pass that finds every registered folder equal to its entry of the
    record rebuilds nothing: it reports that the cache is kept, writes the
    record again (every name of it can be encoded) and leaves every other
    path of the disk as it was, so that an archive that is missing stays
    missing. *)
Theorem unchanged_folders_are_not_rebuilt `{L : Lib} (cwd : string)
    (folders : list (string * string)) (d : list (string * json)) (w : world) :
  old_hash_of cwd (fs w) = JDict d ->
  (forall key folder_path,
     (key, folder_path) ∈ folders ->
     exists files_md5,
       dict_get d key = Some files_md5 /\
       Server.json_manifest files_md5
       = Some (record_all (scanned (fs w) folder_path) ∅)) ->
  writable (fs w) (Server.HASH_RECORD_FILE cwd) = true ->
  (json_dump (Server.record_json (fresh_manifests (fs w) folders ∅))).2 = true ->
  exists w',
    Server.create_zip_cache cwd folders w = (Ok tt, w') /\
    stdout w'
    = stdout w ++ ["🗜️ 正在檢查 ZIP 快取...";
                   "✅ 所有資料夾與快照相同，使用現有快取。";
                   "📦 快取初始化完成！"] /\
    fs w'
    = <[Server.HASH_RECORD_FILE cwd :=
        FFile true (json_dumps
          (Server.record_json (fresh_manifests (fs w) folders ∅)))]> (fs w).
Proof.
  intros Hold Hsame Hw Hc.
  assert (is_object (old_hash_of cwd (fs w)) = true) as Hobj by now rewrite Hold.
  rewrite (pass_without_changes cwd folders w Hobj);
    [|rewrite Hold|exact Hw|exact Hc].
  - eexists. repeat split; reflexivity.
  - now apply no_changed_keys.
Qed.

(** X9. A pass is idempotent.  When the first pass could save its record
    (the file can be opened and every name encoded), the record reads back as
    it was written and the folders scan the same after the pass as before it
    (the cache directory is outside of them), a second pass finds no change:
    it rebuilds no archive, also not the archive of a key whose build failed
    in the first pass, and leaves the disk as it is. *)
Theorem second_pass_rebuilds_nothing `{L : Lib} (cwd : string)
    (folders : list (string * string)) (w : world) :
  NoDup folders.*1 ->
  is_object (old_hash_of cwd (fs w)) = true ->
  writable (fs w) (Server.HASH_RECORD_FILE cwd) = true ->
  (json_dump (Server.record_json (fresh_manifests (fs w) folders ∅))).2 = true ->
  json_loads (json_dumps (Server.record_json (fresh_manifests (fs w) folders ∅)))
  = Some (Server.record_json (fresh_manifests (fs w) folders ∅)) ->
  (forall key folder_path,
     (key, folder_path) ∈ folders ->
     scanned (fs (Server.create_zip_cache cwd folders w).2) folder_path
     = scanned (fs w) folder_path) ->
  (Server.create_zip_cache cwd folders w).1 = Ok tt /\
  exists w2,
    Server.create_zip_cache cwd folders (Server.create_zip_cache cwd folders w).2
    = (Ok tt, w2) /\
    fs w2 = fs (Server.create_zip_cache cwd folders w).2 /\
    stdout w2
    = stdout (Server.create_zip_cache cwd folders w).2
      ++ ["🗜️ 正在檢查 ZIP 快取...";
          "✅ 所有資料夾與快照相同，使用現有快取。";
          "📦 快取初始化完成！"].
Proof.
  intros Hnd Hobj Hw Hc Hround Hscan.
  set (fresh := fresh_manifests (fs w) folders ∅) in *.
  destruct (writable_path _ _ Hw) as [Hp Hs].
  (* the first pass *)
  destruct (pass_builds cwd folders w Hobj) as (wb & Hrun & Hframe & _).
  assert (fs wb !! Server.HASH_RECORD_FILE cwd = fs w !! Server.HASH_RECORD_FILE cwd)
    as Hrec.
  { apply Hframe. intros k _ Heq. now apply (zip_path_not_record cwd k). }
  rewrite (bind_ok _ _ _ _ _ (set_cache_files_exact cwd (folders.*1) wb)) in Hrun.
  match type of Hrun with
  | _ = (_ ;; print _) ?w0 =>
      assert (writable (fs w0) (Server.HASH_RECORD_FILE cwd) = true) as Hw0
        by (cbn [fs]; now rewrite (writable_ext _ _ _ Hrec));
      rewrite (bind_ok _ _ _ _ _ (save_hash_record_complete cwd fresh w0 Hw0 Hc)),
        print_run in Hrun
  end.
  cbn [fs stdout sent cache_files set_fs] in Hrun.
  rewrite Hrun in Hscan |- *. cbn [fst snd fs stdout] in Hscan |- *.
  split; [reflexivity|].
  set (f1 := <[Server.HASH_RECORD_FILE cwd :=
               FFile true (json_dumps (Server.record_json fresh))]> (fs wb)) in *.
  (* what the second pass reads *)
  assert (old_hash_of cwd f1 = Server.record_json fresh) as Hold.
  { unfold old_hash_of, f1.
    rewrite (lookup_insert_file _ _ _ Hp Hs), Hround. reflexivity. }
  assert (fresh_manifests f1 folders ∅ = fresh) as Hfresh
    by (apply fresh_manifests_ext; exact Hscan).
  match goal with
  | |- exists w2, Server.create_zip_cache cwd folders ?w1 = _ /\ _ =>
      pose proof (pass_without_changes cwd folders w1) as Hpass
  end.
  cbn [fs stdout sent cache_files] in Hpass.
  rewrite Hold, Hfresh in Hpass.
  rewrite Hpass.
  - eexists. split; [reflexivity|]. cbn [fs stdout]. split; [|reflexivity].
    unfold f1. apply insert_insert_eq.
  - reflexivity.
  - unfold Server.record_json. apply no_changed_keys.
    intros key folder_path Hin. exists (Server.manifest_json
                                          (record_all (scanned f1 folder_path) ∅)).
    split; [|apply json_manifest_manifest_json].
    rewrite (dict_get_map_to_list Server.manifest_json fresh key).
    unfold fresh. rewrite (fresh_manifests_lookup _ _ _ _ _ Hnd Hin).
    cbn [fmap option_fmap option_map]. now rewrite (Hscan key folder_path Hin).
  - unfold writable, f1.
    rewrite bool_decide_eq_false_2 by exact Hp. rewrite Hs.
    now rewrite lookup_insert_eq.
  - exact Hc.
Qed.

(** ** What the manifest and the archive of a folder hold *)

Section Content.

Context {L : Lib}.

Lemma record_all_elem (entries : list (string * string))
    (result : gmap string string) (k v : string) :
  record_all entries result !! k = Some v ->
  (k, v) ∈ entries \/ result !! k = Some v.
Proof.
  revert result. induction entries as [|[k0 v0] entries IH]; intros result H;
    [now right|].
  change (record_all ((k0, v0) :: entries) result)
    with (record_all entries (<[k0 := v0]> result)) in H.
  apply IH in H as [H|H]; [left; now right|].
  destruct (decide (k0 = k)) as [->|Hne].
  - rewrite lookup_insert_eq in H. injection H as ->. left. now left.
  - rewrite lookup_insert_ne in H by exact Hne. now right.
Qed.

(** The scan and the build go through the same files. *)
Lemma scanned_files_to_zip (f : filesystem) (folder_path : string) :
  scanned f folder_path
  = (fun x : string * string => (x.2, server_md5 f x.1))
      <$> Server.files_to_zip f folder_path.
Proof.
  unfold scanned, Server.files_to_zip.
  induction (Server.walk_files f folder_path) as [|[root file] l IH];
    [reflexivity|].
  rewrite !bind_cons, fmap_app, IH.
  now destruct (Server.should_ignore file).
Qed.

Lemma elem_of_files_to_zip (f : filesystem) (folder_path abs_path rel_path : string) :
  (abs_path, rel_path) ∈ Server.files_to_zip f folder_path ->
  exists root file,
    (root, file) ∈ Server.walk_files f folder_path /\
    Server.should_ignore file = false /\
    abs_path = os_path.join root file /\
    rel_path = os_path.relpath (os_path.join root file) folder_path.
Proof.
  unfold Server.files_to_zip. intros H.
  apply list_elem_of_bind in H as ([root file] & H & Hin).
  destruct (Server.should_ignore file) eqn:E; [inversion H|].
  apply list_elem_of_singleton in H. injection H as -> ->.
  now exists root, file.
Qed.

(** The members read from a list of files. *)
Lemma read_members_elem (g : filesystem) (l : list (string * string))
    (acc : list (string * list byte)) (m : string * list byte) :
  m ∈ (read_members g l acc).1 ->
  m ∈ acc \/
  exists abs_path, (abs_path, m.1) ∈ l /\
                   os.lookup g abs_path = Some (FFile true m.2).
Proof.
  revert acc. induction l as [|[abs_path rel_path] l IH]; intros acc H;
    [now left|].
  cbn [read_members] in H.
  destruct (os.lookup g abs_path) as [[[] data|]|] eqn:E; try (now left).
  apply IH in H as [H|(a & Ha & Hl)].
  - apply elem_of_app in H as [H|H]; [now left|].
    apply list_elem_of_singleton in H as ->. right. exists abs_path.
    split; [now left | exact E].
  - right. exists a. split; [now right | exact Hl].
Qed.



End Content.


(** X11. Files the server ignores are left out of what it publishes: every
    entry of a manifest, and every member of an archive, whether its build
    succeeded or failed, comes from a file of the walk whose name is not
    ignored, and carries the path of that file relative to the folder. *)
Theorem ignored_files_are_left_out `{L : Lib} (folder_path zip_path : string)
    (w : world) :
  (exists manifest,
     Server.scan_folder_dict folder_path w = (Ok manifest, w) /\
     forall name h,
       manifest !! name = Some h ->
       exists root file,
         (root, file) ∈ Server.walk_files (fs w) folder_path /\
         Server.should_ignore file = false /\
         name = os_path.relpath (os_path.join root file) folder_path) /\
  (writable (fs w) zip_path = true ->
   exists members,
     fs (Server.zip_folder folder_path zip_path w).2 !! zip_path
     = Some (FFile true (zip_image members)) /\
     forall name data,
       (name, data) ∈ members ->
       exists root file,
         (root, file) ∈ Server.walk_files (fs w) folder_path /\
         Server.should_ignore file = false /\
         name = os_path.relpath (os_path.join root file) folder_path).
Proof.
  split.
  - exists (record_all (scanned (fs w) folder_path) ∅).
    split; [apply scan_folder_dict_run|].
    intros name h Hm. apply record_all_elem in Hm as [Hm|Hm]; [|done].
    rewrite scanned_files_to_zip in Hm.
    apply list_elem_of_fmap in Hm as ([a r] & Heq & Hin).
    injection Heq as -> _.
    apply elem_of_files_to_zip in Hin as (root & file & Hw & Hig & _ & Hrel).
    now exists root, file.
  - intros Hw. rewrite (zip_folder_run _ _ _ Hw). cbn [snd fs set_fs].
    eexists. split; [apply lookup_insert_eq|].
    intros name data Hin. unfold build in Hin.
    apply read_members_elem in Hin as [Hin|(a & Hin & _)]; [inversion Hin|].
    apply elem_of_files_to_zip in Hin as (root & file & Hwalk & Hig & _ & Hrel).
    now exists root, file.
Qed.

Lemma save_keeps_stdout `{L : Lib} (cwd : string)
    (record : gmap string (gmap string string)) (w w' : world)
    (r : outcome unit) (line : string) :
  (Server.save_hash_record cwd record;; print "📦 快取初始化完成！") w = (r, w') ->
  line ∈ stdout w -> line ∈ stdout w'.
Proof.
  destruct (writable (fs w) (Server.HASH_RECORD_FILE cwd)) eqn:Hw.
  - pose proof (save_hash_record_run cwd record w Hw) as Hs.
    destruct (json_dump (Server.record_json record)).2.
    + rewrite (bind_ok _ _ _ _ _ Hs), print_run.
      intros H Hin. inversion H; subst. simpl. apply elem_of_app. now left.
    + rewrite (bind_raise _ _ _ _ _ Hs).
      intros H Hin. inversion H; subst. exact Hin.
  - destruct (save_hash_record_unwritable cwd record w Hw) as [e He].
    rewrite (bind_raise _ _ _ _ _ He).
    intros H Hin. inversion H; subst. exact Hin.
Qed.

(** X12. A record file that is missing, that cannot be read or that is not
    JSON is read as the empty record, with no exception; the pass then takes
    every registered folder as changed: each key is attempted and reports the
    end of its build or its failure. *)
Theorem lost_record_rebuilds_every_key `{L : Lib} (cwd : string)
    (folders : list (string * string)) (w : world) :
  (forall data,
     os.lookup (fs w) (Server.HASH_RECORD_FILE cwd) = Some (FFile true data) ->
     json_loads data = None) ->
  Server.load_old_hash cwd w = (Ok (JDict []), w) /\
  forall key,
    key ∈ folders.*1 ->
    (("[快取更新完成] " +:+ key) ∈ stdout (Server.create_zip_cache cwd folders w).2) \/
    exists e,
      ("[快取失敗] " +:+ key +:+ ": " +:+ e)
      ∈ stdout (Server.create_zip_cache cwd folders w).2.
Proof.
  intros Hlost.
  assert (old_hash_of cwd (fs w) = JDict []) as Hold.
  { unfold old_hash_of.
    destruct (os.lookup (fs w) (Server.HASH_RECORD_FILE cwd)) as [[[] data|]|];
      try reflexivity.
    now rewrite (Hlost data eq_refl). }
  split; [now rewrite load_old_hash_run, Hold|].
  intros key Hkey.
  destruct (builds_before_record cwd folders w) as (w1 & Hlines & _ & Hrun);
    [now rewrite Hold|].
  assert (key ∈ changed_keys_of (fs w) (old_hash_of cwd (fs w)) folders) as Hin.
  { rewrite Hold. unfold changed_keys_of.
    apply list_elem_of_fmap in Hkey as (kv & -> & Hkv).
    apply list_elem_of_fmap. exists kv. split; [reflexivity|].
    apply list_elem_of_filter. split; [reflexivity | exact Hkv]. }
  rewrite Hrun.
  destruct (Hlines key Hin) as [Hd|[e He]].
  - left. eapply save_keeps_stdout; [apply surjective_pairing | exact Hd].
  - right. exists e. eapply save_keeps_stdout; [apply surjective_pairing | exact He].
Qed.

(** ** The manifest the client receives *)

Section Manifest.

Context {L : Lib}.

(** [count_server_files] counts the entries that are not [dict]s, at any
    depth. *)
Lemma count_value_paths (v : json) (local_rel : string) :
  Client.count_value v = List.length (entry_paths local_rel v).
Proof.
  revert local_rel. induction v as [s|l _|d IH|text] using json_ind;
    intros local_rel; try reflexivity.
  cbn [Client.count_value entry_paths].
  induction IH as [|[name v] d Hv _ IHd]; [reflexivity|].
  rewrite length_app, <- IHd. cbn [snd] in Hv. now rewrite <- Hv.
Qed.

Lemma count_server_files_paths (d : list (string * json)) (rel_path : string) :
  Client.count_server_files d = List.length (manifest_paths rel_path d).
Proof.
  induction d as [|[name v] d IH]; [reflexivity|].
  cbn [Client.count_server_files manifest_paths].
  now rewrite length_app, <- IH, <- count_value_paths.
Qed.

Lemma collect_loop_sublist (local_base rel_path : string)
    (d : list (string * json)) :
  Forall (fun kv => forall local_rel w w' tasks,
            Client.collect_entry local_base local_rel kv.2 w = (Ok tasks, w') ->
            sublist tasks (entry_paths local_rel kv.2)) d ->
  forall acc w w' tasks,
    Client.collect_loop local_base rel_path d acc w = (Ok tasks, w') ->
    exists t, tasks = acc ++ t /\ sublist t (manifest_paths rel_path d).
Proof.
  induction 1 as [|[name v] d Hv _ IH]; intros acc w w' tasks H.
  - inversion H; subst. exists []. split; [now rewrite app_nil_r | constructor].
  - cbn [Client.collect_loop] in H.
    apply bind_inv in H as [(t & w1 & H1 & H2)|(e & _ & ?)]; [|discriminate].
    apply Hv in H1. apply IH in H2 as (t' & -> & Ht').
    exists (t ++ t'). split; [now rewrite app_assoc|].
    cbn [manifest_paths]. now apply sublist_app.
Qed.

Lemma collect_entry_sublist (value : json) :
  forall local_base local_rel w w' tasks,
    Client.collect_entry local_base local_rel value w = (Ok tasks, w') ->
    sublist tasks (entry_paths local_rel value).
Proof.
  assert (forall local_base local_rel v w w' tasks,
            Client.collect_leaf local_base local_rel v w = (Ok tasks, w') ->
            sublist tasks [local_rel]) as Hleaf.
  { intros local_base local_rel v w w' tasks. rewrite collect_leaf_run.
    destruct (_ || _); [destruct (Client.truthy _)|];
      intros H; inversion H; subst; try reflexivity.
    apply sublist_nil_l. }
  induction value as [s|l _|d IH|text] using json_ind;
    intros local_base local_rel w w' tasks H.
  - now apply Hleaf in H.
  - now apply Hleaf in H.
  - rewrite collect_entry_dict in H. rewrite entry_paths_dict.
    apply bind_inv in H as [([] & w1 & _ & H2)|(e & _ & ?)]; [|discriminate].
    eapply collect_loop_sublist in H2 as (t & -> & Ht); [exact Ht|].
    eapply Forall_impl; [exact IH|]. intros kv Hkv rel' w0 w0' t0. apply Hkv.
  - now apply Hleaf in H.
Qed.

End Manifest.

(** X13. The tasks of a diff pass are entries of the manifest, each at most
    once and in the order of the manifest, also when the manifest nests
    folders; the number the client divides by is the number of those
    entries, so the change ratio is at most 1. *)
Theorem tasks_are_manifest_entries `{L : Lib}
    (server_dict : list (string * json)) (local_base : string)
    (w w' : world) (tasks : list string) :
  Client.collect_download_tasks server_dict local_base "" w = (Ok tasks, w') ->
  sublist tasks (manifest_paths "" server_dict) /\
  Client.count_server_files server_dict
  = List.length (manifest_paths "" server_dict) /\
  List.length tasks <= Client.count_server_files server_dict /\
  (Client.count_server_files server_dict <> 0 ->
   (Client.change_ratio tasks (Client.count_server_files server_dict) <= 1)%Q).
Proof.
  intros H. unfold Client.collect_download_tasks in H.
  eapply collect_loop_sublist in H as (t & -> & Ht).
  2:{ apply Forall_forall. intros kv _ rel' w0 w0' t0. apply collect_entry_sublist. }
  cbn [app].
  pose proof (count_server_files_paths server_dict "") as Hcount.
  pose proof (sublist_length _ _ Ht) as Hlen.
  split; [exact Ht|]. split; [exact Hcount|]. split; [lia|].
  intros Hne. unfold Client.change_ratio, Qle. cbn [Qnum Qden].
  rewrite Z.mul_1_r, Z.mul_1_l.
  rewrite <- positive_nat_Z, Nat2Pos.id by exact Hne. lia.
Qed.

Section ManifestRequest.

Context {L : Lib}.
Variable cwd : string.
Variable http : request -> option response.

(** The request for the manifest and what becomes of the answer. *)
Lemma fetch_manifest_run (key : string) (w : world) :
  Client.fetch_manifest http key w
  = let w1 := World (fs w) (stdout w) (sent w ++ [Client.manifest_url key])
                    (cache_files w) in
    match http (Client.manifest_url key) with
    | None => (Ok None, with_out ["取得檔案列表失敗: ConnectionError"] w1)
    | Some resp =>
        if bool_decide (status_code resp = 200) then
          match json_loads (content resp) with
          | Some server_files => (Ok (Some server_files), w1)
          | None => (Ok None, with_out ["取得檔案列表失敗: JSONDecodeError"] w1)
          end
        else (Ok None, with_out ["無法取得服務器檔案列表: " +:+ key] w1)
    end.
Proof.
  unfold Client.fetch_manifest, try_except.
  destruct (http (Client.manifest_url key)) as [resp|] eqn:Hhttp.
  - rewrite (bind_ok _ _ _ _ _ (eq_trans (requests_get_run http _ w)
               ltac:(rewrite Hhttp; reflexivity))).
    destruct (bool_decide (status_code resp = 200)); cbn [negb]; [|reflexivity].
    now destruct (json_loads (content resp)).
  - rewrite (bind_raise _ _ _ _ _ (eq_trans (requests_get_run http _ w)
               ltac:(rewrite Hhttp; reflexivity))).
    reflexivity.
Qed.

Lemma quiet_collect_leaf (local_base local_rel : string) (value : json) :
  quiet (Client.collect_leaf local_base local_rel value).
Proof.
  intros w r w'. rewrite collect_leaf_run.
  destruct (_ || _); [destruct (Client.truthy _)|]; intros H; now inversion H.
Qed.

Lemma quiet_collect_loop (local_base rel_path : string)
    (d : list (string * json)) :
  Forall (fun kv => forall local_rel,
            quiet (Client.collect_entry local_base local_rel kv.2)) d ->
  forall acc, quiet (Client.collect_loop local_base rel_path d acc).
Proof.
  induction 1 as [|[name v] d Hv _ IH]; intros acc; [apply quiet_ret|].
  cbn [Client.collect_loop]. apply quiet_bind; [apply Hv|]. intros t. apply IH.
Qed.

Lemma quiet_collect_entry (value : json) :
  forall local_base local_rel,
    quiet (Client.collect_entry local_base local_rel value).
Proof.
  induction value as [s|l _|d IH|text] using json_ind;
    intros local_base local_rel; try apply quiet_collect_leaf.
  intros w r w'. rewrite collect_entry_dict. revert w r w'.
  apply quiet_bind; [apply quiet_makedirs|]. intros _.
  apply quiet_collect_loop.
  eapply Forall_impl; [exact IH|]. intros kv Hkv rel'. apply Hkv.
Qed.

Lemma quiet_collect_download_tasks (server_dict : list (string * json))
    (local_base rel_path : string) :
  quiet (Client.collect_download_tasks server_dict local_base rel_path).
Proof.
  apply quiet_collect_loop, Forall_forall. intros kv _ rel'.
  apply quiet_collect_entry.
Qed.

End ManifestRequest.

(** X14. When the manifest of a folder that is not forced cannot be fetched
    (the connection fails, the status is not 200, or the body is not JSON),
    the folder is skipped: one line is printed, the one request sent is the
    request for the manifest, the disk is left as it is and the client goes
    on with the next folder. *)
Theorem manifest_failure_skips_folder `{L : Lib} (cwd : string)
    (http : request -> option response) (key : string)
    (info : Client.folder_info) (w : world) :
  Client.force info = false ->
  match http (Client.manifest_url key) with
  | Some resp => status_code resp <> 200 \/ json_loads (content resp) = None
  | None => True
  end ->
  exists line,
    Client.sync_folder cwd http key info w
    = (Ok tt,
       World (fs w)
             (stdout w ++ ["
🔍 檢查資料夾 " +:+ key +:+ " ..."; line])
             (sent w ++ [Client.manifest_url key]) (cache_files w)).
Proof.
  intros Hforce Hfail. unfold Client.sync_folder. rewrite Hforce.
  rewrite (bind_ok _ _ _ _ _ (print_run _ w)).
  unfold mbind, M_bind. rewrite fetch_manifest_run. cbv zeta.
  cbn [fs stdout sent cache_files].
  destruct (http (Client.manifest_url key)) as [resp|].
  - destruct Hfail as [Hst|Hjs].
    + rewrite bool_decide_eq_false_2 by exact Hst.
      eexists. unfold with_out. cbn [fs stdout sent cache_files].
      now rewrite <- app_assoc.
    + destruct (bool_decide (status_code resp = 200)); [rewrite Hjs|];
        eexists; unfold with_out; cbn [fs stdout sent cache_files];
        now rewrite <- app_assoc.
  - eexists. unfold with_out. cbn [fs stdout sent cache_files].
    now rewrite <- app_assoc.
Qed.

(** X15. A manifest that is valid JSON but not an object (a list, a string, a
    number) is not caught: the diff raises [AttributeError] outside of any
    [try], so the run of the client ends there; the folders that come after
    it are not looked at and nothing on the disk has changed. *)
Theorem non_object_manifest_ends_the_run `{L : Lib} (cwd : string)
    (http : request -> option response) (key : string)
    (info : Client.folder_info) (rest : list (string * Client.folder_info))
    (resp : response) (server_files : json) (w : world) :
  Client.force info = false ->
  http (Client.manifest_url key) = Some resp ->
  status_code resp = 200 ->
  json_loads (content resp) = Some server_files ->
  is_object server_files = false ->
  Client.main cwd http ((key, info) :: rest) w
  = (Raise "AttributeError",
     World (fs w)
           (stdout w ++ ["
🔍 檢查資料夾 " +:+ key +:+ " ..."])
           (sent w ++ [Client.manifest_url key]) (cache_files w)).
Proof.
  intros Hforce Hhttp Hst Hjs Hobj.
  unfold Client.main. cbn [for_each fst snd].
  assert (Client.sync_folder cwd http key info w
          = (Raise "AttributeError",
             World (fs w)
                   (stdout w ++ ["
🔍 檢查資料夾 " +:+ key +:+ " ..."])
                   (sent w ++ [Client.manifest_url key]) (cache_files w))) as Hrun.
  { unfold Client.sync_folder. rewrite Hforce.
    rewrite (bind_ok _ _ _ _ _ (print_run _ w)).
    unfold mbind, M_bind. rewrite fetch_manifest_run. cbv zeta.
    rewrite Hhttp, bool_decide_eq_true_2, Hjs by exact Hst.
    cbn [fs stdout sent cache_files].
    now destruct server_files. }
  now rewrite (bind_raise _ _ _ _ _ Hrun).
Qed.

(** X16. A manifest that names no file (the empty object, or folders that
    hold no file) costs nothing: the one request sent is the request for the
    manifest, no archive and no file is downloaded, and every file of the
    disk is left as it is. *)
Theorem manifest_without_files_keeps_the_disk `{L : Lib} (cwd : string)
    (http : request -> option response) (key : string)
    (info : Client.folder_info) (resp : response)
    (server_files : list (string * json)) (w : world) :
  Client.force info = false ->
  http (Client.manifest_url key) = Some resp ->
  status_code resp = 200 ->
  json_loads (content resp) = Some (JDict server_files) ->
  Client.count_server_files server_files = 0 ->
  sent (Client.sync_folder cwd http key info w).2
  = sent w ++ [Client.manifest_url key] /\
  (forall q access data,
     fs w !! q = Some (FFile access data) ->
     fs (Client.sync_folder cwd http key info w).2 !! q
     = Some (FFile access data)) /\
  (server_files = [] ->
   Client.sync_folder cwd http key info w
   = (Ok tt,
      World (fs w)
            (stdout w ++ ["
🔍 檢查資料夾 " +:+ key +:+ " ..."; key +:+ ": 伺服器資料夾為空，略過。"])
            (sent w ++ [Client.manifest_url key]) (cache_files w))).
Proof.
  intros Hforce Hhttp Hst Hjs Hcount.
  set (w1 := World (fs w) (stdout w ++ ["
🔍 檢查資料夾 " +:+ key +:+ " ..."]) (sent w ++ [Client.manifest_url key])
                (cache_files w)).
  assert (Client.sync_folder cwd http key info w
          = (Client.collect_download_tasks server_files (Client.path info) "";;
             print (key +:+ ": 伺服器資料夾為空，略過。")) w1) as Hsync.
  { unfold Client.sync_folder. rewrite Hforce.
    rewrite (bind_ok _ _ _ _ _ (print_run _ w)).
    unfold mbind at 1, M_bind at 1. rewrite fetch_manifest_run. cbv zeta.
    rewrite Hhttp, bool_decide_eq_true_2, Hjs by exact Hst.
    cbn [fs stdout sent cache_files]. fold w1.
    rewrite Hcount. now rewrite bool_decide_eq_true_2 by reflexivity. }
  rewrite Hsync.
  pose proof (collect_download_tasks_kept server_files (Client.path info) "" w1)
    as Hkept.
  assert (manifest_paths "" server_files = []) as Hpaths.
  { apply length_zero_iff_nil.
    now rewrite <- (count_server_files_paths server_files ""). }
  rewrite Hpaths in Hkept.
  destruct (Client.collect_download_tasks server_files (Client.path info) "" w1)
    as [[tasks|e] w2] eqn:Hrun;
    pose proof (quiet_collect_download_tasks _ _ _ _ _ _ Hrun) as Hsent.
  - rewrite (bind_ok _ _ _ _ _ Hrun), print_run. cbn [snd fs sent] in *.
    split; [exact Hsent|]. split.
    + intros q access data Hq. apply (Hkept q access data); [|exact Hq].
      intros Hin. inversion Hin.
    + intros ->. inversion Hrun; subst. unfold w1.
      cbn [fs stdout sent cache_files]. now rewrite <- app_assoc.
  - rewrite (bind_raise _ _ _ _ _ Hrun). cbn [snd] in *.
    split; [exact Hsent|]. split.
    + intros q access data Hq. apply (Hkept q access data); [|exact Hq].
      intros Hin. inversion Hin.
    + intros ->. discriminate.
Qed.

(** ** Downloads of the client *)

Section Download.

Context {L : Lib}.
Variable http : request -> option response.

Lemma makedirs_existing (p : string) (w : world) :
  p <> "" ->
  fs w !! os.dirpath p = Some FDir ->
  (forall a, a ∈ os_path.ancestors (os.dirpath p) ->
             fs w !! os.dirpath a = Some FDir) ->
  os.makedirs p true w = (Ok tt, w).
Proof.
  intros Hp Hdir Hanc. unfold os.makedirs.
  rewrite bool_decide_eq_false_2 by exact Hp.
  rewrite (bind_ok _ _ _ _ _ (for_each_mkdir_existing _ w Hanc)). msimpl.
  rewrite Hdir. now destruct w.
Qed.




End Download.


(** X18. A file that is not on the local disk yet is downloaded whole: the
    request carries no offset, the body of the first answer with status 200
    (or 206) is written to the local path, and the local file is then
    byte-identical to that body; [download_file] returns [True] after this one
    request. *)
Theorem fresh_download_writes_the_body `{L : Lib}
    (http : request -> option response)
    (folder_key file_path save_dir : string) (retries : nat) (r : response)
    (w : world) :
  os_path.dirname (os_path.join save_dir file_path) <> "" ->
  fs w !! os.dirpath (os_path.dirname (os_path.join save_dir file_path))
  = Some FDir ->
  (forall a,
     a ∈ os_path.ancestors
           (os.dirpath (os_path.dirname (os_path.join save_dir file_path))) ->
     fs w !! os.dirpath a = Some FDir) ->
  writable (fs w) (os_path.join save_dir file_path) = true ->
  fs w !! os_path.join save_dir file_path = None ->
  http (Request ("/" +:+ folder_key +:+ "/" +:+ file_path) ["download"] None)
  = Some r ->
  status_code r = 200 \/ status_code r = 206 ->
  Client.download_file http folder_key file_path save_dir (S retries) w
  = (Ok true,
     World (<[os_path.join save_dir file_path := FFile true (content r)]> (fs w))
           (stdout w ++ ["[下載完成] " +:+ folder_key +:+ "/" +:+ file_path])
           (sent w ++ [Request ("/" +:+ folder_key +:+ "/" +:+ file_path)
                               ["download"] None])
           (cache_files w)).
Proof.
  intros Hp Hdir Hanc Hw Hnone Hhttp Hstatus. unfold Client.download_file.
  rewrite (bind_ok _ _ _ _ _ (makedirs_existing _ w Hp Hdir Hanc)).
  set (local_path := os_path.join save_dir file_path) in *.
  destruct (writable_path _ _ Hw) as [Hne Hs].
  assert (os.lookup (fs w) local_path = None) as Hlook.
  { unfold os.lookup. rewrite bool_decide_eq_false_2 by exact Hne.
    now rewrite Hs. }
  cbn [Client.download_retry].
  assert (Client.download_attempt http folder_key file_path local_path w
          = (Ok true,
             World (<[local_path := FFile true (content r)]> (fs w))
                   (stdout w ++ ["[下載完成] " +:+ folder_key +:+ "/" +:+ file_path])
                   (sent w ++ [Request ("/" +:+ folder_key +:+ "/" +:+ file_path)
                                       ["download"] None])
                   (cache_files w))) as Hrun.
  { unfold Client.download_attempt, try_except.
    unfold mbind at 1, M_bind at 1, get_fs at 1. cbv beta iota.
    unfold os.exists_. rewrite Hlook.
    unfold mbind at 1, M_bind at 1, mret at 1, M_ret at 1. cbv beta iota.
    rewrite (bind_ok _ _ _ _ _ (eq_trans (requests_get_run http _ w)
               ltac:(rewrite Hhttp; reflexivity))).
    assert (bool_decide (status_code r = 200) || bool_decide (status_code r = 206)
            = true) as ->.
    { destruct Hstatus as [->| ->]; reflexivity. }
    rewrite (bool_decide_eq_false_2 (0 < 0)) by lia.
    match goal with
    | |- context [(os.open_w local_path ;; _) ?w0] =>
        assert (writable (fs w0) local_path = true) as Hw0 by exact Hw;
        rewrite (bind_ok _ _ _ _ _ (open_w_ok _ w0 Hw0));
        rewrite (bind_ok _ _ _ _ _ (write_after_open _ (content r) w0 Hne Hs))
    end.
    now rewrite (bind_ok _ _ _ _ _ (print_run _ _)). }
  now rewrite (bind_ok _ _ _ _ _ Hrun).
Qed.

(** X19. Resuming against a server that honours the range: when the local
    file holds the first bytes of the source and the answer, with status 206,
    carries the bytes of the source from that offset on, the local file is
    byte-identical to the source after the one request. *)
Theorem resume_with_partial_content_is_exact `{L : Lib}
    (http : request -> option response)
    (folder_key file_path save_dir : string) (retries : nat) (r : response)
    (source : list byte) (offset : nat) (w : world) :
  os_path.dirname (os_path.join save_dir file_path) <> "" ->
  fs w !! os.dirpath (os_path.dirname (os_path.join save_dir file_path))
  = Some FDir ->
  (forall a,
     a ∈ os_path.ancestors
           (os.dirpath (os_path.dirname (os_path.join save_dir file_path))) ->
     fs w !! os.dirpath a = Some FDir) ->
  0 < offset < List.length source ->
  os.lookup (fs w) (os_path.join save_dir file_path)
  = Some (FFile true (take offset source)) ->
  http (Request ("/" +:+ folder_key +:+ "/" +:+ file_path) ["download"]
                (Some offset)) = Some r ->
  status_code r = 206 ->
  content r = drop offset source ->
  Client.download_file http folder_key file_path save_dir (S retries) w
  = (Ok true,
     World (<[os_path.join save_dir file_path := FFile true source]> (fs w))
           (stdout w ++ ["[下載完成] " +:+ folder_key +:+ "/" +:+ file_path])
           (sent w ++ [Request ("/" +:+ folder_key +:+ "/" +:+ file_path)
                               ["download"] (Some offset)])
           (cache_files w)).
Proof.
  intros Hp Hdir Hanc Hoff Hfile Hhttp Hstatus Hbody. unfold Client.download_file.
  rewrite (bind_ok _ _ _ _ _ (makedirs_existing _ w Hp Hdir Hanc)).
  cbn [Client.download_retry].
  assert (List.length (take offset source) = offset) as Hlen
    by (rewrite length_take; lia).
  pose proof (download_attempt_resume http folder_key file_path
                (os_path.join save_dir file_path) w (take offset source) r Hfile)
    as Hrun.
  rewrite Hlen in Hrun.
  rewrite (bind_ok _ _ _ _ _ (Hrun (proj1 Hoff) Hhttp (or_intror Hstatus))).
  now rewrite Hbody, take_drop.
Qed.

(** ** An archive that cannot be fetched or unpacked *)

Section FailedFetch.

Context {L : Lib}.
Variable cwd : string.
Variable http : request -> option response.

Lemma endswith_last_char (p : string) :
  Str.endswith_slash p = true -> last_char p = Some "/"%char.
Proof.
  induction p as [|c p IH]; [discriminate|].
  destruct p as [|c' p].
  - cbn. unfold Str.is_slash. intros H. apply bool_decide_eq_true in H.
    now subst.
  - intros H. apply IH in H. exact H.
Qed.

(** The path of the temporary archive names a file. *)
Lemma temp_zip_path :
  os_path.join cwd "temp.zip" <> "" /\
  Str.endswith_slash (os_path.join cwd "temp.zip") = false.
Proof.
  assert (last_char (os_path.join cwd "temp.zip") = Some "p"%char) as Hlast
    by now rewrite last_char_join.
  split.
  - intros H. rewrite H in Hlast. discriminate.
  - destruct (Str.endswith_slash _) eqn:E; [|reflexivity].
    apply endswith_last_char in E. congruence.
Qed.

(** The end of [download_and_extract_zip]: the temporary archive is
    removed. *)
Lemma remove_temp_zip (w : world) :
  fs w !! os_path.join cwd "temp.zip" <> Some FDir ->
  (f ← get_fs;
   if os.exists_ f (os_path.join cwd "temp.zip")
   then os.remove (os_path.join cwd "temp.zip") else mret tt) w
  = (Ok tt, set_fs (delete (os_path.join cwd "temp.zip") (fs w)) w).
Proof.
  intros Hnd. destruct temp_zip_path as [Hne Hs].
  unfold os.exists_, os.remove. msimpl. unfold os.lookup.
  rewrite bool_decide_eq_false_2 by exact Hne. rewrite Hs.
  destruct (fs w !! os_path.join cwd "temp.zip") as [[a data|]|] eqn:E;
    rewrite ?E.
  - reflexivity.
  - now destruct Hnd.
  - rewrite delete_id by exact E. now destruct w.
Qed.

(** The body of [download_and_extract_zip] when no archive can be had. *)
Lemma failed_fetch_body (zip_url : request) (extract_to : string) (w : world) :
  fs w !! os_path.join cwd "temp.zip" <> Some FDir ->
  match http zip_url with
  | Some r => zip_members (content r) = None
  | None => True
  end ->
  exists lines e f',
    try_except
      (print ("📦 下載 ZIP: " +:+ Client.url_text zip_url);;
       r ← Client.requests_get http zip_url;
       os.open_w (os_path.join cwd "temp.zip");;
       os.write (os_path.join cwd "temp.zip") (content r);;
       print "🧩 下載完成，開始解壓縮 ...";;
       data ← os.read (os_path.join cwd "temp.zip");
       match zip_members data with
       | Some members => for_each members (Client.extract_member extract_to)
       | None => raise "BadZipFile"
       end;;
       print "✅ 解壓完成。")
      (fun e => print ("❌ 下載或解壓失敗: " +:+ e)) w
    = (Ok tt,
       World f' (stdout w ++ lines ++ ["❌ 下載或解壓失敗: " +:+ e])
             (sent w ++ [zip_url]) (cache_files w)) /\
    f' !! os_path.join cwd "temp.zip" <> Some FDir /\
    delete (os_path.join cwd "temp.zip") f'
    = delete (os_path.join cwd "temp.zip") (fs w).
Proof.
  intros Hnd Hhttp. destruct temp_zip_path as [Hne Hs].
  unfold try_except.
  rewrite (bind_ok _ _ _ _ _ (print_run _ w)).
  set (w0 := World (fs w) _ (sent w) (cache_files w)).
  destruct (http zip_url) as [r|] eqn:E.
  - rewrite (bind_ok _ _ _ _ _ (eq_trans (requests_get_run http _ w0)
               ltac:(rewrite E; reflexivity))).
    set (w1 := World (fs w0) (stdout w0) (sent w0 ++ [zip_url]) (cache_files w0)).
    destruct (writable (fs w1) (os_path.join cwd "temp.zip")) eqn:Hw.
    + rewrite (bind_ok _ _ _ _ _ (open_w_ok _ w1 Hw)).
      rewrite (bind_ok _ _ _ _ _ (write_after_open _ (content r) w1 Hne Hs)).
      rewrite (bind_ok _ _ _ _ _ (print_run _ _)).
      match goal with
      | |- context [(os.read ?p ≫= _) ?w2] =>
          assert (os.read p w2 = (Ok (content r), w2)) as Hread
      end.
      { unfold os.read. msimpl.
        now rewrite (lookup_insert_file _ _ _ Hne Hs). }
      rewrite (bind_ok _ _ _ _ _ Hread), Hhttp.
      unfold mbind at 1, M_bind at 1, raise at 1. cbv beta iota.
      rewrite print_run. cbn [fs stdout sent cache_files set_fs].
      exists ["📦 下載 ZIP: " +:+ Client.url_text zip_url;
              "🧩 下載完成，開始解壓縮 ..."], "BadZipFile".
      eexists. split; [|split].
      * unfold w1, w0. cbn [fs stdout sent cache_files].
        rewrite <- !app_assoc. reflexivity.
      * rewrite lookup_insert_eq. discriminate.
      * apply delete_insert_eq.
    + destruct (open_w_fail _ w1 Hw) as [e He].
      rewrite (bind_raise _ _ _ _ _ He), print_run.
      exists ["📦 下載 ZIP: " +:+ Client.url_text zip_url], e, (fs w).
      split; [|split; [exact Hnd | reflexivity]].
      unfold w1, w0. cbn [fs stdout sent cache_files].
      rewrite <- !app_assoc. reflexivity.
  - rewrite (bind_raise _ _ _ _ _ (eq_trans (requests_get_run http _ w0)
               ltac:(rewrite E; reflexivity))).
    rewrite print_run.
    exists ["📦 下載 ZIP: " +:+ Client.url_text zip_url], "ConnectionError", (fs w).
    split; [|split; [exact Hnd | reflexivity]].
    unfold w0. cbn [fs stdout sent cache_files].
    rewrite <- !app_assoc. reflexivity.
Qed.

Lemma failed_fetch_run (zip_url : request) (extract_to : string) (w : world) :
  fs w !! os_path.join cwd "temp.zip" <> Some FDir ->
  match http zip_url with
  | Some r => zip_members (content r) = None
  | None => True
  end ->
  exists lines e,
    Client.download_and_extract_zip cwd http zip_url extract_to w
    = (Ok tt,
       World (delete (os_path.join cwd "temp.zip") (fs w))
             (stdout w ++ lines ++ ["❌ 下載或解壓失敗: " +:+ e])
             (sent w ++ [zip_url]) (cache_files w)).
Proof.
  intros Hnd Hhttp.
  destruct (failed_fetch_body zip_url extract_to w Hnd Hhttp)
    as (lines & e & f' & Hbody & Hnd' & Hdel).
  exists lines, e. unfold Client.download_and_extract_zip, try_finally.
  rewrite Hbody.
  rewrite (remove_temp_zip (World f' _ _ _)) by exact Hnd'.
  cbn [fs stdout sent cache_files set_fs]. now rewrite Hdel.
Qed.

End FailedFetch.

(** X20. [download_and_extract_zip] does not look at the status of the
    answer.  When the server cannot be reached, or the body is not an archive
    (an error page, the homepage), nothing is extracted: the failure is
    printed, no exception leaves the function, the temporary archive is
    removed and every other path of the disk is as it was. *)
Theorem failed_fetch_extracts_nothing `{L : Lib} (cwd : string)
    (http : request -> option response) (zip_url : request)
    (extract_to : string) (w : world) :
  fs w !! os_path.join cwd "temp.zip" <> Some FDir ->
  match http zip_url with
  | Some r => zip_members (content r) = None
  | None => True
  end ->
  exists lines e,
    Client.download_and_extract_zip cwd http zip_url extract_to w
    = (Ok tt,
       World (delete (os_path.join cwd "temp.zip") (fs w))
             (stdout w ++ lines ++ ["❌ 下載或解壓失敗: " +:+ e])
             (sent w ++ [zip_url]) (cache_files w)).
Proof. apply failed_fetch_run. Qed.

Section FailedReplace.

Context {L : Lib}.
Variable cwd : string.
Variable http : request -> option response.

(** The fetch that follows the deletion of the destination. *)
Lemma failed_fetch_after_wipe (url : request) (p : string) (w : world) :
  os.under p (os_path.join cwd "temp.zip") = false ->
  fs w !! os_path.join cwd "temp.zip" <> Some FDir ->
  match http url with
  | Some r => zip_members (content r) = None
  | None => True
  end ->
  exists w',
    Client.download_and_extract_zip cwd http url p (set_fs (wiped p (fs w)) w)
    = (Ok tt, w') /\
    (forall q, os.under p q = true -> q <> os.dirpath p -> fs w' !! q = None) /\
    fs w' !! os.dirpath p = Some FDir /\
    (forall q, os.under p q = false -> q <> os_path.join cwd "temp.zip" ->
               fs w' !! q = fs w !! q) /\
    (exists e, ("❌ 下載或解壓失敗: " +:+ e) ∈ stdout w') /\
    sent w' = sent w ++ [url].
Proof.
  intros Htemp Hnd Hhttp.
  destruct (failed_fetch_run cwd http url p (set_fs (wiped p (fs w)) w))
    as (lines & e & Hrun).
  { cbn [fs set_fs]. now rewrite wiped_outside. }
  { exact Hhttp. }
  eexists. split; [exact Hrun|]. cbn [fs stdout sent set_fs].
  split; [|split; [|split; [|split]]].
  - intros q Hu Hq. rewrite lookup_delete_ne by (intros <-; congruence).
    now apply wiped_below.
  - rewrite lookup_delete_ne.
    + apply lookup_insert_eq.
    + intros Heq. rewrite Heq, under_self in Htemp. discriminate.
  - intros q Hu Hq. rewrite lookup_delete_ne by congruence.
    now apply wiped_outside.
  - exists e. rewrite app_assoc. apply elem_of_app. right. now left.
  - reflexivity.
Qed.

End FailedReplace.

(** X21. A full replacement deletes the destination before it has the
    archive.  When the archive then cannot be fetched or unpacked, in the
    forced branch and in the branch taken when more than half of the files
    differ alike, the client prints the failure and goes on: the destination
    is left as an empty directory, its former content is gone, and no
    exception is raised. *)
Theorem failed_replace_leaves_destination_empty `{L : Lib} (cwd : string)
    (http : request -> option response) (key : string)
    (info : Client.folder_info) (tasks : list string) (w : world) :
  Client.path info <> "" ->
  fs w !! os.dirpath (Client.path info) = Some FDir ->
  (forall a, a ∈ os_path.ancestors (os.dirpath (Client.path info)) ->
             fs w !! os.dirpath a = Some FDir) ->
  os.under (Client.path info) (os_path.join cwd "temp.zip") = false ->
  fs w !! os_path.join cwd "temp.zip" <> Some FDir ->
  match http (Client.archive_url key) with
  | Some r => zip_members (content r) = None
  | None => True
  end ->
  (Client.force info = true ->
   exists w',
     Client.sync_folder cwd http key info w = (Ok tt, w') /\
     (forall q, os.under (Client.path info) q = true ->
                q <> os.dirpath (Client.path info) -> fs w' !! q = None) /\
     fs w' !! os.dirpath (Client.path info) = Some FDir /\
     exists e, ("❌ 下載或解壓失敗: " +:+ e) ∈ stdout w') /\
  (exists w',
     Client.run_strategy cwd http Client.FullArchive key (Client.path info)
       tasks w = (Ok tt, w') /\
     (forall q, os.under (Client.path info) q = true ->
                q <> os.dirpath (Client.path info) -> fs w' !! q = None) /\
     fs w' !! os.dirpath (Client.path info) = Some FDir /\
     exists e, ("❌ 下載或解壓失敗: " +:+ e) ∈ stdout w').
Proof.
  intros Hp Hdir Hanc Htemp Hnd Hhttp.
  assert (forall w0 : world,
            fs w0 = fs w ->
            (os.rmtree (Client.path info);;
             os.makedirs (Client.path info) false;;
             Client.download_and_extract_zip cwd http (Client.archive_url key)
               (Client.path info)) w0
            = Client.download_and_extract_zip cwd http (Client.archive_url key)
                (Client.path info) (set_fs (wiped (Client.path info) (fs w0)) w0))
    as Hwipe.
  { intros w0 Hfs.
    assert (fs w0 !! os.dirpath (Client.path info) = Some FDir) as Hdir0
      by now rewrite Hfs.
    rewrite (bind_ok _ _ _ _ _ (rmtree_run (Client.path info) w0 Hdir0)).
    rewrite <- Hfs in Hanc.
    pose proof (makedirs_after_rmtree (Client.path info) w0 Hp Hanc) as Hmk.
    now rewrite (bind_ok _ _ _ _ _ Hmk). }
  split.
  - intros Hforce.
    set (wa := with_out ["
🔍 檢查資料夾 " +:+ key +:+ " ..."; "[force] 刪除 " +:+ Client.path info] w).
    destruct (failed_fetch_after_wipe cwd http (Client.archive_url key)
                (Client.path info) wa Htemp Hnd Hhttp)
      as (w' & Hrun & Hbelow & Hroot & _ & Hline & _).
    exists w'. split; [|now repeat split].
    rewrite <- Hrun. unfold Client.sync_folder. rewrite Hforce.
    rewrite (bind_ok _ _ _ _ _ (print_run _ w)).
    unfold Client.force_replace.
    unfold mbind at 1, M_bind at 1, get_fs at 1. cbv beta iota. cbn [fs].
    assert (os.exists_ (fs w) (Client.path info) = true) as ->.
    { unfold os.exists_, os.lookup, os.dirpath in *.
      rewrite bool_decide_eq_false_2 by exact Hp.
      destruct (Str.endswith_slash (Client.path info)); now rewrite Hdir. }
    assert ((print ("[force] 刪除 " +:+ Client.path info);;
             os.rmtree (Client.path info))
              (World (fs w) (stdout w ++ ["
🔍 檢查資料夾 " +:+ key +:+ " ..."]) (sent w) (cache_files w))
            = (Ok tt,
               set_fs (filter (fun kv => os.under (Client.path info) kv.1 = false)
                              (fs w)) wa))
      as Hrm.
    { rewrite (bind_ok _ _ _ _ _ (print_run _ _)), rmtree_run by exact Hdir.
      subst wa. unfold with_out, set_fs. simpl. now rewrite <- app_assoc. }
    rewrite (bind_ok _ _ _ _ _ Hrm).
    pose proof (makedirs_after_rmtree (Client.path info) wa Hp Hanc) as Hmk.
    change (fs wa) with (fs w) in Hmk.
    now rewrite (bind_ok _ _ _ _ _ Hmk).
  - set (wa := with_out ["[超過一半檔案需要更新] 下載整個資料夾 ZIP"] w).
    destruct (failed_fetch_after_wipe cwd http (Client.archive_url key)
                (Client.path info) wa Htemp Hnd Hhttp)
      as (w' & Hrun & Hbelow & Hroot & _ & Hline & _).
    exists w'. split; [|now repeat split].
    rewrite <- Hrun. cbn [Client.run_strategy].
    rewrite (bind_ok _ _ _ _ _ (print_run _ w)).
    exact (Hwipe wa eq_refl).
Qed.

(** ** The diff of a nested manifest *)

(** The entries of a manifest that are not [dict]s, with their local paths,
    in the order in which the diff comes to them. *)
Fixpoint entry_leaves (local_rel : string) (value : json)
  : list (string * json) :=
  match value with
  | JDict d =>
      (fix items (d : list (string * json)) : list (string * json) :=
         match d with
         | [] => []
         | (name, v) :: d' =>
             entry_leaves (Client.local_rel_of local_rel name) v ++ items d'
         end) d
  | _ => [(local_rel, value)]
  end.

Fixpoint manifest_leaves (rel_path : string) (server_dict : list (string * json))
  : list (string * json) :=
  match server_dict with
  | [] => []
  | (name, v) :: d' =>
      entry_leaves (Client.local_rel_of rel_path name) v
      ++ manifest_leaves rel_path d'
  end.

(** The local paths of the entries that are [dict]s: the folders the diff
    makes. *)
Fixpoint entry_dirs (local_rel : string) (value : json) : list string :=
  match value with
  | JDict d =>
      local_rel ::
      (fix items (d : list (string * json)) : list string :=
         match d with
         | [] => []
         | (name, v) :: d' =>
             entry_dirs (Client.local_rel_of local_rel name) v ++ items d'
         end) d
  | _ => []
  end.

Fixpoint manifest_dirs (rel_path : string) (server_dict : list (string * json))
  : list string :=
  match server_dict with
  | [] => []
  | (name, v) :: d' =>
      entry_dirs (Client.local_rel_of rel_path name) v ++ manifest_dirs rel_path d'
  end.

(** [f'] is [f] with the files at the paths of [S] deleted and directories
    made at free paths of [C]. *)
Definition diffed (S C : list string) (f f' : filesystem) : Prop :=
  forall q,
    (q ∈ S -> f' !! q = None) /\
    (q ∉ S ->
     f' !! q = f !! q \/ (f !! q = None /\ f' !! q = Some FDir /\ q ∈ C)).

(** The directories made for the folders of a manifest. *)
Definition chains (local_base : string) (dirs : list string) : list string :=
  d ← dirs; dir_chain (os_path.join local_base d).

Section NestedDiff.

Context {L : Lib}.

Lemma entry_leaves_dict (local_rel : string) (d : list (string * json)) :
  entry_leaves local_rel (JDict d) = manifest_leaves local_rel d.
Proof.
  simpl. induction d as [|[name v] d IH]; simpl; [reflexivity | now rewrite IH].
Qed.

Lemma entry_dirs_dict (local_rel : string) (d : list (string * json)) :
  entry_dirs local_rel (JDict d) = local_rel :: manifest_dirs local_rel d.
Proof.
  simpl. f_equal.
  induction d as [|[name v] d IH]; simpl; [reflexivity | now rewrite IH].
Qed.

Lemma manifest_leaves_paths_with (d : list (string * json)) :
  Forall (fun kv => forall local_rel,
            (entry_leaves local_rel kv.2).*1 = entry_paths local_rel kv.2) d ->
  forall rel_path, (manifest_leaves rel_path d).*1 = manifest_paths rel_path d.
Proof.
  induction 1 as [|[name v] d Hv _ IH]; intros rel_path; [reflexivity|].
  simpl. rewrite fmap_app, IH. f_equal. apply Hv.
Qed.

Lemma entry_leaves_paths (value : json) (local_rel : string) :
  (entry_leaves local_rel value).*1 = entry_paths local_rel value.
Proof.
  revert local_rel.
  induction value as [s|l _|d IH|text] using json_ind; intros local_rel;
    try reflexivity.
  rewrite entry_leaves_dict, entry_paths_dict.
  now apply manifest_leaves_paths_with.
Qed.

Lemma manifest_leaves_paths (d : list (string * json)) (rel_path : string) :
  (manifest_leaves rel_path d).*1 = manifest_paths rel_path d.
Proof.
  apply manifest_leaves_paths_with, Forall_forall.
  intros kv _ local_rel. apply entry_leaves_paths.
Qed.

(** *** Normalised paths name files *)

Lemma split_slash_cons (c : ascii) (p : string) :
  Str.split_slash (String c p)
  = if Str.is_slash c then "" :: Str.split_slash p
    else match Str.split_slash p with
         | seg :: l => String c seg :: l
         | [] => [String c ""]
         end.
Proof. reflexivity. Qed.

Lemma split_slash_dir (p : string) :
  Str.endswith_slash p = true ->
  exists l, l <> [] /\ Str.split_slash p = l ++ [""].
Proof.
  induction p as [|c p IH]; [discriminate|].
  destruct p as [|c' p].
  - cbn [Str.endswith_slash Str.split_slash]. intros ->.
    exists [""]. split; [discriminate | reflexivity].
  - intros H. destruct (IH H) as (l & Hl & Hsplit).
    rewrite split_slash_cons, Hsplit. destruct (Str.is_slash c).
    + exists ("" :: l). split; [discriminate | reflexivity].
    + destruct l as [|seg l]; [done|].
      exists (String c seg :: l). split; [discriminate | reflexivity].
Qed.

Lemma normalised_file (p : string) :
  normalised p = true -> p <> "" /\ Str.endswith_slash p = false.
Proof.
  intros H. split.
  - intros ->. discriminate.
  - destruct (Str.endswith_slash p) eqn:E; [|reflexivity].
    destruct (split_slash_dir p E) as (l & _ & Hsplit).
    unfold normalised in H. rewrite Hsplit, forallb_app in H.
    apply andb_true_iff in H as [_ H]. discriminate.
Qed.

Lemma last_char_endswith (p : string) :
  last_char p = Some "/"%char -> Str.endswith_slash p = true.
Proof.
  induction p as [|c p IH]; [discriminate|].
  destruct p as [|c' p].
  - cbn. intros H. injection H as ->. reflexivity.
  - intros H. apply IH. exact H.
Qed.

Lemma endswith_slash_last_char (p : string) :
  Str.endswith_slash p = true -> last_char p = Some "/"%char.
Proof.
  induction p as [|c p IH]; [discriminate|].
  destruct p as [|c' p].
  - cbn. unfold Str.is_slash. intros H. apply bool_decide_eq_true in H.
    now subst.
  - intros H. apply IH in H. exact H.
Qed.

Lemma last_char_none (p : string) : last_char p = None -> p = "".
Proof.
  induction p as [|c p IH]; [reflexivity|].
  destruct p as [|c' p]; [discriminate|].
  intros H. apply IH in H. discriminate.
Qed.

(** The local path of an entry named by a normalised path is looked up as a
    key of the map. *)
Lemma lookup_normalised (f : filesystem) (local_base p : string) :
  normalised p = true ->
  os.lookup f (os_path.join local_base p) = f !! os_path.join local_base p.
Proof.
  intros Hn. destruct (normalised_file p Hn) as [Hne Hs].
  assert (last_char (os_path.join local_base p) = last_char p) as Hlast
    by now apply last_char_join.
  unfold os.lookup. case_bool_decide as Hj.
  - rewrite Hj in Hlast. symmetry in Hlast.
    now apply last_char_none in Hlast.
  - destruct (Str.endswith_slash (os_path.join local_base p)) eqn:E;
      [|reflexivity].
    apply endswith_slash_last_char in E. rewrite Hlast in E.
    apply last_char_endswith in E. congruence.
Qed.

(** *** The changes of the disk *)

Lemma diffed_refl (f : filesystem) : diffed [] [] f f.
Proof. intros q. split; [intros H; inversion H | intros _; now left]. Qed.

Lemma diffed_trans (S1 C1 S2 C2 : list string) (f0 f1 f2 : filesystem) :
  diffed S1 C1 f0 f1 -> diffed S2 C2 f1 f2 ->
  (forall q, q ∈ S1 -> q ∉ C2) ->
  diffed (S1 ++ S2) (C1 ++ C2) f0 f2.
Proof.
  intros H1 H2 Hfree q.
  destruct (H1 q) as [D1 K1], (H2 q) as [D2 K2]. split.
  - intros Hin. destruct (decide (q ∈ S2)) as [Hq2|Hq2]; [now apply D2|].
    apply elem_of_app in Hin as [Hq1|Hq2']; [|done].
    destruct (K2 Hq2) as [E|(_ & _ & Hc)].
    + rewrite E. now apply D1.
    + now destruct (Hfree q Hq1).
  - intros Hnot. apply not_elem_of_app in Hnot as [Hq1 Hq2].
    destruct (K1 Hq1) as [E1|(E1 & E1' & Hc1)],
             (K2 Hq2) as [E2|(E2 & E2' & Hc2)].
    + left. congruence.
    + right. repeat split; [congruence | exact E2' |].
      apply elem_of_app. now right.
    + right. repeat split; [exact E1 | congruence |].
      apply elem_of_app. now left.
    + congruence.
Qed.

(** A stale file is a file of the disk. *)
Lemma stale_is_file (f : filesystem) (local_base : string)
    (leaves : list (string * json)) (q : string) :
  Forall (fun p => normalised p = true) leaves.*1 ->
  q ∈ stale_of local_base (classified f local_base leaves) ->
  exists p data,
    p ∈ leaves.*1 /\ q = os_path.join local_base p /\
    f !! q = Some (FFile true data).
Proof.
  intros Hn Hq. unfold stale_of in Hq.
  apply list_elem_of_fmap in Hq as ([p st] & -> & Hq).
  apply list_elem_of_filter in Hq as [Hst Hq]. simpl in Hst. subst st.
  unfold classified in Hq. apply list_elem_of_fmap in Hq as (e & Heq & He).
  injection Heq as -> Hc.
  assert (e.1 ∈ leaves.*1) as Hin by (apply list_elem_of_fmap; now exists e).
  rewrite Forall_forall in Hn. specialize (Hn _ Hin).
  unfold classify in Hc. rewrite (lookup_normalised _ _ _ Hn) in Hc.
  destruct (f !! os_path.join local_base e.1) as [[[] data|]|] eqn:E;
    try discriminate.
  exists e.1, data. done.
Qed.

(** Deleting stale files and making directories does not change how an
    entry at another path stands. *)
Lemma classify_diffed (S C : list string) (f f' : filesystem)
    (local_base : string) (entry : string * json) :
  diffed S C f f' ->
  normalised entry.1 = true ->
  os_path.join local_base entry.1 ∉ S ->
  classify f' local_base entry = classify f local_base entry.
Proof.
  intros Hd Hn Hq. unfold classify.
  rewrite !(lookup_normalised _ _ _ Hn).
  destruct (Hd (os_path.join local_base entry.1)) as [_ K].
  destruct (K Hq) as [->|(-> & -> & _)]; reflexivity.
Qed.

Lemma can_make_diffed (S C : list string) (f f' : filesystem) (d : string) :
  diffed S C f f' -> can_make f d -> can_make f' d.
Proof.
  intros Hd [Hne Hall]. split; [exact Hne|].
  rewrite Forall_forall in Hall |- *. intros a Ha.
  destruct (Hd a) as [D K].
  destruct (decide (a ∈ S)) as [Hin|Hnot]; [left; now apply D|].
  destruct (K Hnot) as [E|(_ & E & _)]; [rewrite E; now apply Hall | now right].
Qed.

(** [os.makedirs] makes directories at the paths of its chain only. *)
Lemma for_each_mkdir_made (l : list string) (w w' : world) (r : outcome unit) :
  for_each l os.mkdir_exist_ok w = (r, w') ->
  diffed [] (os.dirpath <$> l) (fs w) (fs w').
Proof.
  revert w. induction l as [|a l IH]; intros w H.
  - inversion H; subst. apply diffed_refl.
  - assert (forall w1 r1, os.mkdir_exist_ok a w = (r1, w1) ->
              diffed [] [os.dirpath a] (fs w) (fs w1)) as Hone.
    { intros w1 r1. unfold os.mkdir_exist_ok. msimpl.
      destruct (fs w !! os.dirpath a) as [[]|] eqn:E;
        intros H1; inversion H1; subst; simpl; try apply (diffed_refl (fs w)) ||
        (intros q; split; [intros Hq; inversion Hq|intros _; now left]).
      intros q. split; [intros Hq; inversion Hq|]. intros _.
      destruct (decide (os.dirpath a = q)) as [<-|Hne].
      - right. rewrite lookup_insert_eq. repeat split; [exact E | now left].
      - left. now rewrite lookup_insert_ne. }
    simpl in H. apply bind_inv in H as [([] & w1 & H1 & H2)|(e & H1 & ->)].
    + apply Hone in H1. apply IH in H2.
      apply (diffed_trans [] _ [] _ _ _ _ H1 H2). intros q Hq. inversion Hq.
    + apply Hone in H1. intros q. destruct (H1 q) as [D K]. split; [exact D|].
      intros Hq. destruct (K Hq) as [E|(E & E' & Hc)]; [now left|].
      right. repeat split; [exact E | exact E' |].
      apply list_elem_of_singleton in Hc. subst q. rewrite fmap_cons. now left.
Qed.

Lemma makedirs_made (p : string) (w : world) :
  can_make (fs w) p ->
  exists w',
    os.makedirs p true w = (Ok tt, w') /\
    diffed [] (dir_chain p) (fs w) (fs w') /\ same_io w w'.
Proof.
  intros Hmake. destruct (makedirs_can_make p w Hmake) as (w' & Hrun & _ & Hio).
  exists w'. split; [exact Hrun|]. split; [|exact Hio].
  destruct Hmake as [Hne _].
  unfold os.makedirs in Hrun. rewrite bool_decide_eq_false_2 in Hrun by exact Hne.
  apply bind_inv in Hrun as [([] & w1 & H1 & H2)|(e & H1 & Hr)]; [|discriminate].
  apply for_each_mkdir_made in H1. revert H2. msimpl.
  unfold dir_chain.
  destruct (fs w1 !! os.dirpath p) as [[]|] eqn:E; intros H2; inversion H2; subst.
  - simpl. intros q. destruct (H1 q) as [D K]. split; [exact D|].
    intros Hq. destruct (K Hq) as [Eq|(Eq & Eq' & Hc)]; [now left|].
    right. repeat split; [exact Eq | exact Eq' |]. apply elem_of_app. now left.
  - simpl.
    assert (diffed [] [os.dirpath p] (fs w1) (<[os.dirpath p := FDir]> (fs w1)))
      as Hlast.
    { intros q. split; [intros Hq; inversion Hq|]. intros _.
      destruct (decide (os.dirpath p = q)) as [<-|Hne'].
      - right. rewrite lookup_insert_eq. repeat split; [exact E | now left].
      - left. now rewrite lookup_insert_ne. }
    apply (diffed_trans [] _ [] _ _ _ _ H1 Hlast). intros q Hq. inversion Hq.
Qed.

Lemma stale_of_single (local_base name : string) (c : local_state) :
  stale_of local_base [(name, c)]
  = if decide (c = Mismatched) then [os_path.join local_base name] else [].
Proof.
  unfold stale_of. rewrite filter_cons, filter_nil. cbn [snd].
  destruct (decide _); reflexivity.
Qed.

Lemma tasks_of_app (c1 c2 : list (string * local_state)) :
  tasks_of (c1 ++ c2) = tasks_of c1 ++ tasks_of c2.
Proof. unfold tasks_of. now rewrite filter_app, fmap_app. Qed.

Lemma stale_of_app (local_base : string) (c1 c2 : list (string * local_state)) :
  stale_of local_base (c1 ++ c2) = stale_of local_base c1 ++ stale_of local_base c2.
Proof. unfold stale_of. now rewrite filter_app, fmap_app. Qed.

Lemma classified_app (f : filesystem) (local_base : string)
    (l1 l2 : list (string * json)) :
  classified f local_base (l1 ++ l2)
  = classified f local_base l1 ++ classified f local_base l2.
Proof. unfold classified. apply fmap_app. Qed.

(** What the diff of a list of leaves, run from the disk [f0], leaves
    behind: the result of the pass over an entry or over a [dict]. *)
Definition diff_result (local_base : string) (leaves : list (string * json))
    (dirs : list string) (tasks0 : list string) (w : world)
    (res : outcome (list string) * world) : Prop :=
  res.1 = Ok (tasks0 ++ tasks_of (classified (fs w) local_base leaves)) /\
  stdout res.2 = stdout w ++ (report <$> classified (fs w) local_base leaves) /\
  sent res.2 = sent w /\ cache_files res.2 = cache_files w /\
  diffed (stale_of local_base (classified (fs w) local_base leaves))
         (chains local_base dirs) (fs w) (fs res.2).

Definition diff_ready (local_base : string) (leaves : list (string * json))
    (dirs : list string) (w : world) : Prop :=
  Forall (fun p => normalised p = true) leaves.*1 /\
  NoDup leaves.*1 /\
  Forall (fun d => can_make (fs w) (os_path.join local_base d)) dirs.

(** The second part of a pass starts from the disk the first part left, and
    sees each of its entries as it stood before the pass. *)
Lemma diff_result_app (local_base : string)
    (l1 l2 : list (string * json)) (d1 d2 : list string) (tasks0 : list string)
    (w w1 : world) (t1 : list string)
    (res : outcome (list string) * world) :
  diff_ready local_base (l1 ++ l2) (d1 ++ d2) w ->
  diff_result local_base l1 d1 tasks0 w (Ok t1, w1) ->
  (diff_ready local_base l2 d2 w1 ->
   diff_result local_base l2 d2 t1 w1 res) ->
  diff_result local_base (l1 ++ l2) (d1 ++ d2) tasks0 w res.
Proof.
  intros (Hn & Hnd & Hmk) (Ht1 & Ho1 & Hs1 & Hc1 & Hd1) H2.
  cbn [fst snd] in *. injection Ht1 as ->.
  rewrite fmap_app in Hn, Hnd.
  apply Forall_app in Hn as [Hn1 Hn2]. apply Forall_app in Hmk as [Hmk1 Hmk2].
  apply NoDup_app in Hnd as (Hnd1 & Hdisj & Hnd2).
  assert (classified (fs w1) local_base l2 = classified (fs w) local_base l2)
    as Hsame.
  { unfold classified. apply Forall_fmap_ext, Forall_forall.
    intros e He. f_equal.
    assert (e.1 ∈ l2.*1) as Hin by (apply list_elem_of_fmap; now exists e).
    assert (normalised e.1 = true) as Hne
      by (rewrite Forall_forall in Hn2; now apply Hn2).
    apply (classify_diffed _ _ _ _ _ _ Hd1 Hne).
    intros Hq. apply stale_is_file in Hq as (p & data & Hp & Heq & _);
      [|exact Hn1].
    apply (Hdisj p Hp).
    rewrite Forall_forall in Hn1.
    now rewrite <- (join_relative_inj local_base e.1 p
                      (normalised_relative _ Hne)
                      (normalised_relative _ (Hn1 p Hp)) Heq). }
  destruct H2 as (Ht2 & Ho2 & Hs2 & Hc2 & Hd2).
  { split; [exact Hn2|]. split; [exact Hnd2|].
    eapply Forall_impl; [exact Hmk2|]. intros d.
    apply (can_make_diffed _ _ _ _ _ Hd1). }
  rewrite Hsame in Ht2, Ho2, Hd2.
  unfold diff_result.
  rewrite classified_app, tasks_of_app, stale_of_app, fmap_app.
  split; [now rewrite Ht2, <- app_assoc|].
  split; [now rewrite Ho2, Ho1, <- app_assoc|].
  split; [congruence|]. split; [congruence|].
  unfold chains. rewrite bind_app.
  apply (diffed_trans _ _ _ _ _ _ _ Hd1 Hd2).
  intros q Hq Hc.
  apply stale_is_file in Hq as (p & data & _ & _ & Hfile); [|exact Hn1].
  apply list_elem_of_bind in Hc as (d & Hc & Hd).
  rewrite Forall_forall in Hmk2. destruct (Hmk2 d Hd) as [_ Hall].
  rewrite Forall_forall in Hall. destruct (Hall q Hc); congruence.
Qed.

Lemma collect_loop_nested (local_base : string) (d : list (string * json)) :
  Forall (fun kv => forall local_rel w,
            diff_ready local_base (entry_leaves local_rel kv.2)
              (entry_dirs local_rel kv.2) w ->
            diff_result local_base (entry_leaves local_rel kv.2)
              (entry_dirs local_rel kv.2) [] w
              (Client.collect_entry local_base local_rel kv.2 w)) d ->
  forall rel_path tasks0 w,
    diff_ready local_base (manifest_leaves rel_path d)
      (manifest_dirs rel_path d) w ->
    diff_result local_base (manifest_leaves rel_path d)
      (manifest_dirs rel_path d) tasks0 w
      (Client.collect_loop local_base rel_path d tasks0 w).
Proof.
  induction 1 as [|[name v] d Hv _ IH]; intros rel_path tasks0 w Hready.
  - cbn. unfold diff_result. cbn. rewrite !app_nil_r.
    do 4 (split; [reflexivity|]). apply diffed_refl.
  - cbn [manifest_leaves manifest_dirs] in Hready |- *.
    cbn [Client.collect_loop].
    assert (diff_ready local_base
              (entry_leaves (Client.local_rel_of rel_path name) v)
              (entry_dirs (Client.local_rel_of rel_path name) v) w) as Hready1.
    { destruct Hready as (Hn & Hnd & Hmk). rewrite fmap_app in Hn, Hnd.
      apply Forall_app in Hn as [Hn1 _]. apply NoDup_app in Hnd as (Hnd1 & _).
      apply Forall_app in Hmk as [Hmk1 _]. done. }
    pose proof (Hv _ _ Hready1) as H1. cbn [fst snd] in H1.
    destruct (Client.collect_entry local_base _ v w) as [[t|e] w1] eqn:Hrun;
      [|destruct H1 as [H1 _]; discriminate].
    rewrite (bind_ok _ _ _ _ _ Hrun).
    assert (t = tasks_of (classified (fs w) local_base
                            (entry_leaves (Client.local_rel_of rel_path name) v)))
      as Ht by (destruct H1 as [H1 _]; cbn in H1; congruence).
    eapply (diff_result_app local_base _ _ _ _ tasks0 w w1 (tasks0 ++ t));
      [exact Hready| |intros Hready2; apply IH, Hready2].
    destruct H1 as (_ & Ho & Hs & Hc & Hd).
    unfold diff_result. cbn [fst snd] in *. rewrite Ht. done.
Qed.

Lemma collect_entry_nested (value : json) :
  forall local_base local_rel w,
    diff_ready local_base (entry_leaves local_rel value)
      (entry_dirs local_rel value) w ->
    diff_result local_base (entry_leaves local_rel value)
      (entry_dirs local_rel value) [] w
      (Client.collect_entry local_base local_rel value w).
Proof.
  assert (forall v, is_leaf v = true ->
            forall local_base local_rel w,
              diff_ready local_base (entry_leaves local_rel v)
                (entry_dirs local_rel v) w ->
              diff_result local_base (entry_leaves local_rel v)
                (entry_dirs local_rel v) [] w
                (Client.collect_entry local_base local_rel v w)) as Hleaf.
  { intros v Hv local_base local_rel w (Hn & _ & _).
    assert (entry_leaves local_rel v = [(local_rel, v)]) as Hl
      by (destruct v; try reflexivity; discriminate).
    assert (entry_dirs local_rel v = []) as Hd
      by (destruct v; try reflexivity; discriminate).
    rewrite Hl, Hd in *. rewrite (collect_entry_leaf _ _ _ _ Hv).
    unfold diff_result. cbn [fst snd fs stdout sent cache_files app].
    change (classified (fs w) local_base [(local_rel, v)])
      with [(local_rel, classify (fs w) local_base (local_rel, v))].
    do 4 (split; [reflexivity|]). rewrite stale_of_single.
    destruct (decide _) as [Hm|Hm]; cbn [delete_all foldl];
      [|apply diffed_refl].
    intros q. split.
    - intros Hq. apply list_elem_of_singleton in Hq. subst q.
      apply lookup_delete_eq.
    - intros Hq. left. apply lookup_delete_ne. intros Heq. apply Hq.
      rewrite Heq. now left. }
  induction value as [s|l _|d IH|text] using json_ind;
    intros local_base local_rel w Hready;
    try (now apply Hleaf).
  rewrite entry_leaves_dict, entry_dirs_dict in *.
  rewrite collect_entry_dict.
  destruct Hready as (Hn & Hnd & Hmk).
  apply Forall_cons in Hmk as [Hmk0 Hmk].
  destruct (makedirs_made _ w Hmk0) as (w0 & Hrun & Hd0 & (Ho0 & Hs0 & Hc0)).
  rewrite (bind_ok _ _ _ _ _ Hrun).
  assert (diff_ready local_base (manifest_leaves local_rel d)
            (manifest_dirs local_rel d) w0) as Hready0.
  { split; [exact Hn|]. split; [exact Hnd|].
    eapply Forall_impl; [exact Hmk|]. intros d'.
    apply (can_make_diffed _ _ _ _ _ Hd0). }
  assert (classified (fs w0) local_base (manifest_leaves local_rel d)
          = classified (fs w) local_base (manifest_leaves local_rel d)) as Hsame.
  { unfold classified. apply Forall_fmap_ext, Forall_forall.
    intros e He. f_equal.
    assert (e.1 ∈ (manifest_leaves local_rel d).*1) as Hin
      by (apply list_elem_of_fmap; now exists e).
    rewrite Forall_forall in Hn.
    apply (classify_diffed _ _ _ _ _ _ Hd0 (Hn _ Hin)). intros Hq. inversion Hq. }
  pose proof (collect_loop_nested local_base d) as Hloop.
  specialize (Hloop ltac:(eapply Forall_impl; [exact IH|];
                           intros kv Hkv rel' w'; apply Hkv)
                local_rel [] w0 Hready0).
  destruct Hloop as (Ht & Ho & Hs & Hc & Hd).
  rewrite Hsame in Ht, Ho, Hd.
  unfold diff_result. split; [exact Ht|].
  split; [now rewrite Ho, Ho0|]. split; [congruence|]. split; [congruence|].
  unfold chains. rewrite bind_cons. fold (chains local_base (manifest_dirs local_rel d)).
  apply (diffed_trans [] _ _ _ _ _ _ Hd0 Hd). intros q Hq. inversion Hq.
Qed.

End NestedDiff.

(** X22. The diff of a manifest, flat or nested, whose entries name distinct
    normalised paths, on a disk where the folders of the manifest can be made
    (no file stands at the path of a folder or of one of its parents): the
    pass ends and, entry by entry, in the order of the manifest: a path with
    no readable local file gives a task, reported as missing, and no file
    appears there; a local file with another digest is deleted and gives a
    task, reported as mismatched; a local file with the digest of the manifest
    gives no task, is reported as right and stays.  Nothing is requested.
    The number of files counted for the ratio is the number of entries, and
    the ratio is the number of tasks over it. *)
Theorem diff_of_nested_manifest `{L : Lib} (server_dict : list (string * json))
    (local_base : string) (w : world) :
  Forall (fun p => normalised p = true) (manifest_paths "" server_dict) ->
  NoDup (manifest_paths "" server_dict) ->
  Forall (fun d => can_make (fs w) (os_path.join local_base d))
         (manifest_dirs "" server_dict) ->
  exists tasks w',
    Client.collect_download_tasks server_dict local_base "" w = (Ok tasks, w') /\
    tasks = tasks_of (classified (fs w) local_base (manifest_leaves "" server_dict)) /\
    sent w' = sent w /\
    (forall entry, entry ∈ manifest_leaves "" server_dict ->
       match classify (fs w) local_base entry with
       | Missing =>
           (entry.1 ∈ tasks) /\ (("[檔案缺失] " +:+ entry.1) ∈ stdout w') /\
           (fs w' !! os_path.join local_base entry.1
            = fs w !! os_path.join local_base entry.1 \/
            fs w !! os_path.join local_base entry.1 = None /\
            fs w' !! os_path.join local_base entry.1 = Some FDir)
       | Mismatched =>
           (entry.1 ∈ tasks) /\ (("[校驗碼不同] " +:+ entry.1) ∈ stdout w') /\
           fs w' !! os_path.join local_base entry.1 = None
       | Matching =>
           (entry.1 ∉ tasks) /\ (("[正確] " +:+ entry.1) ∈ stdout w') /\
           fs w' !! os_path.join local_base entry.1
           = fs w !! os_path.join local_base entry.1
       end) /\
    Client.count_server_files server_dict
    = List.length (manifest_leaves "" server_dict) /\
    Client.change_ratio tasks (Client.count_server_files server_dict)
    = (Z.of_nat (List.length tasks)
       # Pos.of_nat (List.length (manifest_leaves "" server_dict)))%Q.
Proof.
  intros Hn Hnd Hmk.
  rewrite <- manifest_leaves_paths in Hn, Hnd.
  assert (diff_ready local_base (manifest_leaves "" server_dict)
            (manifest_dirs "" server_dict) w) as Hready by done.
  pose proof (collect_loop_nested local_base server_dict
                ltac:(apply Forall_forall; intros kv _ rel' w0;
                      apply collect_entry_nested)
                "" [] w Hready) as Hres.
  unfold Client.collect_download_tasks.
  destruct (Client.collect_loop local_base "" server_dict [] w) as [r w'].
  destruct Hres as (Ht & Ho & Hs & _ & Hd). cbn [fst snd] in *.
  rewrite app_nil_l in Ht. subst r.
  assert (NoDup ((fun e : string * json => os_path.join local_base e.1)
                   <$> manifest_leaves "" server_dict)) as Hjoin.
  { change (NoDup (os_path.join local_base ∘ fst
                   <$> manifest_leaves "" server_dict)).
    rewrite (list_fmap_compose fst (os_path.join local_base)).
    apply NoDup_fmap_2_strong; [|exact Hnd].
    intros p q Hp Hq. rewrite Forall_forall in Hn.
    apply join_relative_inj; apply normalised_relative; now apply Hn. }
  assert (Client.count_server_files server_dict
          = List.length (manifest_leaves "" server_dict)) as Hcount.
  { rewrite (count_server_files_paths server_dict ""),
      <- manifest_leaves_paths. apply length_fmap. }
  eexists _, w'. split; [reflexivity|]. split; [reflexivity|].
  split; [exact Hs|]. split; [|split; [exact Hcount|]].
  - intros entry He.
    pose proof (elem_of_tasks_of (fs w) local_base _ entry Hjoin He) as Htask.
    pose proof (elem_of_stale_of (fs w) local_base _ entry Hjoin He) as Hstale.
    assert (report (entry.1, classify (fs w) local_base entry) ∈ stdout w')
      as Hline.
    { rewrite Ho. apply elem_of_app. right. apply list_elem_of_fmap.
      eexists. split; [reflexivity|]. now apply elem_of_classified. }
    assert (normalised entry.1 = true) as Hne.
    { rewrite Forall_forall in Hn. apply Hn, list_elem_of_fmap. now exists entry. }
    destruct (Hd (os_path.join local_base entry.1)) as [Hdel Hkeep].
    unfold report in Hline. cbn [fst snd] in Hline.
    destruct (classify (fs w) local_base entry) eqn:Hc.
    + split; [now apply Htask|]. split; [exact Hline|].
      destruct Hkeep as [E|(E & E' & _)]; [| now left | now right].
      intros H. now apply Hstale in H.
    + split; [now apply Htask|]. split; [exact Hline|]. now apply Hdel, Hstale.
    + split; [intros H; now apply Htask in H|]. split; [exact Hline|].
      destruct Hkeep as [E|(E & _)]; [|exact E|].
      * intros H. now apply Hstale in H.
      * unfold classify in Hc. rewrite (lookup_normalised _ _ _ Hne), E in Hc.
        discriminate.
  - unfold Client.change_ratio. now rewrite Hcount.
Qed.

#[local] Existing Instance Toy.lib.

(** C1: the claim fails on the code.  The mirror holds the first two bytes
    of a.txt, whose content on the server is abcd.  The download asks for the
    bytes from offset 2 on; the server answers 200 with the whole file, the
    client appends it, and reports the download as complete: the file is then
    ababcd, six bytes for a source of four. *)
Theorem resumed_download_appends_whole_file :
  Server.handle "/srv" Scenario.folders
    (Request "/mods/a.txt" ["download"] (Some 2)) Scenario.serving
  = (Ok (Some (Response 200 "application/octet-stream" (Toy.bytes "abcd"))),
     Scenario.serving) /\
  (Client.download_file Scenario.http "mods" "a.txt" "/home/u/mods" 3
     Scenario.client_partial).1 = Ok true /\
  sent (Client.download_file Scenario.http "mods" "a.txt" "/home/u/mods" 3
          Scenario.client_partial).2
  = [Request "/mods/a.txt" ["download"] (Some 2)] /\
  fs (Client.download_file Scenario.http "mods" "a.txt" "/home/u/mods" 3
        Scenario.client_partial).2 !! "/home/u/mods/a.txt"
  = Some (FFile true (Toy.bytes "ababcd")).
Proof. vm_compute. repeat split; reflexivity. Qed.

(** The file endpoint of the server does not look at the offset. *)
Lemma do_GET_ignores_range `{L : Lib} (cwd : string)
    (folders : list (string * string)) (req : request) (w : world) :
  Server.do_GET cwd folders req w
  = Server.do_GET cwd folders (Request (url_path req) (url_query req) None) w.
Proof. reflexivity. Qed.

(** C6: the claim fails on the code.  The manifest is nested: a.txt and a
    folder b that holds c.txt.  The mirror holds a.txt, with the digest of the
    manifest, and a regular file named b, so b/c.txt is missing locally and
    the claim has the diff return the one task b/c.txt, ratio one half.  The
    diff calls [os.makedirs] on the local path of the folder entry; a file is
    there, the call raises [FileExistsError], and the diff returns no task at
    all.  Nothing catches the exception: the pass over the folder, and the
    whole run of the client with it, end there, after the manifest request
    and with no file fetched.  Without the file named b the same manifest
    gives the task the claim names. *)
Theorem folder_entry_over_local_file_raises :
  Client.count_server_files Scenario.nested_manifest = 2 /\
  os.lookup (fs Scenario.client_file_b) "/home/u/mods/b/c.txt" = None /\
  Client.collect_download_tasks Scenario.nested_manifest "/home/u/mods" ""
    Scenario.client_file_b
  = (Raise "FileExistsError",
     with_out ["[正確] a.txt"] Scenario.client_file_b) /\
  (Client.sync_folder "/home/u" Scenario.http_nested "mods"
     (Client.FolderInfo "/home/u/mods" false) Scenario.client_file_b).1
  = Raise "FileExistsError" /\
  (Client.main "/home/u" Scenario.http_nested
     [("mods", Client.FolderInfo "/home/u/mods" false)] Scenario.client_file_b).1
  = Raise "FileExistsError" /\
  sent (Client.main "/home/u" Scenario.http_nested
          [("mods", Client.FolderInfo "/home/u/mods" false)]
          Scenario.client_file_b).2
  = [Client.manifest_url "mods"] /\
  (Client.collect_download_tasks Scenario.nested_manifest "/home/u/mods" ""
     Scenario.client).1
  = Ok ["b/c.txt"].
Proof. vm_compute. repeat split; reflexivity. Qed.

(** C2: the claim fails on the code.  The build of mods fails on b.txt; the
    pass still ends and saves a record that lists a.txt and b.txt for mods,
    while the archive of mods holds a.txt alone.  The next pass finds the
    folder equal to the record and keeps that archive.  The record is not
    replaced in one step either: saving it goes through an empty file. *)
Lemma failed_build_is_recorded :
  Scenario.pass1.1 = Ok tt /\
  stdout Scenario.pass1.2
  = ["🗜️ 正在檢查 ZIP 快取..."; "♻️ 偵測到變動的資料夾: mods";
     "[快取失敗] mods: PermissionError"; "📦 快取初始化完成！"] /\
  Server.load_old_hash "/srv" Scenario.pass1.2
  = (Ok Scenario.record1, Scenario.pass1.2) /\
  fs Scenario.pass1.2 !! Scenario.archive_path
  = Some (FFile true (Toy.pk_image [("a.txt", Toy.bytes "abcd")])) /\
  Scenario.pass2.1 = Ok tt /\
  stdout Scenario.pass2.2
  = stdout Scenario.pass1.2
    ++ ["🗜️ 正在檢查 ZIP 快取..."; "✅ 所有資料夾與快照相同，使用現有快取。";
        "📦 快取初始化完成！"] /\
  fs Scenario.pass2.2 !! Scenario.archive_path
  = Some (FFile true (Toy.pk_image [("a.txt", Toy.bytes "abcd")])) /\
  fs Scenario.pass1.2 !! Scenario.record_path
  = Some (FFile true (Toy.js_image Scenario.record1)) /\
  (os.open_w Scenario.record_path Scenario.pass1.2).1 = Ok tt /\
  fs (os.open_w Scenario.record_path Scenario.pass1.2).2 !! Scenario.record_path
  = Some (FFile true []).
Proof. vm_compute. repeat split; reflexivity. Qed.

(** C3: the claim fails on the code.  The build of mods fails on b.txt and is
    reported; the archive of mods, which held the earlier a.txt and b.txt, now
    holds the new a.txt alone. *)
Lemma failed_build_loses_previous_archive :
  Server.rebuild "/srv" Scenario.folders "mods" Scenario.server
  = (Ok tt,
     World (<[Scenario.archive_path :=
              FFile true (Toy.pk_image [("a.txt", Toy.bytes "abcd")])]>
            (fs Scenario.server))
           ["[快取失敗] mods: PermissionError"] [] ∅) /\
  fs Scenario.server !! Scenario.archive_path
  = Some (FFile true (Toy.pk_image [("a.txt", Toy.bytes "old!");
                                    ("b.txt", Toy.bytes "old?")])) /\
  Toy.pk_image [("a.txt", Toy.bytes "abcd")]
  <> Toy.pk_image [("a.txt", Toy.bytes "old!"); ("b.txt", Toy.bytes "old?")].
Proof. vm_compute. repeat split; try reflexivity. discriminate. Qed.

(** C4: the claim fails on the code.  The path the build of mods writes is
    the path the server serves, and the first effect of the build is to
    truncate it: the rest of the build runs from a disk where the archive is
    an empty file, neither the previous archive nor the new one.  After the
    build failed on b.txt, the download of mods is answered with an archive
    that holds a.txt alone. *)
Lemma build_truncates_served_archive :
  Server.zip_path_of "/srv" "mods" = Scenario.archive_path /\
  cache_files Scenario.pass1.2 !! "mods" = Some Scenario.archive_path /\
  (os.open_w Scenario.archive_path Scenario.server).1 = Ok tt /\
  fs (os.open_w Scenario.archive_path Scenario.server).2 !! Scenario.archive_path
  = Some (FFile true []) /\
  Server.zip_folder "/srv/mods" Scenario.archive_path Scenario.server
  = Server.zip_fill (Server.files_to_zip (fs Scenario.server) "/srv/mods")
      Scenario.archive_path (os.open_w Scenario.archive_path Scenario.server).2 /\
  (Server.main "/srv" Scenario.folders [Request "/mods" ["download"] None]
     Scenario.server).1
  = Ok [Some (Response 200 "application/octet-stream"
                (Toy.pk_image [("a.txt", Toy.bytes "abcd")]))].
Proof. vm_compute. repeat split; reflexivity. Qed.

(** C10: the claim fails on the code.  A folder registered under the key
    clientupdatexy, with no cached archive: the request for its archive is
    taken by the branch of the update files and answered 404. *)
Lemma clientupdate_key_gets_404 :
  dict_get [("clientupdatexy", "/srv/mods")] "clientupdatexy" = Some "/srv/mods" /\
  cache_files Scenario.server !! "clientupdatexy" = None /\
  Server.do_GET "/srv" [("clientupdatexy", "/srv/mods")]
    (Request "/clientupdatexy" ["download"] None) Scenario.server
  = (Ok (Response 404 "text/html;charset=utf-8" (Toy.bytes "y not found")),
     Scenario.server).
Proof. vm_compute. repeat split; reflexivity. Qed.

(** ** The theorems at concrete inputs *)

Lemma hash_record_written_after_builds_witness :
  is_object (old_hash_of "/srv" (fs Scenario.server)) = true /\
  exists w',
    Server.create_zip_cache "/srv" Scenario.folders Scenario.server = (Ok tt, w') /\
    ((done_line "mods" ∈ stdout w') \/ exists e, failed_line "mods" e ∈ stdout w') /\
    fs w' !! Server.HASH_RECORD_FILE "/srv"
    = Some (FFile true
              (json_dumps
                 (Server.record_json
                    (fresh_manifests (fs Scenario.server) Scenario.folders ∅)))).
Proof.
  assert (is_object (old_hash_of "/srv" (fs Scenario.server)) = true) as Hobj
    by (vm_compute; reflexivity).
  split; [exact Hobj|].
  destruct (hash_record_written_after_builds "/srv" Scenario.folders Scenario.server
              Hobj)
    as (r & w' & Hrun & Hlines & _ & _ & Hsave & _).
  destruct Hsave as [_ (Hr & Hfs & _)]; [vm_compute; reflexivity|].
  exists w'. rewrite <- Hr. split; [exact Hrun|]. split; [|exact Hfs].
  apply Hlines. apply (bool_decide_unpack _). vm_compute. exact I.
Defined.

Lemma build_failure_is_isolated_witness :
  (forall k, k ∈ ["mods"] -> is_Some (dict_get Scenario.folders k)) /\
  exists w',
    for_each ["mods"] (Server.rebuild "/srv" Scenario.folders) Scenario.server
    = (Ok tt, w') /\
    ((done_line "mods" ∈ stdout w') \/ exists e, failed_line "mods" e ∈ stdout w').
Proof.
  assert (forall k, k ∈ ["mods"] -> is_Some (dict_get Scenario.folders k)) as H.
  { intros k Hk. apply list_elem_of_singleton in Hk. subst k. vm_compute. eauto. }
  split; [exact H|].
  destruct (build_failure_is_isolated "/srv" Scenario.folders ["mods"] Scenario.server H)
    as [(w' & Hrun & Hall) _].
  exists w'. split; [exact Hrun|]. apply Hall. now left.
Defined.


Lemma unreadable_file_always_refetched_witness :
  ("/srv/mods", "b.txt") ∈ Server.walk_files (fs Scenario.server) "/srv/mods" /\
  Server.should_ignore "b.txt" = false /\
  exists manifest,
    Server.scan_folder_dict "/srv/mods" Scenario.server = (Ok manifest, Scenario.server) /\
    manifest !! "b.txt" = Some "error".
Proof.
  assert (("/srv/mods", "b.txt") ∈ Server.walk_files (fs Scenario.server) "/srv/mods")
    as Hwalk by (apply (bool_decide_unpack _); vm_compute; exact I).
  split; [exact Hwalk|]. split; [reflexivity|].
  destruct (unreadable_file_always_refetched Scenario.server "/srv/mods" "/srv/mods"
              "b.txt" Scenario.client "/home/u/mods" Hwalk eq_refl)
    as (manifest & server_dict & Hscan & Hlook & _).
  - intros data H. vm_compute in H. discriminate.
  - apply (bool_decide_unpack _). vm_compute. exact I.
  - exists manifest. split; [exact Hscan | exact Hlook].
Defined.


Lemma diff_keeps_files_outside_manifest_witness :
  Forall (fun e => normalised e = true) (manifest_paths "" Scenario.manifest) /\
  normalised "notes.txt" = true /\
  ("notes.txt" ∉ manifest_paths "" Scenario.manifest) /\
  fs Scenario.client !! os_path.join "/home/u/mods" "notes.txt"
  = Some (FFile true (Toy.bytes "mine")) /\
  fs (Client.collect_download_tasks Scenario.manifest "/home/u/mods" ""
        Scenario.client).2 !! os_path.join "/home/u/mods" "notes.txt"
  = Some (FFile true (Toy.bytes "mine")).
Proof.
  assert (Forall (fun e => normalised e = true)
            (manifest_paths "" Scenario.manifest)) as Hnorm
    by (repeat constructor).
  assert ("notes.txt" ∉ manifest_paths "" Scenario.manifest) as Hnot
    by (apply (bool_decide_unpack _); vm_compute; exact I).
  split; [exact Hnorm|]. split; [reflexivity|]. split; [exact Hnot|].
  split; [reflexivity|].
  apply (diff_keeps_files_outside_manifest Scenario.manifest "/home/u/mods"
           Scenario.client "notes.txt" true (Toy.bytes "mine") Hnorm eq_refl Hnot).
  reflexivity.
Defined.

Lemma missing_archive_serves_homepage_witness :
  dict_get Scenario.folders "mods" = Some "/srv/mods" /\
  cache_files Scenario.server !! "mods" = None /\
  Server.do_GET "/srv" Scenario.folders (Request ("/" +:+ "mods") ["download"] None)
    Scenario.server
  = Server.send_homepage Scenario.folders Scenario.server.
Proof.
  split; [reflexivity|]. split; [reflexivity|].
  apply (missing_archive_serves_homepage "/srv" Scenario.folders "mods" "/srv/mods"
           Scenario.server eq_refl eq_refl eq_refl).
  intros zip_path H. vm_compute in H. discriminate.
Defined.

(** ** The further properties at concrete inputs *)

Lemma ignored_name_is_refused_witness :
  Server.should_ignore (os_path.basename "sub/serveronly_keys.txt") = true /\
  Server.do_GET "/srv" Scenario.folders
    (Request "/mods/sub/serveronly_keys.txt" ["download"] None) Scenario.serving
  = (Ok (Response 404 "text/html;charset=utf-8" (Toy.bytes "File is ignored")),
     Scenario.serving).
Proof.
  split; [reflexivity|].
  refine (ignored_name_is_refused "/srv" Scenario.folders "mods" "/srv/mods"
            "sub/serveronly_keys.txt" ["download"] None Scenario.serving
            _ _ _ _ _);
    first [reflexivity | discriminate].
Defined.

Lemma folder_file_is_served_witness :
  os.lookup (fs Scenario.serving) (os_path.join "/srv/mods" "b/c.txt")
  = Some (FFile true (Toy.bytes "xyz")) /\
  Server.handle "/srv" Scenario.folders
    (Request "/mods/b/c.txt" ["download"] (Some 1)) Scenario.serving
  = (Ok (Some (Response 200 "application/octet-stream" (Toy.bytes "xyz"))),
     Scenario.serving).
Proof.
  split; [reflexivity|].
  refine (folder_file_is_served "/srv" Scenario.folders "mods" "/srv/mods"
            "b/c.txt" ["download"] (Some 1) true (Toy.bytes "xyz") Scenario.serving
            _ _ _ _ _ _);
    first [reflexivity | discriminate].
Defined.

Lemma absolute_sub_path_leaves_folder_witness :
  Str.startswith "/" "/etc/passwd" = true /\
  Server.do_GET "/srv" Scenario.folders
    (Request "/mods//etc/passwd" [] None) Scenario.server_etc
  = (Ok (Response 200 "application/octet-stream" (Toy.bytes "root:x:0:0")),
     Scenario.server_etc).
Proof.
  split; [reflexivity|].
  refine (absolute_sub_path_leaves_folder "/srv" Scenario.folders "mods" "/srv/mods"
            "/etc/passwd" [] None (Toy.bytes "root:x:0:0") Scenario.server_etc
            _ _ _ _ _ _ _);
    first [reflexivity | discriminate].
Defined.

Lemma manifest_is_served_from_record_witness :
  os.isdir (fs Scenario.serving) (os_path.join "/srv/mods" "") = true /\
  Server.do_GET "/srv" Scenario.folders (Client.manifest_url "mods") Scenario.serving
  = (Ok (Response 200 "application/json; charset=utf-8"
           (Toy.js_image (JDict Scenario.manifest))), Scenario.serving).
Proof.
  split; [reflexivity|].
  refine (eq_trans
            (proj1 (manifest_is_served_from_record "/srv" Scenario.folders "mods"
                      "/srv/mods" Scenario.serving _ _ _ _ _ _)) _);
    first [reflexivity | discriminate | vm_compute; reflexivity].
Defined.

Lemma cached_archive_is_served_witness :
  cache_files Scenario.serving !! "mods" = Some "/srv/cache_zip/mods.zip" /\
  Server.do_GET "/srv" Scenario.folders (Client.archive_url "mods") Scenario.serving
  = (Ok (Response 200 "application/octet-stream"
           (Toy.pk_image [("a.txt", Toy.bytes "abcd"); ("b/c.txt", Toy.bytes "xyz")])),
     Scenario.serving).
Proof.
  split; [reflexivity|].
  refine (cached_archive_is_served "/srv" Scenario.folders "mods" "/srv/mods"
            "/srv/cache_zip/mods.zip"
            (Toy.pk_image [("a.txt", Toy.bytes "abcd"); ("b/c.txt", Toy.bytes "xyz")])
            Scenario.serving _ _ _ _ _ _);
    first [reflexivity | discriminate].
Defined.


Lemma unchanged_folders_are_not_rebuilt_witness :
  old_hash_of "/srv" (fs Scenario.pass1.2)
  = JDict [("mods", JDict [("a.txt", JStr (Toy.md5 (Toy.bytes "abcd")));
                           ("b.txt", JStr "error")])] /\
  exists w',
    Server.create_zip_cache "/srv" Scenario.folders Scenario.pass1.2 = (Ok tt, w') /\
    fs w' !! Scenario.archive_path = fs Scenario.pass1.2 !! Scenario.archive_path.
Proof.
  assert (old_hash_of "/srv" (fs Scenario.pass1.2)
          = JDict [("mods", JDict [("a.txt", JStr (Toy.md5 (Toy.bytes "abcd")));
                                   ("b.txt", JStr "error")])]) as Hold
    by (vm_compute; reflexivity).
  split; [exact Hold|].
  destruct (unchanged_folders_are_not_rebuilt "/srv" Scenario.folders _
              Scenario.pass1.2 Hold) as (w' & Hrun & _ & Hfs).
  - intros key folder_path Hin. apply list_elem_of_singleton in Hin.
    injection Hin as -> ->. eexists. split; vm_compute; reflexivity.
  - vm_compute. reflexivity.
  - vm_compute. reflexivity.
  - exists w'. split; [exact Hrun|]. rewrite Hfs.
    apply lookup_insert_ne. vm_compute. discriminate.
Defined.

Lemma second_pass_rebuilds_nothing_witness :
  NoDup Scenario.folders.*1 /\
  writable (fs Scenario.server) (Server.HASH_RECORD_FILE "/srv") = true /\
  Scenario.pass1.1 = Ok tt /\
  exists w2,
    Server.create_zip_cache "/srv" Scenario.folders Scenario.pass1.2 = (Ok tt, w2) /\
    fs w2 = fs Scenario.pass1.2.
Proof.
  assert (NoDup Scenario.folders.*1) as Hnd
    by (apply (bool_decide_unpack _); vm_compute; exact I).
  split; [exact Hnd|]. split; [reflexivity|].
  destruct (second_pass_rebuilds_nothing "/srv" Scenario.folders Scenario.server Hnd)
    as (H1 & w2 & H2 & Hfs & _).
  - vm_compute. reflexivity.
  - vm_compute. reflexivity.
  - vm_compute. reflexivity.
  - vm_compute. reflexivity.
  - intros key folder_path Hin. apply list_elem_of_singleton in Hin.
    injection Hin as -> ->. vm_compute. reflexivity.
  - split; [exact H1|]. exists w2. split; [exact H2 | exact Hfs].
Defined.


Lemma lost_record_rebuilds_every_key_witness :
  os.lookup (fs Scenario.server) (Server.HASH_RECORD_FILE "/srv") = None /\
  Server.load_old_hash "/srv" Scenario.server = (Ok (JDict []), Scenario.server) /\
  (("[快取更新完成] " +:+ "mods")
   ∈ stdout (Server.create_zip_cache "/srv" Scenario.folders Scenario.server).2 \/
   exists e,
     ("[快取失敗] " +:+ "mods" +:+ ": " +:+ e)
     ∈ stdout (Server.create_zip_cache "/srv" Scenario.folders Scenario.server).2).
Proof.
  split; [reflexivity|].
  destruct (lost_record_rebuilds_every_key "/srv" Scenario.folders Scenario.server)
    as [Hload Hall].
  - intros data H. vm_compute in H. discriminate.
  - split; [exact Hload|]. apply Hall. now left.
Defined.

Lemma tasks_are_manifest_entries_witness :
  (Client.collect_download_tasks Scenario.manifest "/home/u/mods" ""
     Scenario.client).1 = Ok ["b/c.txt"] /\
  sublist ["b/c.txt"] (manifest_paths "" Scenario.manifest) /\
  (Client.change_ratio ["b/c.txt"] (Client.count_server_files Scenario.manifest)
   <= 1)%Q.
Proof.
  assert ((Client.collect_download_tasks Scenario.manifest "/home/u/mods" ""
             Scenario.client).1 = Ok ["b/c.txt"]) as Hrun
    by (vm_compute; reflexivity).
  split; [exact Hrun|].
  destruct (tasks_are_manifest_entries Scenario.manifest "/home/u/mods"
              Scenario.client _ ["b/c.txt"] (pair_eq_fst _ _ Hrun))
    as (Hsub & _ & _ & Hratio).
  split; [exact Hsub|]. apply Hratio. discriminate.
Defined.

Lemma manifest_failure_skips_folder_witness :
  Scenario.http (Client.manifest_url "maps")
  = Some (Response 200 "text/html; charset=utf-8"
            (content (default (Response 0 "" [])
                        (Scenario.http (Client.manifest_url "maps"))))) /\
  exists line,
    Client.sync_folder "/home/u" Scenario.http "maps"
      (Client.FolderInfo "/home/u/maps" false) Scenario.client
    = (Ok tt,
       World (fs Scenario.client)
             (stdout Scenario.client ++ ["
🔍 檢查資料夾 " +:+ "maps" +:+ " ..."; line])
             (sent Scenario.client ++ [Client.manifest_url "maps"])
             (cache_files Scenario.client)).
Proof.
  split; [vm_compute; reflexivity|].
  apply (manifest_failure_skips_folder "/home/u" Scenario.http "maps"
           (Client.FolderInfo "/home/u/maps" false) Scenario.client eq_refl).
  vm_compute. right. reflexivity.
Defined.

Lemma non_object_manifest_ends_the_run_witness :
  is_object (JList [JStr "a.txt"]) = false /\
  Client.main "/home/u" (Scenario.answering (JList [JStr "a.txt"]))
    [("mods", Client.FolderInfo "/home/u/mods" false);
     ("maps", Client.FolderInfo "/home/u/maps" false)] Scenario.client
  = (Raise "AttributeError",
     World (fs Scenario.client)
           (stdout Scenario.client ++ ["
🔍 檢查資料夾 " +:+ "mods" +:+ " ..."])
           (sent Scenario.client ++ [Client.manifest_url "mods"])
           (cache_files Scenario.client)).
Proof.
  split; [reflexivity|].
  apply (non_object_manifest_ends_the_run "/home/u"
           (Scenario.answering (JList [JStr "a.txt"])) "mods"
           (Client.FolderInfo "/home/u/mods" false)
           [("maps", Client.FolderInfo "/home/u/maps" false)]
           (Response 200 "application/json; charset=utf-8"
              (Toy.js_image (JList [JStr "a.txt"])))
           (JList [JStr "a.txt"]) Scenario.client);
    reflexivity.
Defined.

Lemma manifest_without_files_keeps_the_disk_witness :
  Client.count_server_files [] = 0 /\
  fs (Client.sync_folder "/home/u" (Scenario.answering (JDict [])) "mods"
        (Client.FolderInfo "/home/u/mods" false) Scenario.client).2
    !! "/home/u/mods/notes.txt" = Some (FFile true (Toy.bytes "mine")).
Proof.
  split; [reflexivity|].
  destruct (manifest_without_files_keeps_the_disk "/home/u"
              (Scenario.answering (JDict [])) "mods"
              (Client.FolderInfo "/home/u/mods" false)
              (Response 200 "application/json; charset=utf-8"
                 (Toy.js_image (JDict []))) [] Scenario.client)
    as (_ & Hkept & _); [reflexivity..|].
  apply Hkept. reflexivity.
Defined.


Lemma fresh_download_writes_the_body_witness :
  fs Scenario.client_empty !! os_path.join "/home/u/mods" "a.txt" = None /\
  Client.download_file Scenario.http "mods" "a.txt" "/home/u/mods" 3
    Scenario.client_empty
  = (Ok true,
     World (<["/home/u/mods/a.txt" := FFile true (Toy.bytes "abcd")]>
              (fs Scenario.client_empty))
           ["[下載完成] mods/a.txt"]
           [Request "/mods/a.txt" ["download"] None] ∅).
Proof.
  split; [reflexivity|].
  apply (fresh_download_writes_the_body Scenario.http "mods" "a.txt" "/home/u/mods"
           2 (Response 200 "application/octet-stream" (Toy.bytes "abcd"))
           Scenario.client_empty).
  - discriminate.
  - reflexivity.
  - intros a Ha. vm_compute in Ha.
    apply elem_of_cons in Ha as [->|Ha]; [reflexivity|].
    apply list_elem_of_singleton in Ha as ->. reflexivity.
  - reflexivity.
  - reflexivity.
  - vm_compute. reflexivity.
  - now left.
Defined.

Lemma resume_with_partial_content_is_exact_witness :
  os.lookup (fs Scenario.client_partial) (os_path.join "/home/u/mods" "a.txt")
  = Some (FFile true (take 2 (Toy.bytes "abcd"))) /\
  Client.download_file (Scenario.ranged (Toy.bytes "abcd")) "mods" "a.txt"
    "/home/u/mods" 3 Scenario.client_partial
  = (Ok true,
     World (<["/home/u/mods/a.txt" := FFile true (Toy.bytes "abcd")]>
              (fs Scenario.client_partial))
           ["[下載完成] mods/a.txt"]
           [Request "/mods/a.txt" ["download"] (Some 2)] ∅).
Proof.
  split; [reflexivity|].
  apply (resume_with_partial_content_is_exact (Scenario.ranged (Toy.bytes "abcd"))
           "mods" "a.txt" "/home/u/mods" 2
           (Response 206 "application/octet-stream" (drop 2 (Toy.bytes "abcd")))
           (Toy.bytes "abcd") 2 Scenario.client_partial).
  - discriminate.
  - reflexivity.
  - intros a Ha. vm_compute in Ha.
    apply elem_of_cons in Ha as [->|Ha]; [reflexivity|].
    apply list_elem_of_singleton in Ha as ->. reflexivity.
  - vm_compute. lia.
  - reflexivity.
  - reflexivity.
  - reflexivity.
  - reflexivity.
Defined.

Lemma failed_fetch_extracts_nothing_witness :
  zip_members
    (content (default (Response 0 "" [])
                (Scenario.http (Client.archive_url "maps")))) = None /\
  exists lines e,
    Client.download_and_extract_zip "/home/u" Scenario.http
      (Client.archive_url "maps") "/home/u/maps" Scenario.client
    = (Ok tt,
       World (delete (os_path.join "/home/u" "temp.zip") (fs Scenario.client))
             (stdout Scenario.client ++ lines ++ ["❌ 下載或解壓失敗: " +:+ e])
             (sent Scenario.client ++ [Client.archive_url "maps"])
             (cache_files Scenario.client)).
Proof.
  split; [vm_compute; reflexivity|].
  apply (failed_fetch_extracts_nothing "/home/u" Scenario.http
           (Client.archive_url "maps") "/home/u/maps" Scenario.client).
  - discriminate.
  - vm_compute. reflexivity.
Defined.

Lemma failed_replace_leaves_destination_empty_witness :
  fs Scenario.client !! "/home/u/mods/a.txt" = Some (FFile true (Toy.bytes "abcd")) /\
  exists w',
    Client.sync_folder "/home/u" (fun _ => None) "mods"
      (Client.FolderInfo "/home/u/mods" true) Scenario.client = (Ok tt, w') /\
    fs w' !! "/home/u/mods/a.txt" = None /\
    fs w' !! "/home/u/mods/notes.txt" = None /\
    fs w' !! "/home/u/mods" = Some FDir.
Proof.
  split; [reflexivity|].
  destruct (failed_replace_leaves_destination_empty "/home/u" (fun _ => None) "mods"
              (Client.FolderInfo "/home/u/mods" true) [] Scenario.client)
    as [Hforce _].
  - discriminate.
  - reflexivity.
  - intros a Ha. vm_compute in Ha.
    apply elem_of_cons in Ha as [->|Ha]; [reflexivity|].
    apply list_elem_of_singleton in Ha as ->. reflexivity.
  - reflexivity.
  - discriminate.
  - exact I.
  - destruct (Hforce eq_refl) as (w' & Hrun & Hbelow & Hroot & _).
    exists w'. split; [exact Hrun|].
    split; [apply Hbelow; [reflexivity | discriminate]|].
    split; [apply Hbelow; [reflexivity | discriminate] | exact Hroot].
Defined.

Lemma diff_of_nested_manifest_witness :
  Forall (fun p => normalised p = true) (manifest_paths "" Scenario.nested_manifest) /\
  NoDup (manifest_paths "" Scenario.nested_manifest) /\
  Forall (fun d => can_make (fs Scenario.client) (os_path.join "/home/u/mods" d))
         (manifest_dirs "" Scenario.nested_manifest) /\
  exists w',
    Client.collect_download_tasks Scenario.nested_manifest "/home/u/mods" ""
      Scenario.client = (Ok ["b/c.txt"], w') /\
    Client.change_ratio ["b/c.txt"]
      (Client.count_server_files Scenario.nested_manifest) = (1 # 2)%Q.
Proof.
  assert (Forall (fun p => normalised p = true)
            (manifest_paths "" Scenario.nested_manifest)) as Hn
    by (repeat constructor).
  assert (NoDup (manifest_paths "" Scenario.nested_manifest)) as Hnd
    by (apply (bool_decide_unpack _); vm_compute; exact I).
  assert (Forall (fun d => can_make (fs Scenario.client)
                             (os_path.join "/home/u/mods" d))
            (manifest_dirs "" Scenario.nested_manifest)) as Hmk
    by (apply (bool_decide_unpack _); vm_compute; exact I).
  split; [exact Hn|]. split; [exact Hnd|]. split; [exact Hmk|].
  destruct (diff_of_nested_manifest Scenario.nested_manifest "/home/u/mods"
              Scenario.client Hn Hnd Hmk)
    as (tasks & w' & Hrun & Htasks & _ & _ & _ & Hratio).
  assert (tasks = ["b/c.txt"]) as Ht by (rewrite Htasks; vm_compute; reflexivity).
  rewrite Ht in Hrun, Hratio.
  exists w'. split; [exact Hrun|]. rewrite Hratio. vm_compute. reflexivity.
Defined.
